(** * vtvtimes-dashboard: the sync pipeline, the token gate and the read API

    A shallow embedding of the Python sources
    - [app.py] (reference table, realtime fetch, [save_to_database], routes),
    - [refresh_facebook_token.py] ([FacebookTokenManager]),
    - [fetch_facebook_data_with_refresh.py] ([get_valid_page_token] and the
      daily-insights upsert),
    - [facebook_api.py] ([format_posts_for_database],
      [format_insights_for_database]) and
    - [save_facebook_data.py] ([save_post_insights], [save_page_stats],
      [calculate_fan_growth]),
    followed by the properties of the specification that concern them and
    by further properties of the same code.

    Conventions.  A Python [dict] is a [gmap], a Python [set] a [gset]; the
    iteration order of a set is the one of [elements], about which nothing
    is assumed.  A table of the store is the list of its rows in insertion
    order.  Code that can raise runs in a state-and-exception monad; the
    state is the database connection (for the store) or the process
    environment together with the [.env] file (for the token manager).
    [print] calls are not modelled.  Wall-clock readings are rationals. *)

From Stdlib Require Import Ascii String QArith.
From stdpp Require Import gmap strings list sorting.

Local Open Scope Z_scope.

(** ** Python values and exceptions *)

Module Py.

Inductive exn :=
| ValueError (msg : string)
| TypeError (msg : string)
| IndexError (msg : string)
| DatabaseError (msg : string)
| RequestException (msg : string).

(** [str(e)] *)
Definition str_exn (e : exn) : string :=
  match e with
  | ValueError m | TypeError m | IndexError m
  | DatabaseError m | RequestException m => m
  end.

Inductive result (A : Type) :=
| Ok (a : A)
| Raise (e : exn).
Arguments Ok {A} a.
Arguments Raise {A} e.

(** Computations over a state [S] that either return or raise. *)
Record M (S A : Type) := MkM { run : S -> result A * S }.
Arguments MkM {S A} _.
Arguments run {S A} _ _.

Definition ret {S A} (a : A) : M S A := MkM (fun s => (Ok a, s)).

Definition bind {S A B} (m : M S A) (k : A -> M S B) : M S B :=
  MkM (fun s =>
         match run m s with
         | (Ok a, s') => run (k a) s'
         | (Raise e, s') => (Raise e, s')
         end).

Definition raise {S A} (e : exn) : M S A := MkM (fun s => (Raise e, s)).

Definition get {S} : M S S := MkM (fun s => (Ok s, s)).
Definition put {S} (s : S) : M S unit := MkM (fun _ => (Ok tt, s)).
Definition modify {S} (f : S -> S) : M S unit := MkM (fun s => (Ok tt, f s)).

(** [try: m  except Exception as e: h e] *)
Definition try_except {S A} (m : M S A) (h : exn -> M S A) : M S A :=
  MkM (fun s =>
         match run m s with
         | (Ok a, s') => (Ok a, s')
         | (Raise e, s') => run (h e) s'
         end).

(** [try: m  finally: f] (the [finally] blocks of the sources do not raise) *)
Definition try_finally {S A} (m : M S A) (f : S -> S) : M S A :=
  MkM (fun s => let '(r, s') := run m s in (r, f s')).

Definition lift_result {S A} (r : result A) : M S A :=
  MkM (fun s => (r, s)).

(** [for x in l: body x] *)
Fixpoint for_each {S A} (l : list A) (body : A -> M S unit) : M S unit :=
  match l with
  | [] => ret tt
  | x :: l' => bind (body x) (fun _ => for_each l' body)
  end.

Declare Scope py_scope.
Delimit Scope py_scope with py.
Notation "'let!' x ':=' m 'in' k" := (bind m (fun x => k))
  (at level 10, x pattern, m at level 100, k at level 200) : py_scope.
Notation "m ';;' k" := (bind m (fun _ => k))
  (at level 100, k at level 200, right associativity) : py_scope.

(** Truthiness of a value that is either [None] or a [str]. *)
Definition truthy (o : option string) : bool :=
  match o with
  | Some s => negb (String.eqb s "")
  | None => false
  end.

(** *** [int(s)] for a [str] argument

    Surrounding whitespace is stripped, one sign is accepted, and the
    digits may be grouped by single underscores.  (Decimal digits and
    white space outside ASCII, which [int] also accepts, are not
    modelled: on a string with such characters [int] below raises where
    Python's returns a number.) *)

Definition is_space (c : ascii) : bool :=
  let n := nat_of_ascii c in
  ((9 <=? n) && (n <=? 13) || (n =? 32) || ((28 <=? n) && (n <=? 31)))%nat.

Definition digit_of (c : ascii) : option Z :=
  let n := nat_of_ascii c in
  if ((48 <=? n) && (n <=? 57))%nat then Some (Z.of_nat n - 48) else None.

Fixpoint lstrip (s : string) : string :=
  match s with
  | String c s' => if is_space c then lstrip s' else s
  | EmptyString => EmptyString
  end.

Definition strip (s : string) : string :=
  String.rev (lstrip (String.rev (lstrip s))).

Fixpoint int_digits (s : string) (acc : Z) (after_digit : bool) : option Z :=
  match s with
  | EmptyString => if after_digit then Some acc else None
  | String c s' =>
      match digit_of c with
      | Some d => int_digits s' (10 * acc + d) true
      | None =>
          if Ascii.eqb c "_" && after_digit
          then int_digits s' acc false
          else None
      end
  end.

Definition int_opt (s : string) : option Z :=
  match strip s with
  | String "+" s' => int_digits s' 0 false
  | String "-" s' => Z.opp <$> int_digits s' 0 false
  | s' => int_digits s' 0 false
  end.

Definition int (s : string) : result Z :=
  match int_opt s with
  | Some z => Ok z
  | None => Raise (ValueError "invalid literal for int() with base 10")
  end.

(** [l[0]] *)
Definition index0 {A} (l : list A) : result A :=
  match l with
  | x :: _ => Ok x
  | [] => Raise (IndexError "list index out of range")
  end.

End Py.

Import Py.
Local Open Scope py_scope.

(** ** The store: tables, statements and a psycopg2 connection *)

Module Store.

(** Calendar dates are proleptic Gregorian ordinals ([date.toordinal()]):
    day 1 is 0001-01-01. *)
Definition is_leap (y : Z) : bool :=
  (y mod 4 =? 0) && (negb (y mod 100 =? 0) || (y mod 400 =? 0)).

Definition days_before_year (y : Z) : Z :=
  let p := y - 1 in p * 365 + p / 4 - p / 100 + p / 400.

Definition days_before_month (y m : Z) : Z :=
  nth (Z.to_nat (m - 1)) [0; 31; 59; 90; 120; 151; 181; 212; 243; 273; 304; 334] 0
  + (if (2 <? m) && is_leap y then 1 else 0).

Definition ymd (y m d : Z) : Z :=
  days_before_year y + days_before_month y m + d.

Record location_row := {
  province : string;
  city : string;
  latitude : Q;
  longitude : Q;
  active_users_5min : Z;
  active_users_30min : Z
}.

Record source_row := { source : string; active_users : Z }.

Record page_row := { page_title : string; screen_name : string; views : Z }.

Record register_row := {
  active_users_5m : option Z;
  active_users_30m : option Z;
  recorded_at : Z
}.

Record daily_row := {
  metric : string;
  report_type : string;
  date : Z;
  value : Z
}.

Record post_row := {
  post_id : string;
  post_message : string;
  post_type : string;
  created_time : string;
  post_impressions : Z;
  post_impressions_unique : Z;
  post_engaged_users : Z;
  post_reactions : Z;
  post_comments : Z;
  post_shares : Z;
  post_clicks : Z;
  video_views : Z;
  updated_at : option Z   (* [None]: not set by any statement *)
}.

Record database := {
  user_by_location : list location_row;
  user_by_source : list source_row;
  views_by_page : list page_row;
  realtime_active_users : list register_row;
  facebook_page_insights_daily : list daily_row;
  facebook_post_insights : list post_row
}.

(** The write statements the sources send, with their parameters bound. *)
Inductive statement :=
| TruncateSnapshots
    (* TRUNCATE user_by_location, user_by_source, views_by_page *)
| InsertLocation (r : location_row)
| InsertSource (r : source_row)
| InsertPage (r : page_row)
| UpsertDaily (r : daily_row)
    (* INSERT .. ON CONFLICT (metric, date) DO UPDATE SET value = EXCLUDED.value *)
| UpsertPost (r : post_row).
    (* INSERT .. ON CONFLICT (post_id) DO UPDATE SET <counters>, updated_at *)

(** [INSERT .. ON CONFLICT (key) DO UPDATE SET ..]: a row in conflict
    with the new row [r] is updated in place, otherwise [r] is appended. *)
Fixpoint upsert {A} (conflict : A -> A -> bool) (update : A -> A -> A)
    (r : A) (t : list A) : list A :=
  match t with
  | [] => [r]
  | x :: t' =>
      if conflict r x then update r x :: t' else x :: upsert conflict update r t'
  end.

Definition daily_key (x : daily_row) : string * Z := (metric x, date x).

Definition daily_conflict (r x : daily_row) : bool :=
  String.eqb (metric x) (metric r) && (date x =? date r).

(** [DO UPDATE SET value = EXCLUDED.value] *)
Definition daily_update (r x : daily_row) : daily_row :=
  {| metric := metric x; report_type := report_type x;
     date := date x; value := value r |}.

Definition upsert_daily (r : daily_row) (t : list daily_row) : list daily_row :=
  upsert daily_conflict daily_update r t.

Definition post_conflict (r x : post_row) : bool :=
  String.eqb (post_id x) (post_id r).

(** The conflicting row keeps its message, type and creation time. *)
Definition post_update (now : Z) (r x : post_row) : post_row :=
  {| post_id := post_id x;
     post_message := post_message x;
     post_type := post_type x;
     created_time := created_time x;
     post_impressions := post_impressions r;
     post_impressions_unique := post_impressions_unique r;
     post_engaged_users := post_engaged_users r;
     post_reactions := post_reactions r;
     post_comments := post_comments r;
     post_shares := post_shares r;
     post_clicks := post_clicks r;
     video_views := video_views r;
     updated_at := Some now |}.

Definition upsert_post (now : Z) (r : post_row) (t : list post_row) : list post_row :=
  upsert post_conflict (post_update now) r t.

Definition set_user_by_location (t : list location_row) (db : database) :=
  {| user_by_location := t;
     user_by_source := user_by_source db;
     views_by_page := views_by_page db;
     realtime_active_users := realtime_active_users db;
     facebook_page_insights_daily := facebook_page_insights_daily db;
     facebook_post_insights := facebook_post_insights db |}.

Definition set_user_by_source (t : list source_row) (db : database) :=
  {| user_by_location := user_by_location db;
     user_by_source := t;
     views_by_page := views_by_page db;
     realtime_active_users := realtime_active_users db;
     facebook_page_insights_daily := facebook_page_insights_daily db;
     facebook_post_insights := facebook_post_insights db |}.

Definition set_views_by_page (t : list page_row) (db : database) :=
  {| user_by_location := user_by_location db;
     user_by_source := user_by_source db;
     views_by_page := t;
     realtime_active_users := realtime_active_users db;
     facebook_page_insights_daily := facebook_page_insights_daily db;
     facebook_post_insights := facebook_post_insights db |}.

Definition set_daily (t : list daily_row) (db : database) :=
  {| user_by_location := user_by_location db;
     user_by_source := user_by_source db;
     views_by_page := views_by_page db;
     realtime_active_users := realtime_active_users db;
     facebook_page_insights_daily := t;
     facebook_post_insights := facebook_post_insights db |}.

Definition set_posts (t : list post_row) (db : database) :=
  {| user_by_location := user_by_location db;
     user_by_source := user_by_source db;
     views_by_page := views_by_page db;
     realtime_active_users := realtime_active_users db;
     facebook_page_insights_daily := facebook_page_insights_daily db;
     facebook_post_insights := t |}.

(** What a statement does to the tables; [now] is [CURRENT_TIMESTAMP]. *)
Definition run_statement (now : Z) (st : statement) (db : database) : database :=
  match st with
  | TruncateSnapshots =>
      set_user_by_location [] (set_user_by_source [] (set_views_by_page [] db))
  | InsertLocation r => set_user_by_location (user_by_location db ++ [r]) db
  | InsertSource r => set_user_by_source (user_by_source db ++ [r]) db
  | InsertPage r => set_views_by_page (views_by_page db ++ [r]) db
  | UpsertDaily r => set_daily (upsert_daily r (facebook_page_insights_daily db)) db
  | UpsertPost r => set_posts (upsert_post now r (facebook_post_insights db)) db
  end.

(** Which calls on the connection fail: connecting, the [n]-th
    [cursor.execute] of the connection (counted from 0), the commit.
    Each failure carries the message of the raised error. *)
Record faults := {
  connect_error : option string;
  execute_error : nat -> option string;
  commit_error : option string
}.

Definition no_faults : faults :=
  {| connect_error := None; execute_error := fun _ => None; commit_error := None |}.

Record server := {
  contents : database;          (* the committed state every reader sees *)
  current_timestamp : Z;
  current_date : Z;
  failing : faults
}.

(** A connection outside autocommit mode: statements act on the open
    transaction, readers keep seeing [committed] until [commit]. *)
Record connection := {
  committed : database;
  pending : database;
  executed : nat;
  clock : Z;
  today : Z;
  conn_faults : faults
}.

Definition get_db_connection (srv : server) : result connection :=
  match connect_error (failing srv) with
  | Some msg => Raise (DatabaseError msg)
  | None =>
      Ok {| committed := contents srv; pending := contents srv; executed := 0%nat;
            clock := current_timestamp srv; today := current_date srv;
            conn_faults := failing srv |}
  end.

Definition step (c : connection) (db : database) : connection :=
  {| committed := committed c; pending := db; executed := S (executed c);
     clock := clock c; today := today c; conn_faults := conn_faults c |}.

(** [cursor.execute(sql, params)] for a write statement *)
Definition execute (st : statement) : M connection unit :=
  MkM (fun c =>
         match execute_error (conn_faults c) (executed c) with
         | Some msg => (Raise (DatabaseError msg), step c (pending c))
         | None => (Ok tt, step c (run_statement (clock c) st (pending c)))
         end).

(** [cursor.execute(select)] followed by reading the result set *)
Definition query {A} (select : database -> A) : M connection A :=
  MkM (fun c =>
         match execute_error (conn_faults c) (executed c) with
         | Some msg => (Raise (DatabaseError msg), step c (pending c))
         | None => (Ok (select (pending c)), step c (pending c))
         end).

Definition commit : M connection unit :=
  MkM (fun c =>
         match commit_error (conn_faults c) with
         | Some msg => (Raise (DatabaseError msg), c)
         | None =>
             (Ok tt, {| committed := pending c; pending := pending c;
                        executed := executed c; clock := clock c;
                        today := today c; conn_faults := conn_faults c |})
         end).

Definition discard (c : connection) : connection :=
  {| committed := committed c; pending := committed c; executed := executed c;
     clock := clock c; today := today c; conn_faults := conn_faults c |}.

Definition rollback : M connection unit := modify discard.

(** [cursor.close(); conn.close()]: an open transaction is abandoned. *)
Definition close (c : connection) : connection := discard c.

(** The server after the connection is gone. *)
Definition disconnect (srv : server) (c : connection) : server :=
  {| contents := committed c; current_timestamp := current_timestamp srv;
     current_date := current_date srv; failing := failing srv |}.

End Store.

Import Store.

(** ** [app.py] *)

Module App.

Record city_info := { lat : Q; lng : Q; name : string }.

(** Coordinates and display names of the provinces and cities of Vietnam
    that the map knows. *)
Definition VIETNAM_CITIES : gmap string city_info :=
  list_to_map [
    ("Hanoi", {| lat := 21.0285; lng := 105.8542; name := "Hà Nội" |});
    ("Ho Chi Minh City", {| lat := 10.8231; lng := 106.6297; name := "TP. Hồ Chí Minh" |});
    ("Da Nang", {| lat := 16.0544; lng := 108.2022; name := "Đà Nẵng" |});
    ("Hai Phong", {| lat := 20.8449; lng := 106.6881; name := "Hải Phòng" |});
    ("Can Tho", {| lat := 10.0452; lng := 105.7469; name := "Cần Thơ" |});
    ("Bien Hoa", {| lat := 10.9470; lng := 106.8196; name := "Biên Hòa" |});
    ("Hue", {| lat := 16.4637; lng := 107.5909; name := "Huế" |});
    ("Nha Trang", {| lat := 12.2388; lng := 109.1967; name := "Nha Trang" |});
    ("Buon Ma Thuot", {| lat := 12.6675; lng := 108.0378; name := "Buôn Ma Thuột" |});
    ("Quy Nhon", {| lat := 13.7830; lng := 109.2192; name := "Quy Nhơn" |});
    ("Vung Tau", {| lat := 10.3460; lng := 107.0843; name := "Vũng Tàu" |});
    ("Thai Nguyen", {| lat := 21.5670; lng := 105.8252; name := "Thái Nguyên" |});
    ("Nam Dinh", {| lat := 20.4388; lng := 106.1621; name := "Nam Định" |});
    ("Vinh", {| lat := 18.6796; lng := 105.6813; name := "Vinh" |})
  ].

#[global] Arguments VIETNAM_CITIES : simpl never.

(** *** The realtime report client *)

Record MinuteRange := { range_name : string; start_minutes_ago : Z }.

Record RunRealtimeReportRequest := {
  property : string;
  dimensions : list string;
  metrics : list string;
  minute_ranges : list MinuteRange
}.

(** A row carries the [.value] of each dimension and of each metric. *)
Record Row := { dimension_values : list string; metric_values : list string }.

Record RunRealtimeReportResponse := { rows : list Row }.

(** [BetaAnalyticsDataClient().run_realtime_report]: answers or raises. *)
Definition report_client : Type :=
  RunRealtimeReportRequest -> result RunRealtimeReportResponse.

Record ga4_data := {
  users_5min : RunRealtimeReportResponse;
  users_30min : RunRealtimeReportResponse;
  by_device : RunRealtimeReportResponse;
  by_page : RunRealtimeReportResponse
}.

Definition req_property (GA4_PROPERTY_ID : string) : string :=
  "properties/" +:+ GA4_PROPERTY_ID.

Definition request_5min (pid : string) : RunRealtimeReportRequest :=
  {| property := req_property pid;
     dimensions := ["city"];
     metrics := ["activeUsers"];
     minute_ranges := [{| range_name := "0-5 minutes ago"; start_minutes_ago := 5 |}] |}.

Definition request_30min (pid : string) : RunRealtimeReportRequest :=
  {| property := req_property pid;
     dimensions := ["city"];
     metrics := ["activeUsers"];
     minute_ranges := [{| range_name := "0-29 minutes ago"; start_minutes_ago := 29 |}] |}.

Definition request_device (pid : string) : RunRealtimeReportRequest :=
  {| property := req_property pid;
     dimensions := ["deviceCategory"];
     metrics := ["activeUsers"];
     minute_ranges := [] |}.

Definition request_page (pid : string) : RunRealtimeReportRequest :=
  {| property := req_property pid;
     dimensions := ["unifiedScreenName"];
     metrics := ["screenPageViews"];
     minute_ranges := [] |}.

Definition fetch_ga4_realtime_data (client : report_client) (pid : string)
  : result ga4_data :=
  match client (request_5min pid) with
  | Raise e => Raise e
  | Ok response_5min =>
  match client (request_30min pid) with
  | Raise e => Raise e
  | Ok response_30min =>
  match client (request_device pid) with
  | Raise e => Raise e
  | Ok response_device =>
  match client (request_page pid) with
  | Raise e => Raise e
  | Ok response_page =>
      Ok {| users_5min := response_5min;
            users_30min := response_30min;
            by_device := response_device;
            by_page := response_page |}
  end end end end.

(** *** Writing one realtime snapshot *)

(** [row.dimension_values[0].value, int(row.metric_values[0].value)] *)
Definition row_key_count (row : Row) : result (string * Z) :=
  match index0 (dimension_values row) with
  | Raise e => Raise e
  | Ok key =>
      match index0 (metric_values row) with
      | Raise e => Raise e
      | Ok v =>
          match int v with
          | Raise e => Raise e
          | Ok n => Ok (key, n)
          end
      end
  end.

(** The loops that fill [users_5min_dict] and [users_30min_dict]. *)
Fixpoint users_dict (rs : list Row) (d : gmap string Z) : result (gmap string Z) :=
  match rs with
  | [] => Ok d
  | row :: rs' =>
      match row_key_count row with
      | Raise e => Raise e
      | Ok (city, users) => users_dict rs' (<[city := users]> d)
      end
  end.

Definition insert_city (users_5min_dict users_30min_dict : gmap string Z)
    (city : string) : M connection unit :=
  match VIETNAM_CITIES !! city with
  | Some city_info =>
      execute (InsertLocation
        {| province := name city_info;
           Store.city := city;
           latitude := lat city_info;
           longitude := lng city_info;
           active_users_5min := default 0 (users_5min_dict !! city);
           active_users_30min := default 0 (users_30min_dict !! city) |})
  | None => ret tt
  end.

Definition insert_device (row : Row) : M connection unit :=
  let! (device, users) := lift_result (row_key_count row) in
  execute (InsertSource {| source := device; active_users := users |}).

Definition insert_page (row : Row) : M connection unit :=
  let! (page_name, views) := lift_result (row_key_count row) in
  execute (InsertPage {| page_title := page_name; screen_name := page_name;
                         Store.views := views |}).

(** The body of the [try] block. *)
Definition save_body (data : ga4_data) : M connection unit :=
  execute TruncateSnapshots ;;
  let! users_5min_dict := lift_result (users_dict (rows (users_5min data)) ∅) in
  let! users_30min_dict := lift_result (users_dict (rows (users_30min data)) ∅) in
  let all_cities : gset string := dom users_5min_dict ∪ dom users_30min_dict in
  for_each (elements all_cities) (insert_city users_5min_dict users_30min_dict) ;;
  for_each (rows (by_device data)) insert_device ;;
  for_each (rows (by_page data)) insert_page ;;
  commit.

Definition save_to_database (data : ga4_data) (srv : server)
  : result unit * server :=
  match get_db_connection srv with
  | Raise e => (Raise e, srv)
  | Ok conn =>
      let '(r, conn') :=
        run (try_finally
               (try_except (save_body data) (fun e => rollback ;; raise e))
               close) conn in
      (r, disconnect srv conn')
  end.

(** *** Routes *)

#[local] Set Warnings "-register-all".
Inductive json :=
| JNull
| JInt (n : Z)
| JNum (q : Q)
| JStr (s : string)
| JArr (l : list json)
| JObj (kv : list (string * json)).

(** What the client of a route receives: the [jsonify]-ed value with its
    status, or, when an exception leaves the view function, the error
    page of the framework. *)
Inductive response :=
| Jsonify (body : json) (status : Z)
| ErrorPage (e : exn).

(** A view function without a [try]: connect, run the queries, answer. *)
Definition view (srv : server) (queries : M connection json) : response :=
  match get_db_connection srv with
  | Raise e => ErrorPage e
  | Ok conn =>
      match run queries conn with
      | (Ok body, _) => Jsonify body 200
      | (Raise e, _) => ErrorPage e
      end
  end.

Definition location_json (r : location_row) : json :=
  JObj [("province", JStr (province r)); ("city", JStr (city r));
        ("latitude", JNum (latitude r)); ("longitude", JNum (longitude r));
        ("active_users_5min", JInt (active_users_5min r));
        ("active_users_30min", JInt (active_users_30min r))].

Definition source_json (r : source_row) : json :=
  JObj [("source", JStr (source r)); ("active_users", JInt (active_users r))].

Definition page_json (r : page_row) : json :=
  JObj [("page_title", JStr (page_title r)); ("screen_name", JStr (screen_name r));
        ("views", JInt (views r))].

(** [ORDER BY column DESC] *)
Definition desc {A} (column : A -> Z) (x y : A) : Prop := column y <= column x.

#[global] Instance desc_dec {A} (column : A -> Z) x y : Decision (desc column x y).
Proof. unfold desc. apply _. Defined.

Definition order_by_desc {A} (column : A -> Z) (t : list A) : list A :=
  merge_sort (desc column) t.

Definition get_map_data (srv : server) : response :=
  view srv
    (let! data := query (fun db => order_by_desc active_users_30min (user_by_location db)) in
     ret (JArr (location_json <$> data))).

(** [ORDER BY recorded_at DESC LIMIT 1] and [cursor.fetchone()] *)
Definition latest_register (t : list register_row) : option register_row :=
  head (order_by_desc recorded_at t).

(** [cursor.fetchone()[0] or 0] *)
Definition first_column_or_0 (row : option (option Z)) : result Z :=
  match row with
  | None => Raise (TypeError "'NoneType' object is not subscriptable")
  | Some column => Ok (default 0 column)
  end.

Definition get_active_users (srv : server) : response :=
  view srv
    (let! row_5 := query (fun db => active_users_5m <$> latest_register (realtime_active_users db)) in
     let! users_5min := lift_result (first_column_or_0 row_5) in
     let! row_30 := query (fun db => active_users_30m <$> latest_register (realtime_active_users db)) in
     let! users_30min := lift_result (first_column_or_0 row_30) in
     ret (JObj [("users_5min", JInt users_5min); ("users_30min", JInt users_30min)])).

Definition get_users_by_source (srv : server) : response :=
  view srv
    (let! data := query (fun db => take 10 (order_by_desc active_users (user_by_source db))) in
     ret (JArr (source_json <$> data))).

Definition get_views_by_page (srv : server) : response :=
  view srv
    (let! data := query (fun db => take 10 (order_by_desc views (views_by_page db))) in
     ret (JArr (page_json <$> data))).

Definition refresh_data (client : report_client) (pid : string) (srv : server)
  : response * server :=
  match fetch_ga4_realtime_data client pid with
  | Raise e =>
      (Jsonify (JObj [("status", JStr "error"); ("message", JStr (str_exn e))]) 500, srv)
  | Ok data =>
      match save_to_database data srv with
      | (Ok _, srv') =>
          (Jsonify (JObj [("status", JStr "success");
                          ("message", JStr "Data refreshed successfully")]) 200, srv')
      | (Raise e, srv') =>
          (Jsonify (JObj [("status", JStr "error"); ("message", JStr (str_exn e))]) 500, srv')
      end
  end.

(** [SELECT value FROM facebook_page_insights_daily
     WHERE date >= CURRENT_DATE - INTERVAL '1 days' AND report_type = ..]
    followed by [cursor.fetchone()] *)
Definition select_daily_value (today : Z) (label : string) (db : database)
  : option (option Z) :=
  head ((fun r => Some (value r)) <$>
        filter (fun r => today - 1 <= date r /\ report_type r = label)
               (facebook_page_insights_daily db)).

Definition daily_value (label : string) : M connection Z :=
  let! conn := get in
  let! row := query (select_daily_value (today conn) label) in
  lift_result (first_column_or_0 row).

Definition get_facebook_insights (srv : server) : response :=
  match get_db_connection srv with
  | Raise e => ErrorPage e
  | Ok conn =>
      match run (let! fb_views := daily_value "Views" in
                 let! fb_viewers := daily_value "Viewers" in
                 let! fb_visits := daily_value "Visits" in
                 let! fb_follows := daily_value "Follows" in
                 ret (JObj [("fb_views", JInt fb_views);
                            ("fb_viewers", JInt fb_viewers);
                            ("fb_visits", JInt fb_visits);
                            ("fb_follows", JInt fb_follows)])) conn with
      | (Ok body, _) => Jsonify body 200
      | (Raise e, _) => Jsonify (JObj [("error", JStr (str_exn e))]) 500
      end
  end.

End App.

(** ** [refresh_facebook_token.py] *)

Module Token.

(** *** The Graph API as seen through [requests.get] *)

Inductive reply (A : Type) :=
| Unreachable (e : exn)                (* the call raises *)
| Answer (status_code : Z) (body : A). (* [response.json()] is [body] *)
Arguments Unreachable {A} e.
Arguments Answer {A} status_code body.

(** The [data] object of a [debug_token] answer.  [more_keys] says that
    the object has keys besides the two that are read. *)
Record token_data := {
  is_valid : option bool;
  expires_at : option Z;
  more_keys : bool
}.

Definition empty_dict : token_data :=
  {| is_valid := None; expires_at := None; more_keys := false |}.

Record exchange_body := { access_token : option string; expires_in : option Z }.

Record page := { page_name : string; id : string; page_access_token : string }.

Record graph_api := {
  (* GET /{version}/debug_token ? input_token, access_token;
     the body is the value of the key "data", if there is one *)
  debug_token : string -> string -> string -> reply (option token_data);
  (* GET /{version}/oauth/access_token ? client_id, client_secret, fb_exchange_token *)
  oauth_access_token :
    string -> option string -> option string -> string -> reply exchange_body;
  (* GET /{version}/me/accounts ? access_token;
     the body is the value of the key "data", if there is one *)
  me_accounts : string -> option string -> reply (option (list page))
}.

(** Everything outside the process: the Graph API, the wall clock (the
    [n]-th reading of [datetime.now().timestamp()]) and the keys of the
    [.env] file whose [set_key] raises. *)
Record world := {
  graph : graph_api;
  time : nat -> Q;
  set_key_fails : string -> bool
}.

Inductive event :=
| DebugToken (input_token : string)
| RefreshTokens
| OauthAccessToken (fb_exchange_token : string)
| MeAccounts (user_token : option string)
| SetKey (key value : string).

(** The process: [os.environ], the contents of the [.env] file, the
    number of clock readings so far and the calls made so far (latest
    first). *)
Record process := {
  environ : gmap string string;
  dotenv : gmap string string;
  readings : nat;
  calls : list event
}.

Definition log (ev : event) : M process unit :=
  modify (fun p => {| environ := environ p; dotenv := dotenv p;
                      readings := readings p; calls := ev :: calls p |}).

(** [os.getenv(key)] *)
Definition getenv (key : string) : M process (option string) :=
  let! p := get in ret (environ p !! key).

(** [load_dotenv(ENV_FILE, override=True)] *)
Definition load_dotenv_override : M process unit :=
  modify (fun p => {| environ := dotenv p ∪ environ p; dotenv := dotenv p;
                      readings := readings p; calls := calls p |}).

(** [datetime.now().timestamp()] *)
Definition timestamp (w : world) : M process Q :=
  let! p := get in
  put {| environ := environ p; dotenv := dotenv p;
         readings := S (readings p); calls := calls p |} ;;
  ret (time w (readings p)).

(** [f"{x}"] for a value that is a [str] or [None] *)
Definition fmt (o : option string) : string := default "None" o.

Definition Qltb (x y : Q) : bool := negb (Qle_bool y x).

Record FacebookTokenManager := {
  app_id : option string;
  app_secret : option string;
  user_token : option string;
  page_id : option string;
  api_version : option string
}.

Definition init : M process FacebookTokenManager :=
  let! app_id := getenv "FACEBOOK_APP_ID" in
  let! app_secret := getenv "FACEBOOK_APP_SECRET" in
  let! user_token := getenv "FACEBOOK_USER_ACCESS_TOKEN" in
  let! page_id := getenv "FACEBOOK_PAGE_ID" in
  let! api_version := getenv "FACEBOOK_API_VERSION" in
  ret {| app_id := app_id; app_secret := app_secret; user_token := user_token;
         page_id := page_id; api_version := api_version |}.

Section Manager.

Variable w : world.
Variable self : FacebookTokenManager.

Definition exchange_for_long_lived_token (short_lived_token : string)
  : M process (option string) :=
  log (OauthAccessToken short_lived_token) ;;
  match oauth_access_token (graph w) (fmt (api_version self))
          (app_id self) (app_secret self) short_lived_token with
  | Unreachable e => raise e
  | Answer status_code data =>
      if status_code =? 200 then ret (access_token data) else ret None
  end.

(** The first page of the list whose id is the configured one. *)
Fixpoint find_page (pages : list page) : option string :=
  match pages with
  | [] => None
  | page :: pages' =>
      if decide (Some (id page) = page_id self)
      then Some (page_access_token page)
      else find_page pages'
  end.

Definition get_page_access_token (user_token : option string)
  : M process (option string) :=
  log (MeAccounts user_token) ;;
  match me_accounts (graph w) (fmt (api_version self)) user_token with
  | Unreachable e => raise e
  | Answer status_code data =>
      if status_code =? 200 then ret (find_page (default [] data)) else ret None
  end.

Definition verify_token (token : string) : M process (option token_data) :=
  log (DebugToken token) ;;
  match debug_token (graph w) (fmt (api_version self)) token
          (fmt (app_id self) +:+ "|" +:+ fmt (app_secret self)) with
  | Unreachable e => raise e
  | Answer status_code data =>
      if status_code =? 200 then ret (Some (default empty_dict data)) else ret None
  end.

(** [set_key] and the reload that follows it; an exception of [set_key]
    is caught and reported on the console only. *)
Definition update_env_file (key value : string) : M process unit :=
  if set_key_fails w key then ret tt
  else
    log (SetKey key value) ;;
    modify (fun p => {| environ := environ p; dotenv := <[key := value]> (dotenv p);
                        readings := readings p; calls := calls p |}) ;;
    load_dotenv_override.

End Manager.

(** Truth value of a [dict] returned by [verify_token], or of [None]. *)
Definition dict_truthy (token_info : option token_data) : bool :=
  match token_info with
  | Some d => bool_decide (is_Some (is_valid d)) || bool_decide (is_Some (expires_at d))
              || more_keys d
  | None => false
  end.

(** [token_info and token_info.get("is_valid")] *)
Definition reports_valid (token_info : option token_data) : bool :=
  dict_truthy token_info &&
  match token_info with
  | Some d => default false (is_valid d)
  | None => false
  end.

(** [token_info.get("expires_at", 0)] *)
Definition get_expires_at (token_info : option token_data) : Z :=
  default 0 (token_info ≫= expires_at).

(** Step 2 of [refresh_tokens].  The lines that only print are left out,
    among them [datetime.fromtimestamp(expires_at)], which is taken to get
    a timestamp the platform can convert. *)
Definition refresh_page_token (w : world) (self : FacebookTokenManager)
  : M process bool :=
  let! page_token := get_page_access_token w self (user_token self) in
  if truthy page_token then
    let token := default "" page_token in
    update_env_file w "FACEBOOK_PAGE_ACCESS_TOKEN" token ;;
    let! page_token_info := verify_token w self token in
    ret true
  else ret false.

Definition with_user_token (self : FacebookTokenManager) (t : string)
  : FacebookTokenManager :=
  {| app_id := app_id self; app_secret := app_secret self; user_token := Some t;
     page_id := page_id self; api_version := api_version self |}.

Definition refresh_tokens (w : world) (self : FacebookTokenManager)
  : M process bool :=
  log RefreshTokens ;;
  if truthy (user_token self) then
    let current := default "" (user_token self) in
    let! token_info := verify_token w self current in
    if reports_valid token_info then
      let expires_at := get_expires_at token_info in
      let! now := timestamp w in
      let days_until_expiry := ((inject_Z expires_at - now) / 86400)%Q in
      if Qltb days_until_expiry 7 then
        let! long_lived_token := exchange_for_long_lived_token w self current in
        if truthy long_lived_token then
          let fresh := default "" long_lived_token in
          update_env_file w "FACEBOOK_USER_ACCESS_TOKEN" fresh ;;
          refresh_page_token w (with_user_token self fresh)
        else
          (* "Token exchange failed, but continuing with current token..." *)
          refresh_page_token w self
      else refresh_page_token w self
    else ret false
  else refresh_page_token w self.

End Token.

(** ** [fetch_facebook_data_with_refresh.py] *)

Module FetchFacebook.

Import Token.

Section GetValidPageToken.

Variable w : world.

(** The lines after "Token invalid or expiring soon - refresh". *)
Definition refresh_and_reload : M process (option string) :=
  let! manager := Token.init in
  let! refreshed := refresh_tokens w manager in
  if refreshed then
    load_dotenv_override ;;
    let! new_token := getenv "FACEBOOK_PAGE_ACCESS_TOKEN" in
    if truthy new_token then
      let! token_info := verify_token w manager (default "" new_token) in
      if reports_valid token_info then ret new_token else ret None
    else ret None
  else ret None.

Definition get_valid_page_token : M process (option string) :=
  load_dotenv_override ;;
  let! current_token := getenv "FACEBOOK_PAGE_ACCESS_TOKEN" in
  if truthy current_token then
    let! manager := Token.init in
    let! token_info := verify_token w manager (default "" current_token) in
    if reports_valid token_info then
      let expires_at := get_expires_at token_info in
      if expires_at =? 0 then ret current_token
      else
        let! now := timestamp w in
        let seconds_until_expiry := (inject_Z expires_at - now)%Q in
        if Qltb 3600 seconds_until_expiry then ret current_token
        else refresh_and_reload
    else refresh_and_reload
  else refresh_and_reload.

End GetValidPageToken.

End FetchFacebook.

(** The Graph insights endpoint and the daily-insights upsert of
    [fetch_facebook_data_with_refresh.py]. *)

Module DailyInsights.

Import Token FetchFacebook.

(** One item of a metric's ["values"]: the end of the period and the
    measured value, if the key is there. *)
Record entry := { end_time : string; entry_value : option Z }.

Record metric_block := { block_name : string; block_values : option (list entry) }.

(** The decoded body of an insights answer: the ["code"] of its
    ["error"] object, if there is one, and its ["data"] list. *)
Record insights_body := {
  error : option (option Z);
  data : option (list metric_block)
}.

Record insights_params := {
  param_metric : string;
  period : string;
  since : Z;
  until : Z;
  param_access_token : string
}.

Definition METRICS : list (string * string) :=
  [("page_views_total", "Visits");
   ("page_media_view", "Views");
   ("page_impressions_unique", "Viewers");
   ("page_daily_follows", "Follows")].

(** [METRICS.get(metric_name, "Unknown")] *)
Definition report_type_of (metric_name : string) : string :=
  default "Unknown" ((list_to_map METRICS : gmap string string) !! metric_name).

(** [s.replace("Z", "+00:00")] *)
Fixpoint replace_Z (s : string) : string :=
  match s with
  | EmptyString => EmptyString
  | String c s' =>
      if Ascii.eqb c "Z" then "+00:00" +:+ replace_Z s' else String c (replace_Z s')
  end.

Section Store.

(** [datetime.fromisoformat(s).date()] as an ordinal; the function is the
    standard library's and is a parameter here. *)
Variable fromisoformat_date : string -> result Z.

Definition save_entry (metric_name report_type : string) (e : entry)
  : M connection unit :=
  let! date_value := lift_result (fromisoformat_date (replace_Z (end_time e))) in
  let value := default 0 (entry_value e) in
  execute (UpsertDaily {| metric := metric_name; Store.report_type := report_type;
                          date := date_value; Store.value := value |}).

Definition save_block (b : metric_block) : M connection unit :=
  let metric_name := block_name b in
  let report_type := report_type_of metric_name in
  for_each (default [] (block_values b)) (save_entry metric_name report_type).

(** From [psycopg2.connect] to [conn.close()]; an exception leaves the
    block for the handlers of [fetch_facebook_insights]. *)
Definition save_insights (insights_data : list metric_block) (srv : server)
  : result unit * server :=
  match get_db_connection srv with
  | Raise e => (Raise e, srv)
  | Ok conn =>
      let '(r, conn') :=
        run (try_finally (for_each insights_data save_block ;; commit) close) conn in
      (r, disconnect srv conn')
  end.

(** [requests.get(INSIGHTS_URL, params)] *)
Variable insights : insights_params -> reply insights_body.

Definition params (today : Z) (token : string) : insights_params :=
  {| param_metric := String.concat "," (fst <$> METRICS);
     period := "day";
     since := today - 2;
     until := today - 1;
     param_access_token := token |}.

(** The part of the [try] block after the body is decoded. *)
Definition store_answer (body : insights_body) (srv : server) : bool * server :=
  let insights_data := default [] (data body) in
  match insights_data with
  | [] => (false, srv)
  | _ =>
      match save_insights insights_data srv with
      | (Ok _, srv') => (true, srv')
      | (Raise _, srv') => (false, srv')
      end
  end.

Definition token_error (code : option Z) : bool :=
  bool_decide (code = Some 190 \/ code = Some 102).

Definition fetch_facebook_insights (w : world) (today : Z)
    (p : process) (srv : server) : result bool * process * server :=
  match run (get_valid_page_token w) p with
  | (Raise e, p1) => (Raise e, p1, srv)
  | (Ok ACCESS_TOKEN, p1) =>
      if negb (truthy ACCESS_TOKEN) then (Ok false, p1, srv)
      else
        match insights (params today (default "" ACCESS_TOKEN)) with
        | Unreachable _ => (Ok false, p1, srv)
        | Answer status_code body =>
            if (400 <=? status_code) && (status_code <? 600)
            then (Ok false, p1, srv)
            else
              match error body with
              | Some code =>
                  if token_error code then
                    match run (get_valid_page_token w) p1 with
                    | (Raise _, p2) => (Ok false, p2, srv)
                    | (Ok ACCESS_TOKEN', p2) =>
                        if truthy ACCESS_TOKEN' then
                          match insights (params today (default "" ACCESS_TOKEN')) with
                          | Unreachable _ => (Ok false, p2, srv)
                          | Answer status_code' body' =>
                              if (400 <=? status_code') && (status_code' <? 600)
                              then (Ok false, p2, srv)
                              else
                                let '(saved, srv') := store_answer body' srv in
                                (Ok saved, p2, srv')
                          end
                        else (Ok false, p2, srv)
                    end
                  else
                    let '(saved, srv') := store_answer body srv in
                    (Ok saved, p1, srv')
              | None =>
                  let '(saved, srv') := store_answer body srv in
                  (Ok saved, p1, srv')
              end
        end
  end.

End Store.

End DailyInsights.

(** ** [facebook_api.py]: the post normalizer *)

Module FacebookApi.

(** The ["value"] of a post insight: a number, or counts by kind. *)
Inductive insight_value :=
| Number (n : Z)
| ByType (counts : list (string * Z)).

Record insight := {
  name : string;
  values : option (list (option insight_value))
}.

(** A post as [get_posts_with_insights_last_7_days] assembles it. *)
Record post := {
  id : string;
  message : string;
  type : string;
  created_time : string;
  permalink_url : string;
  insights : list insight;
  shares : Z;
  comments : Z;
  reactions : Z
}.

Record formatted_post := {
  post_id : string;
  post_message : string;
  post_type : string;
  fp_created_time : string;
  post_impressions : insight_value;
  post_impressions_unique : insight_value;
  post_engaged_users : insight_value;
  post_reactions : insight_value;
  post_comments : Z;
  post_shares : Z;
  post_clicks : insight_value;
  video_views : Z
}.

(** [s[:n]], for a string of ASCII characters; a character outside ASCII
    counts once in Python and once per byte here. *)
Fixpoint prefix (n : nat) (s : string) : string :=
  match n, s with
  | S n', String c s' => String c (prefix n' s')
  | _, _ => EmptyString
  end.

(** One round of the loop over [post.get('insights', [])]. *)
Definition parse_insight (insights_dict : gmap string insight_value) (i : insight)
  : gmap string insight_value :=
  let metric_name := name i in
  match default [] (values i) with
  | [] => insights_dict
  | first :: _ =>
      let value := default (Number 0) first in
      if String.eqb metric_name "post_reactions_by_type_total" then
        match value with
        | ByType counts =>
            <["post_reactions" := Number (foldr Z.add 0 (snd <$> counts))]> insights_dict
        | Number _ => <["post_reactions" := Number 0]> insights_dict
        end
      else <[metric_name := value]> insights_dict
  end.

Definition format_post (p : post) : formatted_post :=
  let insights_dict := foldl parse_insight ∅ (insights p) in
  let get key := default (Number 0) (insights_dict !! key) in
  {| post_id := id p;
     post_message := prefix 500 (message p);
     post_type := type p;
     fp_created_time := created_time p;
     post_impressions := get "post_impressions";
     post_impressions_unique := get "post_impressions_unique";
     post_engaged_users := get "post_engaged_users";
     post_reactions := get "post_reactions";
     post_comments := comments p;
     post_shares := shares p;
     post_clicks := get "post_clicks";
     video_views := 0 |}.

Definition format_posts_for_database (posts_data : list post) : list formatted_post :=
  format_post <$> posts_data.

End FacebookApi.

(** ** [save_facebook_data.py] *)

Module SaveFacebook.

Import FacebookApi.

(** psycopg2 binds a number; it has no adapter for a [dict]. *)
Definition adapt (v : insight_value) : result Z :=
  match v with
  | Number n => Ok n
  | ByType _ => Raise (DatabaseError "can't adapt type 'dict'")
  end.

(** Binding the named parameters of the statement to the post. *)
Definition bind_post (p : formatted_post) : result post_row :=
  match adapt (post_impressions p), adapt (post_impressions_unique p),
        adapt (post_engaged_users p), adapt (post_reactions p),
        adapt (post_clicks p) with
  | Ok impressions, Ok impressions_unique, Ok engaged_users, Ok reactions, Ok clicks =>
      Ok {| Store.post_id := post_id p;
            Store.post_message := post_message p;
            Store.post_type := post_type p;
            Store.created_time := fp_created_time p;
            Store.post_impressions := impressions;
            Store.post_impressions_unique := impressions_unique;
            Store.post_engaged_users := engaged_users;
            Store.post_reactions := reactions;
            Store.post_comments := post_comments p;
            Store.post_shares := post_shares p;
            Store.post_clicks := clicks;
            Store.video_views := video_views p;
            updated_at := None |}
  | _, _, _, _, _ => Raise (DatabaseError "can't adapt type 'dict'")
  end.

Definition save_post (p : formatted_post) : M connection unit :=
  let! row := lift_result (bind_post p) in
  execute (UpsertPost row).

Definition save_post_insights (posts_data : list formatted_post) (srv : server)
  : result unit * server :=
  match posts_data with
  | [] => (Ok tt, srv)
  | _ =>
      match get_db_connection srv with
      | Raise e => (Raise e, srv)
      | Ok conn =>
          let '(r, conn') :=
            run (try_finally
                   (try_except (for_each posts_data save_post ;; commit)
                               (fun e => rollback ;; raise e))
                   close) conn in
          (r, disconnect srv conn')
      end
  end.

End SaveFacebook.

(** ** The rows that a realtime response yields

    These functions name, for the statements and proofs below, the values
    that [save_to_database] computes on its way; they are total, with an
    arbitrary result on input for which the code raises. *)

Module Snapshot.

Import App.

Definition dict_of (r : RunRealtimeReportResponse) : gmap string Z :=
  match users_dict (rows r) ∅ with
  | Ok d => d
  | Raise _ => ∅
  end.

Definition city_row (d5 d30 : gmap string Z) (city : string) : option location_row :=
  (fun info =>
     {| province := name info;
        Store.city := city;
        latitude := lat info;
        longitude := lng info;
        active_users_5min := default 0 (d5 !! city);
        active_users_30min := default 0 (d30 !! city) |}) <$> VIETNAM_CITIES !! city.

Definition key_count (row : Row) : string * Z :=
  match row_key_count row with
  | Ok kn => kn
  | Raise _ => (EmptyString, 0)
  end.

Definition source_of (row : Row) : source_row :=
  {| source := (key_count row).1; active_users := (key_count row).2 |}.

Definition page_of (row : Row) : page_row :=
  {| page_title := (key_count row).1; screen_name := (key_count row).1;
     views := (key_count row).2 |}.

Definition location_rows (data : ga4_data) : list location_row :=
  let d5 := dict_of (users_5min data) in
  let d30 := dict_of (users_30min data) in
  omap (city_row d5 d30) (elements (dom d5 ∪ dom d30)).

(** The statements of one successful [save_to_database], in order. *)
Definition statements (data : ga4_data) : list statement :=
  TruncateSnapshots ::
  (InsertLocation <$> location_rows data) ++
  (InsertSource <$> (source_of <$> rows (by_device data))) ++
  (InsertPage <$> (page_of <$> rows (by_page data))).

(** The count of the last row of a report for [key]. *)
Definition last_count (rs : list Row) (key : string) : option Z :=
  last (omap (fun row =>
                match row_key_count row with
                | Ok (k, n) => if decide (k = key) then Some n else None
                | Raise _ => None
                end) rs).

(** The three snapshot tables hold exactly the rows of the response: one
    location row for every city of the two location reports that the
    reference table knows, with the last count of each report for the
    city (0 without one); one source row per row of the device report and
    one page row per row of the page report, in the order of the report. *)
Definition exactly_the_rows_of (data : ga4_data) (db : database) : Prop :=
  NoDup (user_by_location db) /\
  (forall r,
     r ∈ user_by_location db <->
     exists c info,
       (exists row, row ∈ rows (users_5min data) ++ rows (users_30min data) /\
                    index0 (dimension_values row) = Ok c) /\
       VIETNAM_CITIES !! c = Some info /\
       r = {| province := name info;
              Store.city := c;
              latitude := lat info;
              longitude := lng info;
              active_users_5min := default 0 (last_count (rows (users_5min data)) c);
              active_users_30min := default 0 (last_count (rows (users_30min data)) c) |}) /\
  Forall2 (fun row r => row_key_count row = Ok (source r, active_users r))
          (rows (by_device data)) (user_by_source db) /\
  Forall2 (fun row r => row_key_count row = Ok (page_title r, views r) /\
                        screen_name r = page_title r)
          (rows (by_page data)) (views_by_page db).

End Snapshot.

(** The tables after a sequence of statements. *)
Definition run_statements (now : Z) (sts : list statement) (db : database) : database :=
  foldl (fun db st => run_statement now st db) db sts.

(** Whenever [m] returns, it has executed exactly [sts] inside the open
    transaction. *)
Definition issues {A} (m : M connection A) (sts : list statement) : Prop :=
  forall c a c',
    run m c = (Ok a, c') ->
    pending c' = run_statements (clock c) sts (pending c) /\ clock c' = clock c.

(** The three tables that a realtime cycle replaces. *)
Definition snapshot_tables (db : database)
  : list location_row * list source_row * list page_row :=
  (user_by_location db, user_by_source db, views_by_page db).

(** The tables that a realtime cycle does not mention. *)
Definition other_tables (db : database)
  : list register_row * list daily_row * list post_row :=
  (realtime_active_users db, facebook_page_insights_daily db, facebook_post_insights db).

(** No call on the connection fails. *)
Definition fault_free (f : faults) : Prop :=
  connect_error f = None /\ (forall n, execute_error f n = None) /\ commit_error f = None.

(** The row has a dimension value and a metric value that [int] accepts. *)
Definition well_formed (row : App.Row) : Prop :=
  exists key n, App.row_key_count row = Ok (key, n).

(** ** Sample inputs *)

Module Sample.

Import App.

Definition row (key count : string) : Row :=
  {| dimension_values := [key]; metric_values := [count] |}.

(** A response with a city of the reference table and one outside it. *)
Definition hanoi_paris : ga4_data :=
  {| users_5min := {| rows := [row "Hanoi" "42"; row "Paris" "7"] |};
     users_30min := {| rows := [row "Hanoi" "57"; row "Paris" "9"] |};
     by_device := {| rows := [row "mobile" "40"; row "desktop" "9"] |};
     by_page := {| rows := [row "Trang chu" "120"] |} |}.

Definition hanoi_row : location_row :=
  {| province := "Hà Nội"; city := "Hanoi";
     latitude := 21.0285; longitude := 105.8542;
     active_users_5min := 42; active_users_30min := 57 |}.

(** Tables left by an earlier cycle. *)
Definition yesterday : database :=
  {| user_by_location :=
       [{| province := "Huế"; city := "Hue"; latitude := 16.4637;
           longitude := 107.5909; active_users_5min := 3; active_users_30min := 8 |}];
     user_by_source := [{| source := "tablet"; active_users := 2 |}];
     views_by_page := [{| page_title := "Tin moi"; screen_name := "Tin moi"; views := 5 |}];
     realtime_active_users := [];
     facebook_page_insights_daily :=
       [{| metric := "page_daily_follows"; report_type := "Follows";
           date := ymd 2024 12 31; value := 4 |}];
     facebook_post_insights :=
       [{| post_id := "1001_77"; post_message := "Ban tin sang"; post_type := "video";
           created_time := "2024-12-30T01:00:00+0000";
           post_impressions := 900; post_impressions_unique := 700;
           post_engaged_users := 60; post_reactions := 31; post_comments := 4;
           post_shares := 2; post_clicks := 80; video_views := 345;
           updated_at := Some 1735603200 |}] |}.

Definition healthy : server :=
  {| contents := yesterday; current_timestamp := 1735689600; current_date := ymd 2025 1 1;
     failing := no_faults |}.

(** The statement after the [TRUNCATE] fails. *)
Definition breaks_after_truncate : server :=
  {| contents := yesterday; current_timestamp := 1735689600; current_date := ymd 2025 1 1;
     failing := {| connect_error := None;
                   execute_error := fun n => if (n =? 1)%nat then Some "connection lost" else None;
                   commit_error := None |} |}.

(** A store that accepts connections and fails the first statement. *)
Definition unreadable : server :=
  {| contents := yesterday; current_timestamp := 1735689600;
     current_date := ymd 2025 1 1;
     failing := {| connect_error := None;
                   execute_error := fun n => if (n =? 0)%nat then Some "connection lost" else None;
                   commit_error := None |} |}.


(** A store with two readings of the active users, the second one with a
    [NULL] in the thirty-minute column. *)
Definition with_readings : server :=
  {| contents :=
       {| user_by_location := []; user_by_source := []; views_by_page := [];
          realtime_active_users :=
            [{| active_users_5m := Some 12; active_users_30m := Some 30;
                recorded_at := 1735689000 |};
             {| active_users_5m := Some 20; active_users_30m := None;
                recorded_at := 1735689600 |}];
          facebook_page_insights_daily := []; facebook_post_insights := [] |};
     current_timestamp := 1735689600; current_date := ymd 2025 1 1;
     failing := no_faults |}.

End Sample.

(** ** The statements of the upsert writers *)

Module Upserts.

(** The statement that [save_entry] executes, if the date parses. *)
Definition entry_statements (fromisoformat_date : string -> result Z)
    (metric_name : string) (e : DailyInsights.entry) : list statement :=
  match fromisoformat_date (DailyInsights.replace_Z (DailyInsights.end_time e)) with
  | Ok d =>
      [UpsertDaily {| metric := metric_name;
                      report_type := DailyInsights.report_type_of metric_name;
                      date := d;
                      value := default 0 (DailyInsights.entry_value e) |}]
  | Raise _ => []
  end.

Definition daily_statements (fromisoformat_date : string -> result Z)
    (insights_data : list DailyInsights.metric_block) : list statement :=
  insights_data ≫= fun b =>
    default [] (DailyInsights.block_values b) ≫=
      entry_statements fromisoformat_date (DailyInsights.block_name b).

(** The statement that [save_post] executes, if the parameters bind. *)
Definition post_statements (posts_data : list FacebookApi.formatted_post)
  : list statement :=
  posts_data ≫= fun p =>
    match SaveFacebook.bind_post p with
    | Ok r => [UpsertPost r]
    | Raise _ => []
    end.

(** The statement writes the row of [facebook_page_insights_daily]
    with key [k]. *)
Definition writes_daily_key (k : string * Z) (st : statement) : Prop :=
  match st with
  | UpsertDaily r => daily_key r = k
  | _ => False
  end.

(** The statement writes the row of [facebook_post_insights] with
    post id [i]. *)
Definition writes_post_id (i : string) (st : statement) : Prop :=
  match st with
  | UpsertPost r => post_id r = i
  | _ => False
  end.

End Upserts.

(** ** Sample inputs of the social cycle *)

Module SocialSample.

(** A date parser for the samples: the calendar date at the head of an
    ISO 8601 timestamp. *)
Definition iso_date (s : string) : result Z :=
  match Py.int (String.substring 0 4 s), Py.int (String.substring 5 2 s),
        Py.int (String.substring 8 2 s) with
  | Ok y, Ok m, Ok d => Ok (ymd y m d)
  | _, _, _ => Raise (ValueError "Invalid isoformat string")
  end.

Definition views_block : DailyInsights.metric_block :=
  {| DailyInsights.block_name := "page_views_total";
     DailyInsights.block_values :=
       Some [{| DailyInsights.end_time := "2025-01-01T08:00:00+0000";
                DailyInsights.entry_value := Some 10 |}] |}.

Definition follows_row : daily_row :=
  {| metric := "page_daily_follows"; report_type := "Follows";
     date := ymd 2024 12 31; value := 4 |}.

(** A post that the store already holds, with fresh counters. *)
Definition morning_news : FacebookApi.post :=
  {| FacebookApi.id := "1001_77";
     FacebookApi.message := "Ban tin sang";
     FacebookApi.type := "video";
     FacebookApi.created_time := "2024-12-30T01:00:00+0000";
     FacebookApi.permalink_url := "https://example.org/1001/77";
     FacebookApi.insights :=
       [{| FacebookApi.name := "post_impressions";
           FacebookApi.values := Some [Some (FacebookApi.Number 950)] |};
        {| FacebookApi.name := "post_reactions_by_type_total";
           FacebookApi.values :=
             Some [Some (FacebookApi.ByType [("like", 30); ("love", 5)])] |}];
     FacebookApi.shares := 3;
     FacebookApi.comments := 6;
     FacebookApi.reactions := 35 |}.

Definition sport_row : post_row :=
  {| post_id := "1001_12"; post_message := "The thao"; post_type := "photo";
     created_time := "2024-12-01T01:00:00+0000";
     post_impressions := 10; post_impressions_unique := 9;
     post_engaged_users := 1; post_reactions := 1; post_comments := 0;
     post_shares := 0; post_clicks := 2; video_views := 0;
     updated_at := None |}.

(** The post of the store again, with another message and new counters. *)
Definition edited_news_row : post_row :=
  {| post_id := "1001_77"; post_message := "Ban tin sang (sua)";
     post_type := "video"; created_time := "2024-12-30T01:00:00+0000";
     post_impressions := 950; post_impressions_unique := 710;
     post_engaged_users := 61; post_reactions := 35; post_comments := 6;
     post_shares := 3; post_clicks := 82; video_views := 0;
     updated_at := None |}.

(** The row that the store holds for it. *)
Definition stored_news_row : post_row :=
  default sport_row (head (facebook_post_insights Sample.yesterday)).

(** An insights endpoint that answers every request with the views of
    one day. *)
Definition one_day_of_views (_ : DailyInsights.insights_params)
  : Token.reply DailyInsights.insights_body :=
  Token.Answer 200 {| DailyInsights.error := None;
                      DailyInsights.data := Some [views_block] |}.

End SocialSample.

(** Under every post id with [S], the table has a row, and the rows under
    it have no video views. *)
Definition zeroed (S : string -> Prop) (t : list post_row) : Prop :=
  NoDup (post_id <$> t) /\
  forall i, S i ->
    (exists x, x ∈ t /\ post_id x = i) /\
    forall x, x ∈ t -> post_id x = i -> video_views x = 0.


(** ** The token gate in terms of the environment and the Graph API *)

Module Gate.

Import Token FetchFacebook.

(** [os.environ] after [load_dotenv(ENV_FILE, override=True)]. *)
Definition env_of (p : process) : gmap string string := dotenv p ∪ environ p.

(** The manager that [FacebookTokenManager(ENV_FILE)] builds from an
    environment. *)
Definition manager_of (env : gmap string string) : FacebookTokenManager :=
  {| app_id := env !! "FACEBOOK_APP_ID";
     app_secret := env !! "FACEBOOK_APP_SECRET";
     user_token := env !! "FACEBOOK_USER_ACCESS_TOKEN";
     page_id := env !! "FACEBOOK_PAGE_ID";
     api_version := env !! "FACEBOOK_API_VERSION" |}.

(** The answer of the Graph API to the introspection of [token]. *)
Definition introspect (w : world) (m : FacebookTokenManager) (token : string)
  : reply (option token_data) :=
  debug_token (graph w) (fmt (api_version m)) token
    (fmt (app_id m) +:+ "|" +:+ fmt (app_secret m)).

(** What [verify_token] returns for an answer. *)
Definition token_info_of (status_code : Z) (body : option token_data)
  : option token_data :=
  if status_code =? 200 then Some (default empty_dict body) else None.

(** Introspection answers, and reports the token valid. *)
Definition passes_verify (w : world) (m : FacebookTokenManager) (token : string) : Prop :=
  exists status_code body,
    introspect w m token = Answer status_code body /\
    reports_valid (token_info_of status_code body) = true.

Definition current_token (p : process) : option string :=
  env_of p !! "FACEBOOK_PAGE_ACCESS_TOKEN".

(** The introspection request for the current page token, if one is
    sent, gets an answer. *)
Definition answers (w : world) (p : process) : Prop :=
  forall t, current_token p = Some t -> truthy (Some t) = true ->
    exists status_code body,
      introspect w (manager_of (env_of p)) t = Answer status_code body.

(** There is a current page token, introspection reports it valid, and
    it never expires or has more than one hour left. *)
Definition still_good (w : world) (p : process) : bool :=
  match current_token p with
  | Some t =>
      truthy (Some t) &&
      match introspect w (manager_of (env_of p)) t with
      | Answer status_code body =>
          let token_info := token_info_of status_code body in
          reports_valid token_info &&
          ((get_expires_at token_info =? 0) ||
           Qltb 3600 (inject_Z (get_expires_at token_info) - time w (readings p)))
      | Unreachable _ => false
      end
  | None => false
  end.

(** The user token of the manager, if there is one, passes
    introspection. *)
Definition user_token_ok (w : world) (m : FacebookTokenManager) : Prop :=
  truthy (user_token m) = true -> passes_verify w m (default "" (user_token m)).

(** [me/accounts] answers some user token with a list that has the
    configured page, with a token. *)
Definition page_listed (w : world) (m : FacebookTokenManager) : Prop :=
  exists u pages page_token,
    me_accounts (graph w) (fmt (api_version m)) u = Answer 200 pages /\
    find_page m (default [] pages) = Some page_token /\
    truthy (Some page_token) = true.

(** The process after a call is logged, after the [.env] file is loaded
    and after the clock is read. *)
Definition logged (ev : event) (p : process) : process :=
  {| environ := environ p; dotenv := dotenv p;
     readings := readings p; calls := ev :: calls p |}.

Definition reload (p : process) : process :=
  {| environ := dotenv p ∪ environ p; dotenv := dotenv p;
     readings := readings p; calls := calls p |}.

Definition ticked (p : process) : process :=
  {| environ := environ p; dotenv := dotenv p;
     readings := S (readings p); calls := calls p |}.

(** A computation that keeps the calls made so far. *)
Definition grows {A} (m : M process A) : Prop :=
  forall p ev, ev ∈ calls p -> ev ∈ calls (run m p).2.

End Gate.

(** ** Sample worlds of the token manager *)

Module TokenSample.

Import Token.

Definition now : Z := 1735689600.

Definition env_file : gmap string string :=
  list_to_map [("FACEBOOK_APP_ID", "app"); ("FACEBOOK_APP_SECRET", "secret");
               ("FACEBOOK_USER_ACCESS_TOKEN", "USER"); ("FACEBOOK_PAGE_ID", "42");
               ("FACEBOOK_API_VERSION", "v19.0");
               ("FACEBOOK_PAGE_ACCESS_TOKEN", "OLD")].

(** A process that starts with an empty environment beside the file. *)
Definition fresh : process :=
  {| environ := ∅; dotenv := env_file; readings := 0; calls := [] |}.

Definition valid_until (expires : Z) : token_data :=
  {| is_valid := Some true; expires_at := Some expires; more_keys := true |}.

Definition invalid : token_data :=
  {| is_valid := Some false; expires_at := Some 0; more_keys := true |}.

(** A Graph API that knows the tokens of [tokens], answers every exchange
    with [exchange] and lists the pages of [accounts] for a user token. *)
Definition graph_of (tokens : list (string * token_data))
    (exchange : reply exchange_body) (accounts : list (string * list page))
  : graph_api :=
  {| debug_token := fun _ input_token _ =>
       match (list_to_map tokens : gmap string token_data) !! input_token with
       | Some d => Answer 200 (Some d)
       | None => Answer 400 None
       end;
     oauth_access_token := fun _ _ _ _ => exchange;
     me_accounts := fun _ user_token =>
       match user_token ≫= fun u => (list_to_map accounts : gmap string (list page)) !! u with
       | Some pages => Answer 200 (Some pages)
       | None => Answer 400 None
       end |}.

Definition world_of (g : graph_api) : world :=
  {| graph := g; time := fun _ => inject_Z now; set_key_fails := fun _ => false |}.

Definition pages_of (token : string) : list page :=
  [{| page_name := "Other"; id := "7"; page_access_token := "ELSE" |};
   {| page_name := "VTV Times"; id := "42"; page_access_token := token |}].

Definition no_exchange : reply exchange_body :=
  Answer 400 {| access_token := None; expires_in := None |}.

(** The page token has two hours left. *)
Definition two_hours_left : world :=
  world_of (graph_of [("OLD", valid_until (now + 7200))] no_exchange []).

(** The page token has thirty minutes left; the user token is good for
    thirty days and yields the page token ["NEW"]. *)
Definition thirty_minutes_left : world :=
  world_of (graph_of [("OLD", valid_until (now + 1800));
                      ("USER", valid_until (now + 30 * 86400));
                      ("NEW", valid_until 0)]
                     no_exchange [("USER", pages_of "NEW")]).

(** The page token expired thirty minutes ago. *)
Definition thirty_minutes_ago : world :=
  world_of (graph_of [("OLD", valid_until (now - 1800));
                      ("USER", valid_until (now + 30 * 86400));
                      ("NEW", valid_until 0)]
                     no_exchange [("USER", pages_of "NEW")]).

(** The page token is invalid, the user token has one day left and its
    exchange for a long-lived one is refused. *)
Definition exchange_refused : world :=
  world_of (graph_of [("OLD", invalid);
                      ("USER", valid_until (now + 86400));
                      ("NEW", valid_until 0)]
                     no_exchange [("USER", pages_of "NEW")]).

(** The page token is invalid and so is the user token. *)
Definition user_token_revoked : world :=
  world_of (graph_of [("OLD", invalid); ("USER", invalid)] no_exchange
                     [("USER", pages_of "NEW")]).

(** As [thirty_minutes_left], with a [.env] file that cannot be written. *)
Definition read_only_file : world :=
  {| graph := graph thirty_minutes_left; time := time thirty_minutes_left;
     set_key_fails := fun _ => true |}.

(** The Graph API cannot be reached for the introspection of a token. *)
Definition introspection_down : world :=
  world_of {| debug_token := fun _ _ _ =>
                Unreachable (RequestException "connection refused");
              oauth_access_token := fun _ _ _ _ => no_exchange;
              me_accounts := fun _ _ => Answer 400 None |}.

(** As [thirty_minutes_left], but the page token that [me/accounts] lists
    is the one the process has. *)
Definition same_token_again : world :=
  world_of (graph_of [("OLD", valid_until (now + 1800));
                      ("USER", valid_until (now + 30 * 86400))]
                     no_exchange [("USER", pages_of "OLD")]).

End TokenSample.

(** ** Invariants of the token manager *)

Module Keeps.

Import Token Gate.

(** [m] takes every process to one related to it by [I]. *)
Definition preserves {A} (I : process -> process -> Prop) (m : M process A) : Prop :=
  forall p, I p (run m p).2.

(** The entry of [key] is the same in the [.env] file and in what a
    reload of the file makes of the environment. *)
Definition same_entry (key : string) (p p' : process) : Prop :=
  dotenv p' !! key = dotenv p !! key /\ env_of p' !! key = env_of p !! key.

(** The calls made are those made before and calls with [P]. *)
Definition calls_only (P : event -> Prop) (p p' : process) : Prop :=
  forall ev, ev ∈ calls p' -> ev ∈ calls p \/ P ev.

Definition page_key : string := "FACEBOOK_PAGE_ACCESS_TOKEN".
Definition user_key : string := "FACEBOOK_USER_ACCESS_TOKEN".

(** The calls made are those made before, with new ones in front. *)
Definition appends (p p' : process) : Prop :=
  exists new, calls p' = new ++ calls p.

End Keeps.

(** ** [facebook_api.py]: the page-insights normalizer *)

Module PageInsights.

Import FacebookApi.

(** One item of a metric's ["values"]; a key that is missing is [None]. *)
Record value_item := { end_time : option string; item_value : option insight_value }.

Record metric := { metric_name : string; metric_values : option (list value_item) }.

(** One of the dicts of [data_by_date]: the date and the columns set so
    far. *)
Record day := { insight_date : string; columns : gmap string insight_value }.

(** [s.split('T')[0]] *)
Fixpoint before_T (s : string) : string :=
  match s with
  | EmptyString => EmptyString
  | String c s' => if Ascii.eqb c "T" then EmptyString else String c (before_T s')
  end.

(** The [if]/[elif] chain over the names of the active metrics. *)
Definition column_of (name : string) : option string :=
  if String.eqb name "page_views_total" then Some "page_views"
  else if String.eqb name "page_impressions" then Some "page_impressions"
  else if String.eqb name "page_impressions_unique" then Some "page_impressions_unique"
  else if String.eqb name "page_post_engagements" then Some "page_post_engagements"
  else if String.eqb name "page_posts_impressions" then Some "page_posts_impressions"
  else if String.eqb name "page_actions_post_reactions_total" then Some "page_reactions"
  else if String.eqb name "page_video_views" then Some "page_video_views"
  else None.

Definition set_metric (name : string) (value : insight_value) (d : day) : day :=
  match column_of name with
  | Some column => {| insight_date := insight_date d;
                      columns := <[column := value]> (columns d) |}
  | None => d
  end.

(** [data_by_date], in insertion order: the entry of [date] is created if
    it is missing, then updated. *)
Fixpoint record (date : string) (f : day -> day) (data_by_date : list (string * day))
  : list (string * day) :=
  match data_by_date with
  | [] => [(date, f {| insight_date := date; columns := ∅ |})]
  | (k, d) :: rest =>
      if String.eqb k date then (k, f d) :: rest else (k, d) :: record date f rest
  end.

Definition add_value (name : string) (data_by_date : list (string * day))
    (item : value_item) : list (string * day) :=
  let date := before_T (default "" (end_time item)) in
  let value := default (Number 0) (item_value item) in
  record date (set_metric name value) data_by_date.

Definition add_metric (data_by_date : list (string * day)) (m : metric)
  : list (string * day) :=
  foldl (add_value (metric_name m)) data_by_date (default [] (metric_values m)).

(** [insights_data] is [None] for a missing or empty answer and for one
    without the key ["data"]. *)
Definition format_insights_for_database (insights_data : option (list metric))
  : list day :=
  match insights_data with
  | None => []
  | Some data => snd <$> foldl add_metric [] data
  end.

(** The dates of the items of an answer. *)
Definition dates_of (data : list metric) : list string :=
  data ≫= fun m =>
    (fun item => before_T (default "" (end_time item))) <$> default [] (metric_values m).

(** The entries are stored under distinct dates, each under its own. *)
Definition by_date (l : list (string * day)) : Prop :=
  NoDup (fst <$> l) /\ Forall (fun kd => insight_date kd.2 = kd.1) l.

End PageInsights.



(** ** [save_facebook_data.py]: the page stats and the fan growth *)

Module PageStats.

(** A row of [facebook_page_stats]; [created_at] is [None] while no
    statement has set it. *)
Record stat_row := {
  stat_date : Z;
  fan_count : Z;
  followers_count : Z;
  created_at : option Z
}.

(** The dict of [get_page_current_stats]: the two counts that are read,
    and whether it has other keys. *)
Record page_stats := {
  stats_fan_count : option Z;
  stats_followers_count : option Z;
  other_keys : bool
}.

(** Truth value of the dict, or of [None]. *)
Definition stats_truthy (stats_data : option page_stats) : bool :=
  match stats_data with
  | Some s =>
      bool_decide (is_Some (stats_fan_count s))
      || bool_decide (is_Some (stats_followers_count s)) || other_keys s
  | None => false
  end.

(** The store as far as [facebook_page_stats] goes. *)
Record stats_server := {
  table : list stat_row;
  server_timestamp : Z;     (* CURRENT_TIMESTAMP *)
  server_date : Z;          (* CURRENT_DATE *)
  stats_failing : faults
}.

Record stats_connection := {
  stats_committed : list stat_row;
  stats_pending : list stat_row;
  stats_executed : nat;
  stats_clock : Z;
  stats_today : Z;
  stats_faults : faults
}.

Definition get_db_connection (srv : stats_server) : result stats_connection :=
  match connect_error (stats_failing srv) with
  | Some msg => Raise (DatabaseError msg)
  | None =>
      Ok {| stats_committed := table srv; stats_pending := table srv;
            stats_executed := 0%nat; stats_clock := server_timestamp srv;
            stats_today := server_date srv; stats_faults := stats_failing srv |}
  end.

Definition stats_step (c : stats_connection) (t : list stat_row) : stats_connection :=
  {| stats_committed := stats_committed c; stats_pending := t;
     stats_executed := S (stats_executed c); stats_clock := stats_clock c;
     stats_today := stats_today c; stats_faults := stats_faults c |}.

(** [cursor.execute] for a statement that writes the table *)
Definition execute (write : Z -> list stat_row -> list stat_row)
  : M stats_connection unit :=
  MkM (fun c =>
         match execute_error (stats_faults c) (stats_executed c) with
         | Some msg => (Raise (DatabaseError msg), stats_step c (stats_pending c))
         | None => (Ok tt, stats_step c (write (stats_clock c) (stats_pending c)))
         end).

(** [cursor.execute(select)] followed by [cursor.fetchone()] *)
Definition query {A} (select : Z -> list stat_row -> A) : M stats_connection A :=
  MkM (fun c =>
         match execute_error (stats_faults c) (stats_executed c) with
         | Some msg => (Raise (DatabaseError msg), stats_step c (stats_pending c))
         | None => (Ok (select (stats_today c) (stats_pending c)),
                    stats_step c (stats_pending c))
         end).

Definition commit : M stats_connection unit :=
  MkM (fun c =>
         match commit_error (stats_faults c) with
         | Some msg => (Raise (DatabaseError msg), c)
         | None =>
             (Ok tt, {| stats_committed := stats_pending c; stats_pending := stats_pending c;
                        stats_executed := stats_executed c; stats_clock := stats_clock c;
                        stats_today := stats_today c; stats_faults := stats_faults c |})
         end).

Definition discard (c : stats_connection) : stats_connection :=
  {| stats_committed := stats_committed c; stats_pending := stats_committed c;
     stats_executed := stats_executed c; stats_clock := stats_clock c;
     stats_today := stats_today c; stats_faults := stats_faults c |}.

Definition rollback : M stats_connection unit := modify discard.

Definition close (c : stats_connection) : stats_connection := discard c.

Definition disconnect (srv : stats_server) (c : stats_connection) : stats_server :=
  {| table := stats_committed c; server_timestamp := server_timestamp srv;
     server_date := server_date srv; stats_failing := stats_failing srv |}.

(** [ON CONFLICT (stat_date) DO UPDATE SET fan_count, followers_count,
    created_at = CURRENT_TIMESTAMP] *)
Definition stat_conflict (r x : stat_row) : bool := stat_date x =? stat_date r.

Definition stat_update (now : Z) (r x : stat_row) : stat_row :=
  {| stat_date := stat_date x; fan_count := fan_count r;
     followers_count := followers_count r; created_at := Some now |}.

Definition upsert_stat (r : stat_row) (now : Z) (t : list stat_row) : list stat_row :=
  upsert stat_conflict (stat_update now) r t.

(** The parameters of the statement; [today] is [date.today()]. *)
Definition stat_of (today : Z) (stats_data : option page_stats) : stat_row :=
  {| stat_date := today;
     fan_count := default 0 (stats_data ≫= stats_fan_count);
     followers_count := default 0 (stats_data ≫= stats_followers_count);
     created_at := None |}.

Definition save_page_stats (today : Z) (stats_data : option page_stats)
    (srv : stats_server) : result unit * stats_server :=
  if negb (stats_truthy stats_data) then (Ok tt, srv)
  else
    match get_db_connection srv with
    | Raise e => (Raise e, srv)
    | Ok conn =>
        let '(r, conn') :=
          run (try_finally
                 (try_except (execute (upsert_stat (stat_of today stats_data)) ;; commit)
                             (fun e => rollback ;; raise e))
                 close) conn in
        (r, disconnect srv conn')
    end.

(** *** [calculate_fan_growth] *)

Definition by_date (x y : stat_row) : Prop := stat_date x <= stat_date y.

#[global] Instance by_date_dec x y : Decision (by_date x y).
Proof. unfold by_date. apply _. Defined.

(** The rows of the last seven days, oldest first. *)
Definition last_week (today : Z) (t : list stat_row) : list stat_row :=
  merge_sort by_date (filter (fun r => today - 7 <= stat_date r) t).

(** [SELECT stat_date, fan_count, LAG(fan_count) OVER (ORDER BY stat_date)
     .. ORDER BY stat_date DESC LIMIT 1] and [cursor.fetchone()] *)
Definition latest_with_lag (today : Z) (t : list stat_row)
  : option (Z * Z * option Z) :=
  match reverse (last_week today t) with
  | [] => None
  | r :: earlier => Some (stat_date r, fan_count r, fan_count <$> head earlier)
  end.

Record growth := { today_fans : Z; yesterday_fans : Z; fan_growth : Z }.

(** [if result and result[2]: .. else: return None] *)
Definition growth_of (result : option (Z * Z * option Z)) : option growth :=
  match result with
  | Some (_, fans, Some previous) =>
      if previous =? 0 then None
      else Some {| today_fans := fans; yesterday_fans := previous;
                   fan_growth := fans - previous |}
  | _ => None
  end.

(** The connection is made before the [try]; an exception inside it is
    printed and [None] is returned. *)
Definition calculate_fan_growth (srv : stats_server) : result (option growth) :=
  match get_db_connection srv with
  | Raise e => Raise e
  | Ok conn =>
      match run (query latest_with_lag) conn with
      | (Ok result, _) => Ok (growth_of result)
      | (Raise _, _) => Ok None
      end
  end.

(** Counts of three days. *)
Definition three_days : stats_server :=
  {| table := [{| stat_date := ymd 2024 12 30; fan_count := 1000;
                  followers_count := 1100; created_at := None |};
               {| stat_date := ymd 2025 1 1; fan_count := 1040;
                  followers_count := 1150; created_at := None |};
               {| stat_date := ymd 2024 12 31; fan_count := 1010;
                  followers_count := 1120; created_at := None |}];
     server_timestamp := 1735689600; server_date := ymd 2025 1 1;
     stats_failing := no_faults |}.

End PageStats.


(** Every value of the block has an end time that parses. *)
Definition dated (fromisoformat_date : string -> result Z)
    (b : DailyInsights.metric_block) : Prop :=
  Forall (fun e => exists d,
            fromisoformat_date (DailyInsights.replace_Z (DailyInsights.end_time e)) = Ok d)
         (default [] (DailyInsights.block_values b)).

(** * Properties *)

(** ** Running computations *)

Section Running.

Context {S : Type}.

Lemma run_bind {A B} (m : M S A) (k : A -> M S B) s :
  run (bind m k) s =
    match run m s with
    | (Ok a, s') => run (k a) s'
    | (Raise e, s') => (Raise e, s')
    end.
Proof. reflexivity. Qed.

Lemma run_bind_Ok {A B} (m : M S A) (k : A -> M S B) s b s' :
  run (bind m k) s = (Ok b, s') ->
  exists a s1, run m s = (Ok a, s1) /\ run (k a) s1 = (Ok b, s').
Proof.
  rewrite run_bind. destruct (run m s) as [[a|e] s1]; [eauto | discriminate].
Qed.

Lemma run_lift_result_Ok {A} (r : result A) (s : S) a s' :
  run (lift_result r) s = (Ok a, s') -> r = Ok a /\ s' = s.
Proof. cbn. intros [= -> ->]. done. Qed.

(** A state property kept by every round of a loop is kept by the loop. *)
Lemma for_each_invariant {A} (P : S -> Prop) (body : A -> M S unit) l :
  (forall x s, P s -> P (run (body x) s).2) ->
  forall s, P s -> P (run (for_each l body) s).2.
Proof.
  intros Hbody. induction l as [|x l IH]; intros s Hs; [done|].
  cbn [for_each]. rewrite run_bind.
  specialize (Hbody x s Hs). destruct (run (body x) s) as [[[]|e] s1]; cbn in *; auto.
Qed.

End Running.

(** ** Transactions *)

Section Transactions.

(** [c'] is a later state of the connection [c] with the same committed
    tables: nothing that a reader can see has changed. *)
Definition same_committed (c c' : connection) : Prop :=
  committed c' = committed c /\ conn_faults c' = conn_faults c /\
  clock c' = clock c /\ today c' = today c.

(** [m] only works inside the open transaction. *)
Definition in_transaction {A} (m : M connection A) : Prop :=
  forall c, same_committed c (run m c).2.

(** [m] ends with the transaction committed as a whole, or raises with
    the committed tables as they were. *)
Definition all_or_nothing {A} (m : M connection A) : Prop :=
  forall c,
    match run m c with
    | (Ok _, c') => committed c' = pending c'
    | (Raise _, c') => committed c' = committed c
    end.

Lemma same_committed_refl c : same_committed c c.
Proof. by repeat split. Qed.

Lemma same_committed_trans c1 c2 c3 :
  same_committed c1 c2 -> same_committed c2 c3 -> same_committed c1 c3.
Proof. intros (?&?&?&?) (?&?&?&?). repeat split; congruence. Qed.

Lemma in_transaction_ret {A} (a : A) : in_transaction (ret a).
Proof. intros c. apply same_committed_refl. Qed.

Lemma in_transaction_lift {A} (r : result A) : in_transaction (lift_result r).
Proof. intros c. apply same_committed_refl. Qed.

Lemma in_transaction_get : in_transaction get.
Proof. intros c. apply same_committed_refl. Qed.

Lemma in_transaction_execute st : in_transaction (execute st).
Proof.
  intros c. cbn. destruct (execute_error _ _); by repeat split.
Qed.

Lemma in_transaction_query {A} (q : database -> A) : in_transaction (query q).
Proof.
  intros c. cbn. destruct (execute_error _ _); by repeat split.
Qed.

Lemma in_transaction_bind {A B} (m : M connection A) (k : A -> M connection B) :
  in_transaction m -> (forall a, in_transaction (k a)) -> in_transaction (bind m k).
Proof.
  intros Hm Hk c. rewrite run_bind. specialize (Hm c).
  destruct (run m c) as [[a|e] c1]; cbn in *; [|done].
  eapply same_committed_trans; [exact Hm | apply Hk].
Qed.

Lemma in_transaction_for_each {A} (body : A -> M connection unit) l :
  (forall x, in_transaction (body x)) -> in_transaction (for_each l body).
Proof.
  intros Hbody. induction l as [|x l IH]; [apply in_transaction_ret|].
  cbn [for_each]. apply in_transaction_bind; auto.
Qed.

Lemma all_or_nothing_commit : all_or_nothing commit.
Proof. intros c. cbn. by destruct (commit_error _). Qed.

Lemma all_or_nothing_bind {A B} (m : M connection A) (k : A -> M connection B) :
  in_transaction m -> (forall a, all_or_nothing (k a)) -> all_or_nothing (bind m k).
Proof.
  intros Hm Hk c. rewrite run_bind. specialize (Hm c).
  destruct (run m c) as [[a|e] c1]; cbn in Hm; [|apply Hm].
  specialize (Hk a c1). destruct (run (k a) c1) as [[b|e] c2]; [done|].
  destruct Hm as [<- _]. done.
Qed.

(** The [try .. except: rollback; raise .. finally: close] frame around
    an all-or-nothing body. *)
Lemma guarded_all_or_nothing {A} (m : M connection A) c :
  all_or_nothing m ->
  match run (try_finally (try_except m (fun e => rollback ;; raise e)) close) c with
  | (Ok _, c') => exists c1 a, run m c = (Ok a, c1) /\ committed c' = pending c1
  | (Raise _, c') => committed c' = committed c
  end.
Proof.
  intros Hm. specialize (Hm c). cbn.
  destruct (run m c) as [[a|e] c1]; cbn.
  - exists c1, a. by rewrite Hm.
  - done.
Qed.

End Transactions.

Create HintDb txn.

#[local] Hint Resolve in_transaction_ret in_transaction_lift in_transaction_get
  in_transaction_execute in_transaction_query in_transaction_bind
  in_transaction_for_each all_or_nothing_commit all_or_nothing_bind : txn.

(** ** Statements issued by a computation *)

Section Issues.

Lemma run_statements_app now s1 s2 db :
  run_statements now (s1 ++ s2) db = run_statements now s2 (run_statements now s1 db).
Proof. apply foldl_app. Qed.

Lemma run_statements_cons now st sts db :
  run_statements now (st :: sts) db = run_statements now sts (run_statement now st db).
Proof. reflexivity. Qed.

Lemma issues_ret {A} (a : A) : issues (ret a) [].
Proof. intros c a' c' [= <- <-]. done. Qed.

Lemma issues_execute st : issues (execute st) [st].
Proof.
  intros c a c'. cbn. destruct (execute_error _ _); [done|].
  intros [= <- <-]. done.
Qed.

Lemma issues_bind {A B} (m : M connection A) (k : A -> M connection B) s1 s2 :
  issues m s1 -> (forall a, issues (k a) s2) -> issues (bind m k) (s1 ++ s2).
Proof.
  intros Hm Hk c b c' (a & c1 & H1 & H2)%run_bind_Ok.
  destruct (Hm _ _ _ H1) as (Hp1 & Hn1).
  destruct (Hk _ _ _ _ H2) as (Hp2 & Hn2).
  rewrite run_statements_app, <- Hp1, <- Hn1. by rewrite Hn2.
Qed.

Lemma issues_lift {A B} (r : result A) (k : A -> M connection B) sts :
  (forall a, r = Ok a -> issues (k a) sts) -> issues (bind (lift_result r) k) sts.
Proof.
  intros Hk c b c' (a & c1 & [-> ->]%run_lift_result_Ok & H2)%run_bind_Ok.
  by eapply Hk.
Qed.

Lemma issues_for_each {A} (body : A -> M connection unit) (sts : A -> list statement) l :
  (forall x, issues (body x) (sts x)) -> issues (for_each l body) (l ≫= sts).
Proof.
  intros Hbody. induction l as [|x l IH]; [apply issues_ret|].
  cbn [for_each]. apply issues_bind; auto.
Qed.

Lemma issues_commit : issues commit [].
Proof.
  intros c a c'. cbn. destruct (commit_error _); [done|].
  intros [= <- <-]. done.
Qed.

End Issues.

(** ** One realtime snapshot *)

Section SaveToDatabase.

Import App Snapshot.

Lemma run_statements_locations now ls db :
  snapshot_tables (run_statements now (InsertLocation <$> ls) db)
    = (user_by_location db ++ ls, user_by_source db, views_by_page db) /\
  other_tables (run_statements now (InsertLocation <$> ls) db) = other_tables db.
Proof.
  revert db. induction ls as [|r ls IH]; intros db.
  - cbn. by rewrite app_nil_r.
  - rewrite fmap_cons, run_statements_cons.
    destruct (IH (run_statement now (InsertLocation r) db)) as [-> ->].
    cbn. by rewrite <- app_assoc.
Qed.

Lemma run_statements_sources now ss db :
  snapshot_tables (run_statements now (InsertSource <$> ss) db)
    = (user_by_location db, user_by_source db ++ ss, views_by_page db) /\
  other_tables (run_statements now (InsertSource <$> ss) db) = other_tables db.
Proof.
  revert db. induction ss as [|r ss IH]; intros db.
  - cbn. by rewrite app_nil_r.
  - rewrite fmap_cons, run_statements_cons.
    destruct (IH (run_statement now (InsertSource r) db)) as [-> ->].
    cbn. by rewrite <- app_assoc.
Qed.

Lemma run_statements_pages now ps db :
  snapshot_tables (run_statements now (InsertPage <$> ps) db)
    = (user_by_location db, user_by_source db, views_by_page db ++ ps) /\
  other_tables (run_statements now (InsertPage <$> ps) db) = other_tables db.
Proof.
  revert db. induction ps as [|r ps IH]; intros db.
  - cbn. by rewrite app_nil_r.
  - rewrite fmap_cons, run_statements_cons.
    destruct (IH (run_statement now (InsertPage r) db)) as [-> ->].
    cbn. by rewrite <- app_assoc.
Qed.

(** The tables after the statements of a snapshot: the three snapshot
    tables hold the rows of the response and nothing else. *)
Lemma run_statements_snapshot now data db :
  snapshot_tables (run_statements now (statements data) db)
    = (location_rows data, source_of <$> rows (by_device data),
       page_of <$> rows (by_page data)) /\
  other_tables (run_statements now (statements data) db) = other_tables db.
Proof.
  unfold statements. rewrite run_statements_cons, !run_statements_app.
  set (db0 := run_statement now TruncateSnapshots db).
  set (db1 := run_statements now (InsertLocation <$> _) db0).
  set (db2 := run_statements now (InsertSource <$> _) db1).
  destruct (run_statements_pages now (page_of <$> rows (by_page data)) db2) as [E3 O3].
  destruct (run_statements_sources now (source_of <$> rows (by_device data)) db1) as [E2 O2].
  destruct (run_statements_locations now (location_rows data) db0) as [E1 O1].
  fold db1 in E1, O1. fold db2 in E2, O2.
  unfold snapshot_tables, other_tables in *.
  simplify_eq. cbn in *.
  repeat match goal with H : _ = _ |- _ => rewrite H; clear H end.
  done.
Qed.

Lemma issues_insert_city d5 d30 city :
  issues (insert_city d5 d30 city) (InsertLocation <$> option_list (city_row d5 d30 city)).
Proof.
  unfold insert_city, city_row. destruct (VIETNAM_CITIES !! city) as [info|]; cbn.
  - apply issues_execute.
  - apply issues_ret.
Qed.

Lemma issues_insert_device row :
  issues (insert_device row) [InsertSource (source_of row)].
Proof.
  unfold insert_device. apply issues_lift. intros [k n] E.
  unfold source_of, key_count. rewrite E. apply issues_execute.
Qed.

Lemma issues_insert_page row :
  issues (insert_page row) [InsertPage (page_of row)].
Proof.
  unfold insert_page. apply issues_lift. intros [k n] E.
  unfold page_of, key_count. rewrite E. apply issues_execute.
Qed.

Lemma bind_option_list {A B} (f : A -> option B) (g : B -> statement) (l : list A) :
  l ≫= (fun x => g <$> option_list (f x)) = g <$> omap f l.
Proof.
  induction l as [|x l IH]; [done|]. cbn. rewrite IH.
  by destruct (f x).
Qed.

Lemma bind_singleton {A B} (f : A -> B) (g : B -> statement) (l : list A) :
  l ≫= (fun x => [g (f x)]) = g <$> (f <$> l).
Proof. induction l as [|x l IH]; [done|]. cbn. by rewrite IH. Qed.

Lemma issues_save_body data : issues (save_body data) (statements data).
Proof.
  unfold save_body, statements.
  apply (issues_bind _ _ [TruncateSnapshots]); [apply issues_execute|]. intros _.
  apply issues_lift. intros d5 E5. apply issues_lift. intros d30 E30.
  unfold location_rows, dict_of. rewrite E5, E30.
  apply issues_bind.
  { rewrite <- bind_option_list. apply issues_for_each. intros. apply issues_insert_city. }
  intros _. apply issues_bind.
  { rewrite <- bind_singleton.
    apply issues_for_each. intros. apply issues_insert_device. }
  intros _. rewrite <- (app_nil_r (InsertPage <$> _)). apply issues_bind.
  { rewrite <- bind_singleton.
    apply issues_for_each. intros. apply issues_insert_page. }
  intros _. apply issues_commit.
Qed.

Lemma in_transaction_insert_city d5 d30 city : in_transaction (insert_city d5 d30 city).
Proof. unfold insert_city. destruct (_ !! _); auto with txn. Qed.

Lemma all_or_nothing_save_body data : all_or_nothing (save_body data).
Proof.
  unfold save_body.
  repeat (apply all_or_nothing_bind; [auto with txn|intros ?]);
    try apply all_or_nothing_commit.
  - apply in_transaction_for_each. apply in_transaction_insert_city.
  - apply in_transaction_for_each. intros row. unfold insert_device.
    apply in_transaction_bind; [auto with txn|intros []; auto with txn].
  - apply in_transaction_for_each. intros row. unfold insert_page.
    apply in_transaction_bind; [auto with txn|intros []; auto with txn].
Qed.

(** The two outcomes of [save_to_database]. *)
Lemma save_to_database_outcome data srv :
  match save_to_database data srv with
  | (Ok _, srv') =>
      contents srv' =
        run_statements (current_timestamp srv) (statements data) (contents srv) /\
      (exists d5 d30,
          users_dict (rows (users_5min data)) ∅ = Ok d5 /\
          users_dict (rows (users_30min data)) ∅ = Ok d30)
  | (Raise _, srv') => contents srv' = contents srv
  end.
Proof.
  unfold save_to_database, get_db_connection.
  destruct (connect_error (failing srv)); [done|].
  match goal with |- context [run ?m ?c] =>
    pose proof (guarded_all_or_nothing (save_body data) c (all_or_nothing_save_body data)) as H;
    destruct (run m c) as [[u|e] c'] end; cbn [disconnect contents]; [|done].
  destruct H as (c1 & [] & Hrun & ->).
  destruct (issues_save_body data _ _ _ Hrun) as [-> _]. cbn [pending clock].
  split; [done|].
  unfold save_body in Hrun.
  apply run_bind_Ok in Hrun as (? & ? & _ & Hrun).
  apply run_bind_Ok in Hrun as (d5 & ? & [E5 ->]%run_lift_result_Ok & Hrun).
  apply run_bind_Ok in Hrun as (d30 & ? & [E30 ->]%run_lift_result_Ok & Hrun).
  eauto.
Qed.

End SaveToDatabase.

(** ** Runs without faults *)

Section FaultFree.

Import App.

Definition succeeds {A} (m : M connection A) : Prop :=
  forall c, fault_free (conn_faults c) ->
    exists a c', run m c = (Ok a, c') /\ conn_faults c' = conn_faults c.

Lemma succeeds_ret {A} (a : A) : succeeds (ret a).
Proof. intros c _. by exists a, c. Qed.

Lemma succeeds_execute st : succeeds (execute st).
Proof.
  intros c (_ & Hex & _). cbn. rewrite Hex. eauto.
Qed.

Lemma succeeds_commit : succeeds commit.
Proof.
  intros c (_ & _ & Hc). cbn. rewrite Hc. eauto.
Qed.

Lemma succeeds_bind {A B} (m : M connection A) (k : A -> M connection B) :
  succeeds m -> (forall a, succeeds (k a)) -> succeeds (bind m k).
Proof.
  intros Hm Hk c Hc. destruct (Hm c Hc) as (a & c1 & H1 & E1).
  rewrite run_bind, H1. rewrite <- E1 in Hc.
  destruct (Hk a c1 Hc) as (b & c2 & H2 & E2).
  exists b, c2. split; [done | congruence].
Qed.

Lemma succeeds_lift {A B} (r : result A) (k : A -> M connection B) a :
  r = Ok a -> succeeds (k a) -> succeeds (bind (lift_result r) k).
Proof. intros -> Hk c Hc. rewrite run_bind. cbn. by apply Hk. Qed.

Lemma succeeds_for_each {A} (body : A -> M connection unit) l :
  Forall (fun x => succeeds (body x)) l -> succeeds (for_each l body).
Proof.
  induction 1 as [|x l Hx _ IH]; [apply succeeds_ret|].
  cbn [for_each]. by apply succeeds_bind.
Qed.

Lemma users_dict_well_formed rs d :
  Forall well_formed rs -> exists d', users_dict rs d = Ok d'.
Proof.
  intros H. revert d. induction H as [|row rs (k & n & E) _ IH]; intros d; cbn.
  - eauto.
  - rewrite E. apply IH.
Qed.

Lemma succeeds_save_body data :
  Forall well_formed (rows (users_5min data)) ->
  Forall well_formed (rows (users_30min data)) ->
  Forall well_formed (rows (by_device data)) ->
  Forall well_formed (rows (by_page data)) ->
  succeeds (save_body data).
Proof.
  intros H5 H30 Hd Hp. unfold save_body.
  destruct (users_dict_well_formed _ ∅ H5) as [d5 E5].
  destruct (users_dict_well_formed _ ∅ H30) as [d30 E30].
  apply succeeds_bind; [apply succeeds_execute|intros _].
  eapply succeeds_lift; [exact E5|]. eapply succeeds_lift; [exact E30|].
  apply succeeds_bind; [|intros _; apply succeeds_bind; [|intros _; apply succeeds_bind]].
  - apply succeeds_for_each, Forall_forall. intros city _.
    unfold insert_city. destruct (_ !! _); [apply succeeds_execute | apply succeeds_ret].
  - apply succeeds_for_each. eapply Forall_impl; [exact Hd|].
    intros row (k & n & E). unfold insert_device.
    eapply succeeds_lift; [exact E|]. apply succeeds_execute.
  - apply succeeds_for_each. eapply Forall_impl; [exact Hp|].
    intros row (k & n & E). unfold insert_page.
    eapply succeeds_lift; [exact E|]. apply succeeds_execute.
  - intros _. apply succeeds_commit.
Qed.

Lemma save_to_database_succeeds data srv :
  fault_free (failing srv) ->
  Forall well_formed (rows (users_5min data)) ->
  Forall well_formed (rows (users_30min data)) ->
  Forall well_formed (rows (by_device data)) ->
  Forall well_formed (rows (by_page data)) ->
  (save_to_database data srv).1 = Ok tt.
Proof.
  intros Hf H5 H30 Hd Hp. unfold save_to_database, get_db_connection.
  destruct Hf as (Hconn & Hrest). rewrite Hconn.
  match goal with |- context [run _ ?c] => set (conn := c) end.
  destruct (succeeds_save_body data H5 H30 Hd Hp conn) as ([] & c' & Hrun & _).
  { subst conn. cbn. by split. }
  unfold try_finally, try_except. cbn [run]. by rewrite Hrun.
Qed.

(** The keys of the dictionary are the cities of the rows. *)
Lemma users_dict_dom rs d d' :
  users_dict rs d = Ok d' ->
  forall c, c ∈ dom d' <->
    c ∈ dom d \/ exists row, row ∈ rs /\ index0 (dimension_values row) = Ok c.
Proof.
  revert d. induction rs as [|row rs IH]; intros d; cbn.
  - intros [= <-] c. split; [auto|]. intros [?|(row & []%elem_of_nil & _)]. done.
  - unfold row_key_count.
    destruct (index0 (dimension_values row)) as [key|] eqn:Ek; [|done].
    destruct (index0 (metric_values row)) as [v|]; [|done].
    destruct (int v) as [n|]; [|done].
    intros H c. rewrite (IH _ H c), dom_insert, elem_of_union, elem_of_singleton.
    split.
    + intros [[->|?]|(r & Hr & E)]; auto.
      * right. exists row. split; [left|done].
      * right. exists r. split; [by right|done].
    + intros [?|(r & [->|Hr]%elem_of_cons & E)]; auto.
      * left. left. congruence.
      * right. eauto.
Qed.

End FaultFree.

(** ** The realtime cycle *)

Section RealtimeCycle.

Import App Snapshot.

Lemma NoDup_omap {A B} (f : A -> option B) (l : list A) :
  (forall x y z, f x = Some z -> f y = Some z -> x = y) ->
  NoDup l -> NoDup (omap f l).
Proof.
  intros Hinj. induction 1 as [|x l Hx Hl IH]; cbn; [constructor|].
  destruct (f x) as [z|] eqn:E; [|done].
  constructor; [|done].
  intros (y & Hy & Ey)%list_elem_of_omap.
  by rewrite (Hinj _ _ _ E Ey) in Hx.
Qed.

Lemma city_row_inj d5 d30 x y z :
  city_row d5 d30 x = Some z -> city_row d5 d30 y = Some z -> x = y.
Proof.
  unfold city_row.
  destruct (VIETNAM_CITIES !! x), (VIETNAM_CITIES !! y); cbn; try done.
  intros H1 H2. by simplify_eq.
Qed.

Lemma save_to_database_tables data srv srv' :
  save_to_database data srv = (Ok tt, srv') ->
  snapshot_tables (contents srv')
    = (location_rows data, source_of <$> rows (by_device data),
       page_of <$> rows (by_page data)) /\
  other_tables (contents srv') = other_tables (contents srv) /\
  exists d5 d30,
    users_dict (rows (users_5min data)) ∅ = Ok d5 /\
    users_dict (rows (users_30min data)) ∅ = Ok d30.
Proof.
  intros H. pose proof (save_to_database_outcome data srv) as Hout.
  rewrite H in Hout. destruct Hout as [-> Hd].
  destruct (run_statements_snapshot (current_timestamp srv) data (contents srv)) as [-> ->].
  done.
Qed.

Lemma save_to_database_locations data srv srv' :
  save_to_database data srv = (Ok tt, srv') ->
  user_by_location (contents srv') = location_rows data.
Proof.
  intros H. destruct (save_to_database_tables _ _ _ H) as (Ht & _).
  unfold snapshot_tables in Ht. by injection Ht.
Qed.

Lemma save_to_database_rollback data srv e srv' :
  save_to_database data srv = (Raise e, srv') -> contents srv' = contents srv.
Proof.
  intros H. pose proof (save_to_database_outcome data srv) as Hout.
  by rewrite H in Hout.
Qed.

End RealtimeCycle.

(** C1.  [save_to_database] fills [user_by_location] from the reference
    table: the table has 14 entries; a response whose rows are well formed
    causes no error on a store without faults, whatever its cities; after a
    successful write the rows of [user_by_location] are, without repetition,
    exactly one row per city of the response that is a key of
    [VIETNAM_CITIES], with the display name and the coordinates of the
    table and the counts of the response (0 for a window without the
    city); and the response with "Hanoi" (42 users) and "Paris" yields the
    single row for "Hà Nội" at 21.0285, 105.8542 with 42 users. *)
Theorem location_rows_come_from_reference_table (data : App.ga4_data) (srv : server) :
  size App.VIETNAM_CITIES = 14%nat /\
  (fault_free (failing srv) ->
   Forall well_formed (App.rows (App.users_5min data)) ->
   Forall well_formed (App.rows (App.users_30min data)) ->
   Forall well_formed (App.rows (App.by_device data)) ->
   Forall well_formed (App.rows (App.by_page data)) ->
   (App.save_to_database data srv).1 = Ok tt) /\
  (forall srv',
     App.save_to_database data srv = (Ok tt, srv') ->
     exists d5 d30,
       App.users_dict (App.rows (App.users_5min data)) ∅ = Ok d5 /\
       App.users_dict (App.rows (App.users_30min data)) ∅ = Ok d30 /\
       (forall c, c ∈ dom d5 ∪ dom d30 <->
          exists row, row ∈ App.rows (App.users_5min data) ++ App.rows (App.users_30min data) /\
                      index0 (App.dimension_values row) = Ok c) /\
       NoDup (user_by_location (contents srv')) /\
       forall r,
         r ∈ user_by_location (contents srv') <->
         exists c info,
           c ∈ dom d5 ∪ dom d30 /\
           App.VIETNAM_CITIES !! c = Some info /\
           r = {| province := App.name info;
                  city := c;
                  latitude := App.lat info;
                  longitude := App.lng info;
                  active_users_5min := default 0 (d5 !! c);
                  active_users_30min := default 0 (d30 !! c) |}) /\
  (fault_free (failing srv) ->
   (App.save_to_database Sample.hanoi_paris srv).1 = Ok tt /\
   user_by_location (contents (App.save_to_database Sample.hanoi_paris srv).2)
     = [Sample.hanoi_row]).
Proof.
  split; [by vm_compute|]. split; [apply save_to_database_succeeds|]. split.
  - intros srv' H.
    destruct (save_to_database_tables _ _ _ H) as (_ & _ & d5 & d30 & E5 & E30).
    exists d5, d30. split; [exact E5|]. split; [exact E30|].
    rewrite (save_to_database_locations _ _ _ H).
    unfold Snapshot.location_rows, Snapshot.dict_of. rewrite E5, E30.
    split; [|split].
    + intros c. rewrite elem_of_union, (users_dict_dom _ _ _ E5), (users_dict_dom _ _ _ E30).
      rewrite dom_empty_L. split.
      * intros [[[]%elem_of_empty|(row & Hr & E)]|[[]%elem_of_empty|(row & Hr & E)]];
          exists row; (split; [apply elem_of_app; auto | done]).
      * intros (row & [Hr|Hr]%elem_of_app & E); [left|right]; right; eauto.
    + apply NoDup_omap; [apply city_row_inj | apply NoDup_elements].
    + intros r. rewrite list_elem_of_omap. unfold Snapshot.city_row. split.
      * intros (c & Hc%elem_of_elements & E).
        destruct (App.VIETNAM_CITIES !! c) as [info|] eqn:Ei; [|done].
        injection E as <-. by exists c, info.
      * intros (c & info & Hc & Ei & ->). exists c.
        split; [by apply elem_of_elements|]. by rewrite Ei.
  - intros Hf.
    assert (Hok : (App.save_to_database Sample.hanoi_paris srv).1 = Ok tt).
    { apply save_to_database_succeeds; [exact Hf|..];
        unfold Sample.hanoi_paris;
        cbn [App.rows App.users_5min App.users_30min App.by_device App.by_page];
        repeat first [apply Forall_nil_2 | apply Forall_cons_2];
        eexists _, _; vm_compute; reflexivity. }
    split; [exact Hok|].
    destruct (App.save_to_database Sample.hanoi_paris srv) as [r srv'] eqn:E.
    cbn in Hok. subst r.
    cbn [snd]. rewrite (save_to_database_locations _ _ _ E). vm_compute. reflexivity.
Qed.

Lemma location_rows_come_from_reference_table_witness :
  fault_free (failing Sample.healthy) /\
  (App.save_to_database Sample.hanoi_paris Sample.healthy).1 = Ok tt /\
  user_by_location (contents (App.save_to_database Sample.hanoi_paris Sample.healthy).2)
    = [Sample.hanoi_row].
Proof.
  assert (Hf : fault_free (failing Sample.healthy)) by (by repeat split).
  split; [exact Hf|].
  exact (proj2 (proj2 (proj2
    (location_rows_come_from_reference_table Sample.hanoi_paris Sample.healthy))) Hf).
Defined.

(** C2.  One realtime cycle ([refresh_data]) mutates the store only
    through [save_to_database], and only when all four reports were
    fetched; [save_to_database] runs the truncation and every insert in
    one transaction: either all its statements are committed together, or
    it raises and the store holds exactly what it held before the cycle,
    wherever the failure happened. *)
Theorem realtime_cycle_is_all_or_nothing
    (client : App.report_client) (pid : string) (srv : server) :
  match App.fetch_ga4_realtime_data client pid with
  | Raise _ => (App.refresh_data client pid srv).2 = srv
  | Ok data =>
      (App.refresh_data client pid srv).2 = (App.save_to_database data srv).2 /\
      match App.save_to_database data srv with
      | (Ok _, srv') =>
          contents srv' =
            run_statements (current_timestamp srv) (Snapshot.statements data) (contents srv)
      | (Raise _, srv') => contents srv' = contents srv
      end
  end.
Proof.
  unfold App.refresh_data.
  destruct (App.fetch_ga4_realtime_data client pid) as [data|e]; [|done].
  pose proof (save_to_database_outcome data srv) as Hout.
  destruct (App.save_to_database data srv) as [[u|e] srv']; cbn; [|done].
  split; [done|]. apply Hout.
Qed.

(** A failure right after the truncation: the error is raised and the
    three tables are those of the cycle before, not empty ones. *)
Example failure_after_truncate_rolls_back :
  App.save_to_database Sample.hanoi_paris Sample.breaks_after_truncate
    = (Raise (DatabaseError "connection lost"), Sample.breaks_after_truncate).
Proof. by vm_compute. Qed.


(** ** Insert with conflict resolution *)

Section Upsert.

Context {A K : Type} `{EqDecision K}.
Variable key : A -> K.
Variable conflict : A -> A -> bool.
Variable update : A -> A -> A.

Hypothesis conflict_key : forall r x, conflict r x = true <-> key x = key r.
Hypothesis update_key : forall r x, key (update r x) = key x.

Lemma filter_none (P : A -> Prop) `{forall x, Decision (P x)} (l : list A) :
  (forall x, x ∈ l -> ~ P x) -> filter P l = [].
Proof.
  induction l as [|y l IH]; intros Hl; [done|].
  rewrite filter_cons_False by (apply Hl; left).
  apply IH. intros x Hx. apply Hl. by right.
Qed.

Lemma upsert_keys r t :
  key <$> upsert conflict update r t =
    if decide (key r ∈ key <$> t) then key <$> t else (key <$> t) ++ [key r].
Proof.
  induction t as [|x t IH]; cbn.
  - rewrite decide_False; [done|]. apply not_elem_of_nil.
  - destruct (conflict r x) eqn:E.
    + apply conflict_key in E. cbn. rewrite update_key.
      rewrite decide_True; [done|]. rewrite E. left.
    + assert (key x <> key r) as Hne.
      { intros Hk%conflict_key. congruence. }
      cbn. rewrite IH. destruct (decide (key r ∈ key <$> t)) as [Hin|Hin].
      * rewrite decide_True; [done|]. by right.
      * rewrite decide_False; [done|]. intros [?|?]%elem_of_cons; congruence.
Qed.

Lemma upsert_NoDup r t :
  NoDup (key <$> t) -> NoDup (key <$> upsert conflict update r t).
Proof.
  intros Hnd. rewrite upsert_keys. case_decide as Hin; [done|].
  apply NoDup_app. split; [done|]. split; [|apply NoDup_singleton].
  intros k Hk ->%list_elem_of_singleton. done.
Qed.

(** Rows under another key keep their place and their contents, and no
    row appears under another key. *)
Lemma upsert_lookup_other r t i x :
  key x <> key r ->
  upsert conflict update r t !! i = Some x <-> t !! i = Some x.
Proof.
  intros Hne. revert i. induction t as [|y t IH]; intros i; cbn.
  - destruct i; cbn; [|done]. split; [intros [= ->]|]; done.
  - destruct (conflict r y) eqn:E.
    + apply conflict_key in E. destruct i; cbn; [|done].
      split; intros [= <-]; [rewrite update_key in Hne|]; congruence.
    + destruct i; cbn; [done|]. apply IH.
Qed.

(** Under the key of the new row there is one row afterwards: the
    update of the row in conflict, or the new row. *)
Lemma upsert_filter_key r t :
  NoDup (key <$> t) ->
  filter (fun x => key x = key r) (upsert conflict update r t) =
    match filter (fun x => key x = key r) t with
    | [] => [r]
    | x :: _ => [update r x]
    end.
Proof.
  induction t as [|y t IH]; intros Hnd; cbn [upsert].
  - by rewrite filter_cons_True, !filter_nil.
  - apply NoDup_cons in Hnd as [Hy Hnd].
    destruct (conflict r y) eqn:E.
    + apply conflict_key in E.
      rewrite filter_cons_True by (by rewrite update_key).
      rewrite (filter_cons_True _ y) by done.
      f_equal. apply filter_none. intros z Hz Hk.
      apply Hy. rewrite E, <- Hk. by apply list_elem_of_fmap_2.
    + assert (key y <> key r) as Hne.
      { intros Hk%conflict_key. congruence. }
      rewrite !filter_cons_False by done. by apply IH.
Qed.

Lemma upsert_filter_other r t k :
  k <> key r ->
  filter (fun x => key x = k) (upsert conflict update r t)
    = filter (fun x => key x = k) t.
Proof.
  intros Hne. induction t as [|y t IH]; cbn [upsert].
  - rewrite filter_cons_False; [done|]. congruence.
  - destruct (conflict r y) eqn:E.
    + apply conflict_key in E.
      rewrite !filter_cons_False; [done|congruence|rewrite update_key; congruence].
    + destruct (decide (key y = k)).
      * rewrite !filter_cons_True by done. by rewrite IH.
      * rewrite !filter_cons_False by done. done.
Qed.

End Upsert.

Section DailyUpsert.

Lemma daily_conflict_key r x : daily_conflict r x = true <-> daily_key x = daily_key r.
Proof.
  unfold daily_conflict, daily_key.
  rewrite andb_true_iff, String.eqb_eq, Z.eqb_eq. split.
  - intros [-> ->]. done.
  - intros [= -> ->]. done.
Qed.

Lemma daily_update_key r x : daily_key (daily_update r x) = daily_key x.
Proof. reflexivity. Qed.

Lemma post_conflict_key r x : post_conflict r x = true <-> post_id x = post_id r.
Proof. unfold post_conflict. apply String.eqb_eq. Qed.

Lemma post_update_key now r x : post_id (post_update now r x) = post_id x.
Proof. reflexivity. Qed.

End DailyUpsert.

(** ** The upsert writers *)

Section UpsertWriters.

Import DailyInsights SaveFacebook Upserts.

Lemma upsert_elem_same {A K} (key : A -> K) conflict update (r : A) t x :
  (forall r x, conflict r x = true <-> key x = key r) ->
  (forall r x, key (update r x) = key x) ->
  NoDup (key <$> t) ->
  x ∈ upsert conflict update r t -> key x = key r ->
  x = r \/ exists y, y ∈ t /\ x = update r y.
Proof.
  intros Hck Huk. induction t as [|y t IH]; cbn [upsert]; intros Hnd Hx Hk.
  - apply list_elem_of_singleton in Hx. by left.
  - apply NoDup_cons in Hnd as [Hy Hnd]. destruct (conflict r y) eqn:E.
    + apply Hck in E. apply elem_of_cons in Hx as [->|Hx].
      * right. exists y. split; [left|done].
      * exfalso. apply Hy. rewrite E, <- Hk. by apply list_elem_of_fmap_2.
    + apply elem_of_cons in Hx as [->|Hx].
      * apply Hck in Hk. congruence.
      * destruct (IH Hnd Hx Hk) as [?|(z & Hz & ->)]; [by left|].
        right. exists z. split; [by right|done].
Qed.

Lemma upsert_elem_key {A K} (key : A -> K) conflict update (r : A) t :
  (forall r x, conflict r x = true <-> key x = key r) ->
  (forall r x, key (update r x) = key x) ->
  exists x, x ∈ upsert conflict update r t /\ key x = key r.
Proof.
  intros Hck Huk. induction t as [|y t (x & Hx & Hk)]; cbn [upsert].
  - exists r. split; [left|done].
  - destruct (conflict r y) eqn:E.
    + apply Hck in E. exists (update r y). split; [left|]. by rewrite Huk.
    + exists x. split; [by right|done].
Qed.

(** Rows of the daily table under a key that no statement writes. *)
Lemma run_statements_daily_other now sts db i x :
  Forall (fun st => ~ writes_daily_key (daily_key x) st) sts ->
  facebook_page_insights_daily (run_statements now sts db) !! i = Some x <->
  facebook_page_insights_daily db !! i = Some x.
Proof.
  intros H. revert db. induction H as [|st sts Hst _ IH]; intros db; [done|].
  rewrite run_statements_cons, IH.
  destruct st; cbn; try done.
  apply upsert_lookup_other with (key := daily_key);
    [apply daily_conflict_key | apply daily_update_key | ].
  intros E. by apply Hst.
Qed.

Lemma run_statements_posts_other now sts db i x :
  Forall (fun st => ~ writes_post_id (post_id x) st) sts ->
  facebook_post_insights (run_statements now sts db) !! i = Some x <->
  facebook_post_insights db !! i = Some x.
Proof.
  intros H. revert db. induction H as [|st sts Hst _ IH]; intros db; [done|].
  rewrite run_statements_cons, IH.
  destruct st; cbn; try done.
  apply upsert_lookup_other with (key := post_id);
    [apply post_conflict_key | apply post_update_key | ].
  intros E. by apply Hst.
Qed.

(** The [try .. finally: close] frame around an all-or-nothing body. *)
Lemma closing_all_or_nothing {A} (m : M connection A) c :
  all_or_nothing m ->
  match run (try_finally m close) c with
  | (Ok _, c') => exists c1 a, run m c = (Ok a, c1) /\ committed c' = pending c1
  | (Raise _, c') => committed c' = committed c
  end.
Proof.
  intros Hm. specialize (Hm c). cbn.
  destruct (run m c) as [[a|e] c1]; cbn; [|done].
  exists c1, a. by rewrite Hm.
Qed.

Section Daily.

Variable fromisoformat_date : string -> result Z.

Lemma issues_save_entry metric_name e :
  issues (save_entry fromisoformat_date metric_name (report_type_of metric_name) e)
         (entry_statements fromisoformat_date metric_name e).
Proof.
  unfold save_entry, entry_statements. apply issues_lift. intros d ->.
  apply issues_execute.
Qed.

Lemma issues_save_block b :
  issues (save_block fromisoformat_date b)
         (default [] (block_values b) ≫=
          entry_statements fromisoformat_date (block_name b)).
Proof.
  unfold save_block. apply issues_for_each. intros e. apply issues_save_entry.
Qed.

Lemma in_transaction_save_block b : in_transaction (save_block fromisoformat_date b).
Proof.
  unfold save_block. apply in_transaction_for_each. intros e. unfold save_entry.
  apply in_transaction_bind; [apply in_transaction_lift|intros d].
  apply in_transaction_execute.
Qed.

Lemma save_insights_outcome insights_data srv :
  match save_insights fromisoformat_date insights_data srv with
  | (Ok _, srv') =>
      contents srv' =
        run_statements (current_timestamp srv)
          (daily_statements fromisoformat_date insights_data) (contents srv)
  | (Raise _, srv') => contents srv' = contents srv
  end.
Proof.
  unfold save_insights, get_db_connection.
  destruct (connect_error (failing srv)); [done|].
  match goal with |- context [run (try_finally ?m close) ?c] =>
    assert (Ha : all_or_nothing m);
    [|pose proof (closing_all_or_nothing m c Ha) as H;
      destruct (run (try_finally m close) c) as [[u|e] c'] eqn:Hrun] end.
  { apply all_or_nothing_bind; [|intros; apply all_or_nothing_commit].
    apply in_transaction_for_each, in_transaction_save_block. }
  - cbn [disconnect contents]. destruct H as (c1 & a & Hm & ->).
    match type of Hm with run ?m _ = _ =>
      assert (Hi : issues m (daily_statements fromisoformat_date insights_data ++ [])) end.
    { apply issues_bind; [|intros; apply issues_commit].
      apply issues_for_each, issues_save_block. }
    destruct (Hi _ _ _ Hm) as [-> _]. by rewrite app_nil_r.
  - done.
Qed.

Lemma daily_statements_keys insights_data st :
  st ∈ daily_statements fromisoformat_date insights_data ->
  exists b e d,
    b ∈ insights_data /\ e ∈ default [] (block_values b) /\
    fromisoformat_date (replace_Z (end_time e)) = Ok d /\
    st = UpsertDaily {| metric := block_name b;
                        report_type := report_type_of (block_name b);
                        date := d;
                        value := default 0 (entry_value e) |}.
Proof.
  unfold daily_statements.
  intros (b & Hst & Hb)%list_elem_of_bind.
  apply list_elem_of_bind in Hst as (e & Hst & He).
  unfold entry_statements in Hst.
  destruct (fromisoformat_date _) as [d|] eqn:Ed; [|by apply elem_of_nil in Hst].
  apply list_elem_of_singleton in Hst. by exists b, e, d.
Qed.

End Daily.

Lemma post_statements_rows posts_data st :
  st ∈ post_statements posts_data ->
  exists p r, p ∈ posts_data /\ bind_post p = Ok r /\ st = UpsertPost r.
Proof.
  unfold post_statements. intros (p & Hst & Hp)%list_elem_of_bind.
  destruct (bind_post p) as [r|] eqn:E; [|by apply elem_of_nil in Hst].
  apply list_elem_of_singleton in Hst. by exists p, r.
Qed.

Lemma issues_save_post p :
  issues (save_post p)
         (match bind_post p with Ok r => [UpsertPost r] | Raise _ => [] end).
Proof.
  unfold save_post. apply issues_lift. intros r ->. apply issues_execute.
Qed.

Lemma save_post_insights_outcome posts_data srv :
  match save_post_insights posts_data srv with
  | (Ok _, srv') =>
      contents srv' =
        run_statements (current_timestamp srv) (post_statements posts_data) (contents srv)
  | (Raise _, srv') => contents srv' = contents srv
  end.
Proof.
  unfold save_post_insights. destruct posts_data as [|p0 ps]; [done|].
  set (posts_data := p0 :: ps). unfold get_db_connection.
  destruct (connect_error (failing srv)); [done|].
  match goal with |- context [run (try_finally (try_except ?m ?h) close) ?c] =>
    assert (Ha : all_or_nothing m);
    [|pose proof (guarded_all_or_nothing m c Ha) as H;
      destruct (run (try_finally (try_except m h) close) c) as [[u|e] c'] eqn:Hrun] end.
  { apply all_or_nothing_bind; [|intros; apply all_or_nothing_commit].
    apply in_transaction_for_each. intros p. unfold save_post.
    apply in_transaction_bind; [apply in_transaction_lift|intros r].
    apply in_transaction_execute. }
  - cbn [disconnect contents]. destruct H as (c1 & a & Hm & ->).
    match type of Hm with run ?m _ = _ =>
      assert (Hi : issues m (post_statements posts_data ++ [])) end.
    { apply issues_bind; [|intros; apply issues_commit].
      apply issues_for_each, issues_save_post. }
    destruct (Hi _ _ _ Hm) as [-> _]. by rewrite app_nil_r.
  - done.
Qed.

End UpsertWriters.

Section DailyRows.

Lemma upsert_daily_filter_key r t k :
  k = daily_key r ->
  NoDup (daily_key <$> t) ->
  filter (fun x => daily_key x = k) (upsert_daily r t) =
    match filter (fun x => daily_key x = k) t with
    | [] => [r]
    | x :: _ => [daily_update r x]
    end.
Proof.
  intros ->. apply upsert_filter_key; [apply daily_conflict_key | apply daily_update_key].
Qed.

Lemma upsert_daily_filter_other r t k :
  k <> daily_key r ->
  filter (fun x => daily_key x = k) (upsert_daily r t)
    = filter (fun x => daily_key x = k) t.
Proof.
  apply upsert_filter_other; [apply daily_conflict_key | apply daily_update_key].
Qed.

Lemma upsert_daily_NoDup r t :
  NoDup (daily_key <$> t) -> NoDup (daily_key <$> upsert_daily r t).
Proof.
  apply upsert_NoDup; [apply daily_conflict_key | apply daily_update_key].
Qed.

End DailyRows.

(** C3.  In [facebook_page_insights_daily], with (metric, date) unique,
    the upsert of [fetch_facebook_insights] keeps the key unique; a second
    upsert under the same (metric, date) leaves exactly one row for the
    key, which is the row of the first upsert with only its value replaced
    by the new one (10 then 15 leaves 15); an upsert of the same metric
    under another date leaves one row per date, the first with its value
    untouched. *)
Theorem daily_upsert_overwrites_value_only
    (now : Z) (m rt1 rt2 : string) (d d' v1 v2 : Z) (db : database) :
  NoDup (daily_key <$> facebook_page_insights_daily db) ->
  let db1 :=
    run_statement now
      (UpsertDaily {| metric := m; report_type := rt1; date := d; value := v1 |}) db in
  let same :=
    run_statement now
      (UpsertDaily {| metric := m; report_type := rt2; date := d; value := v2 |}) db1 in
  let other :=
    run_statement now
      (UpsertDaily {| metric := m; report_type := rt2; date := d'; value := v2 |}) db1 in
  exists x1,
    filter (fun x => daily_key x = (m, d)) (facebook_page_insights_daily db1) = [x1] /\
    value x1 = v1 /\
    filter (fun x => daily_key x = (m, d)) (facebook_page_insights_daily same)
      = [{| metric := metric x1; report_type := report_type x1;
            date := date x1; value := v2 |}] /\
    NoDup (daily_key <$> facebook_page_insights_daily same) /\
    (d' <> d ->
     filter (fun x => daily_key x = (m, d)) (facebook_page_insights_daily other) = [x1] /\
     exists x2,
       filter (fun x => daily_key x = (m, d')) (facebook_page_insights_daily other) = [x2] /\
       value x2 = v2).
Proof.
  intros Hnd db1 same other.
  set (r1 := {| metric := m; report_type := rt1; date := d; value := v1 |}) in *.
  set (t := facebook_page_insights_daily db) in *.
  pose proof (upsert_daily_NoDup r1 t Hnd) as Hnd1.
  assert (H1 : exists x1,
             filter (fun x => daily_key x = (m, d)) (upsert_daily r1 t) = [x1] /\
             value x1 = v1).
  { rewrite (upsert_daily_filter_key r1 t (m, d) eq_refl Hnd).
    destruct (filter _ t) as [|y ?]; eauto. }
  destruct H1 as (x1 & Hx1 & Hv1). exists x1.
  subst db1 same other. cbn [run_statement set_daily facebook_page_insights_daily].
  fold t. split; [exact Hx1|]. split; [exact Hv1|]. split; [|split].
  - erewrite upsert_daily_filter_key; [|reflexivity|exact Hnd1]. by rewrite Hx1.
  - by apply upsert_daily_NoDup.
  - intros Hne. split.
    + rewrite upsert_daily_filter_other; [exact Hx1|].
      unfold daily_key. cbn. intros [= E]. by apply Hne.
    + erewrite upsert_daily_filter_key; [|reflexivity|exact Hnd1].
      destruct (filter (fun x => daily_key x = (m, d')) (upsert_daily r1 t)) as [|y ?];
        (eexists; split; reflexivity).
Qed.

Lemma daily_upsert_overwrites_value_only_witness :
  NoDup (daily_key <$> facebook_page_insights_daily Sample.yesterday) /\
  exists x1,
    filter (fun x => daily_key x = ("page_views_total", ymd 2025 1 1))
      (facebook_page_insights_daily
         (run_statement 0
            (UpsertDaily {| metric := "page_views_total"; report_type := "Visits";
                            date := ymd 2025 1 1; value := 10 |}) Sample.yesterday)) = [x1] /\
    value x1 = 10 /\
    filter (fun x => daily_key x = ("page_views_total", ymd 2025 1 1))
      (facebook_page_insights_daily
         (run_statement 0
            (UpsertDaily {| metric := "page_views_total"; report_type := "Visits";
                            date := ymd 2025 1 1; value := 15 |})
            (run_statement 0
               (UpsertDaily {| metric := "page_views_total"; report_type := "Visits";
                               date := ymd 2025 1 1; value := 10 |}) Sample.yesterday)))
      = [{| metric := metric x1; report_type := report_type x1;
            date := date x1; value := 15 |}].
Proof.
  assert (Hnd : NoDup (daily_key <$> facebook_page_insights_daily Sample.yesterday)).
  { vm_compute. apply NoDup_singleton. }
  split; [exact Hnd|].
  destruct (daily_upsert_overwrites_value_only 0 "page_views_total" "Visits" "Visits"
              (ymd 2025 1 1) (ymd 2025 1 2) 10 15 Sample.yesterday Hnd)
    as (x1 & H1 & H2 & H3 & _).
  exists x1. split; [exact H1|]. split; [exact H2|exact H3].
Defined.

(** The two inserts of the specification, run on the sample store. *)
Example daily_upsert_10_then_15 :
  facebook_page_insights_daily
    (run_statements 0
       [UpsertDaily {| metric := "page_views_total"; report_type := "Visits";
                       date := ymd 2025 1 1; value := 10 |};
        UpsertDaily {| metric := "page_views_total"; report_type := "Visits";
                       date := ymd 2025 1 1; value := 15 |};
        UpsertDaily {| metric := "page_views_total"; report_type := "Visits";
                       date := ymd 2025 1 2; value := 20 |}] Sample.yesterday)
  = [SocialSample.follows_row;
     {| metric := "page_views_total"; report_type := "Visits";
        date := ymd 2025 1 1; value := 15 |};
     {| metric := "page_views_total"; report_type := "Visits";
        date := ymd 2025 1 2; value := 20 |}].
Proof. vm_compute. reflexivity. Qed.

(** C4.  The upsert writers touch only the keys of the response: a row of
    [facebook_page_insights_daily] whose (metric, date) is not the key of
    any record of the insights response sits at the same place with the
    same contents before and after [save_insights], and so does a row of
    [facebook_post_insights] whose post id is not among the posts given to
    [save_post_insights]; no row appears under such a key either.  This
    holds whether the write commits or fails. *)
Theorem upserts_leave_other_rows_untouched :
  (forall (fromisoformat_date : string -> result Z)
          (insights_data : list DailyInsights.metric_block)
          (srv srv' : server) (r : result unit) (i : nat) (x : daily_row),
     DailyInsights.save_insights fromisoformat_date insights_data srv = (r, srv') ->
     (forall b e d,
        b ∈ insights_data ->
        e ∈ default [] (DailyInsights.block_values b) ->
        fromisoformat_date (DailyInsights.replace_Z (DailyInsights.end_time e)) = Ok d ->
        daily_key x <> (DailyInsights.block_name b, d)) ->
     facebook_page_insights_daily (contents srv') !! i = Some x <->
     facebook_page_insights_daily (contents srv) !! i = Some x) /\
  (forall (posts_data : list FacebookApi.formatted_post)
          (srv srv' : server) (r : result unit) (i : nat) (x : post_row),
     SaveFacebook.save_post_insights posts_data srv = (r, srv') ->
     (forall p, p ∈ posts_data -> post_id x <> FacebookApi.post_id p) ->
     facebook_post_insights (contents srv') !! i = Some x <->
     facebook_post_insights (contents srv) !! i = Some x).
Proof.
  split.
  - intros fromiso data srv srv' r i x Hsave Hkeys.
    pose proof (save_insights_outcome fromiso data srv) as Hout.
    rewrite Hsave in Hout. destruct r as [u|e]; rewrite Hout; [|done].
    apply run_statements_daily_other, Forall_forall.
    intros st (b & e & d & Hb & He & Hd & ->)%daily_statements_keys Hw.
    cbn in Hw. by eapply Hkeys.
  - intros posts srv srv' r i x Hsave Hkeys.
    pose proof (save_post_insights_outcome posts srv) as Hout.
    rewrite Hsave in Hout. destruct r as [u|e]; rewrite Hout; [|done].
    apply run_statements_posts_other, Forall_forall.
    intros st (p & row & Hp & Hbind & ->)%post_statements_rows Hw.
    cbn in Hw. apply (Hkeys p Hp). rewrite <- Hw.
    unfold SaveFacebook.bind_post in Hbind.
    repeat match type of Hbind with
           | context [SaveFacebook.adapt ?v] => destruct (SaveFacebook.adapt v); [|done]
           end.
    by injection Hbind as <-.
Qed.

Lemma upserts_leave_other_rows_untouched_witness :
  facebook_page_insights_daily
    (contents (DailyInsights.save_insights SocialSample.iso_date
                 [SocialSample.views_block] Sample.healthy).2) !! 0%nat
    = Some SocialSample.follows_row <->
  facebook_page_insights_daily (contents Sample.healthy) !! 0%nat
    = Some SocialSample.follows_row.
Proof.
  apply (proj1 upserts_leave_other_rows_untouched SocialSample.iso_date
           [SocialSample.views_block] Sample.healthy _
           (DailyInsights.save_insights SocialSample.iso_date
              [SocialSample.views_block] Sample.healthy).1).
  - apply surjective_pairing.
  - intros b e d ->%list_elem_of_singleton ->%list_elem_of_singleton _.
    vm_compute. discriminate.
Defined.

(** ** Video views of the stored posts *)

Section VideoViews.

Import FacebookApi SaveFacebook Upserts.

Lemma upsert_post_elem_other now r t x :
  Store.post_id x <> Store.post_id r -> x ∈ upsert_post now r t <-> x ∈ t.
Proof.
  intros Hne. rewrite !list_elem_of_lookup. unfold upsert_post.
  split; intros [j Hj]; exists j;
    by apply (upsert_lookup_other Store.post_id post_conflict (post_update now)
                post_conflict_key (post_update_key now) r t j x Hne).
Qed.

Lemma zeroed_upsert now S r t :
  Store.video_views r = 0 ->
  zeroed S t ->
  zeroed (fun i => i = Store.post_id r \/ S i) (upsert_post now r t).
Proof.
  intros Hr [Hnd HS]. split.
  { apply upsert_NoDup;
      [apply post_conflict_key | apply (post_update_key now) | done]. }
  intros i Hi. destruct (decide (i = Store.post_id r)) as [->|Hne].
  - split.
    + apply (upsert_elem_key Store.post_id post_conflict (post_update now));
        [apply post_conflict_key | apply (post_update_key now)].
    + intros x Hx Hk.
      destruct (upsert_elem_same Store.post_id post_conflict (post_update now) r t x
                  post_conflict_key (post_update_key now) Hnd Hx Hk)
        as [->|(y & _ & ->)]; done.
  - destruct Hi as [?|Hi]; [done|]. destruct (HS i Hi) as [(x & Hx & Hk) Hz]. split.
    + exists x. split; [|done]. apply upsert_post_elem_other; [congruence|done].
    + intros y Hy Hky. apply Hz; [|done].
      eapply upsert_post_elem_other; [|exact Hy]. congruence.
Qed.

Lemma zeroed_run_statements now sts :
  Forall (fun st => exists r, st = UpsertPost r /\ Store.video_views r = 0) sts ->
  forall S db,
    zeroed S (facebook_post_insights db) ->
    zeroed (fun i => S i \/ exists r, UpsertPost r ∈ sts /\ Store.post_id r = i)
           (facebook_post_insights (run_statements now sts db)).
Proof.
  induction 1 as [|st sts (r & -> & Hr) _ IH]; intros S db Hz.
  - destruct Hz as [Hnd HS]. split; [done|].
    intros i [Hi|(r & []%elem_of_nil & _)]. by apply HS.
  - rewrite run_statements_cons.
    specialize (IH (fun i => i = Store.post_id r \/ S i)
                   (run_statement now (UpsertPost r) db) (zeroed_upsert now S r _ Hr Hz)).
    destruct IH as [Hnd HS]. split; [done|].
    intros i Hi. apply HS.
    destruct Hi as [Hi|(r' & [E|Hr']%elem_of_cons & Hk)]; [auto| |eauto].
    injection E as <-. auto.
Qed.

Lemma bind_post_fields p r :
  bind_post p = Ok r ->
  Store.post_id r = FacebookApi.post_id p /\
  Store.video_views r = FacebookApi.video_views p.
Proof.
  unfold bind_post.
  repeat match goal with
         | |- context [adapt ?v] => destruct (adapt v); [|done]
         end.
  by intros [= <-].
Qed.

Lemma for_each_save_post_bound l c c' :
  run (for_each l save_post) c = (Ok tt, c') ->
  Forall (fun p => exists r, bind_post p = Ok r) l.
Proof.
  revert c. induction l as [|p l IH]; intros c; [constructor|].
  cbn [for_each]. intros (u & c1 & Hp & Hl)%run_bind_Ok.
  constructor; [|by eapply IH].
  unfold save_post in Hp.
  apply run_bind_Ok in Hp as (r & ? & [Hr _]%run_lift_result_Ok & _). eauto.
Qed.

Lemma save_post_insights_bound posts_data srv srv' :
  save_post_insights posts_data srv = (Ok tt, srv') ->
  Forall (fun p => exists r, bind_post p = Ok r) posts_data.
Proof.
  unfold save_post_insights. destruct posts_data as [|p0 ps]; [constructor|].
  set (posts_data := p0 :: ps). unfold get_db_connection.
  destruct (connect_error (failing srv)); [done|].
  match goal with |- context [run (try_finally (try_except ?m ?h) close) ?c] =>
    assert (Ha : all_or_nothing m);
    [|pose proof (guarded_all_or_nothing m c Ha) as H;
      destruct (run (try_finally (try_except m h) close) c) as [[u|e] c'] eqn:Hrun] end.
  { apply all_or_nothing_bind; [|intros; apply all_or_nothing_commit].
    apply in_transaction_for_each. intros p. unfold save_post.
    apply in_transaction_bind; [apply in_transaction_lift|intros r].
    apply in_transaction_execute. }
  - intros _. destruct H as (c1 & a & Hm & _).
    apply run_bind_Ok in Hm as (? & c2 & Hm & _).
    destruct x. eapply for_each_save_post_bound. exact Hm.
  - intros [=].
Qed.

End VideoViews.

(** C10.  Every post that [format_posts_for_database] produces has
    [video_views] 0, whatever the provider sent; hence after a successful
    [save_post_insights] of the formatted posts (post ids unique in the
    table), each of the posts has a row in [facebook_post_insights] and
    every row under its id holds [video_views] 0, also when the store held
    another value for it before. *)
Theorem stored_video_views_are_zero
    (posts : list FacebookApi.post) (srv srv' : server) :
  (forall p, p ∈ FacebookApi.format_posts_for_database posts ->
             FacebookApi.video_views p = 0) /\
  (NoDup (post_id <$> facebook_post_insights (contents srv)) ->
   SaveFacebook.save_post_insights (FacebookApi.format_posts_for_database posts) srv
     = (Ok tt, srv') ->
   forall p, p ∈ posts ->
     (exists x, x ∈ facebook_post_insights (contents srv') /\
                post_id x = FacebookApi.id p) /\
     forall x, x ∈ facebook_post_insights (contents srv') ->
               post_id x = FacebookApi.id p -> video_views x = 0).
Proof.
  assert (Hfmt : forall p, p ∈ FacebookApi.format_posts_for_database posts ->
                           FacebookApi.video_views p = 0).
  { unfold FacebookApi.format_posts_for_database.
    intros p (raw & -> & _)%list_elem_of_fmap. reflexivity. }
  split; [exact Hfmt|]. intros Hnd Hsave p Hp.
  pose proof (save_post_insights_outcome
                (FacebookApi.format_posts_for_database posts) srv) as Hout.
  rewrite Hsave in Hout. rewrite Hout.
  pose proof (save_post_insights_bound _ _ _ Hsave) as Hbound.
  set (sts := Upserts.post_statements (FacebookApi.format_posts_for_database posts)).
  assert (Hsts : Forall (fun st => exists r, st = UpsertPost r /\ video_views r = 0) sts).
  { apply Forall_forall. intros st (q & r & Hq & Hr & ->)%post_statements_rows.
    exists r. split; [done|].
    destruct (bind_post_fields _ _ Hr) as [_ ->]. by apply Hfmt. }
  assert (Hz0 : zeroed (fun _ => False) (facebook_post_insights (contents srv))).
  { split; [done|]. intros i []. }
  destruct (zeroed_run_statements (current_timestamp srv) sts Hsts _ _ Hz0) as [_ HS].
  apply HS. right.
  assert (Hq : FacebookApi.format_post p ∈ FacebookApi.format_posts_for_database posts).
  { unfold FacebookApi.format_posts_for_database. by apply list_elem_of_fmap_2. }
  rewrite Forall_forall in Hbound. destruct (Hbound _ Hq) as [r Hr].
  exists r. split.
  - unfold sts, Upserts.post_statements. apply list_elem_of_bind.
    exists (FacebookApi.format_post p). split; [|exact Hq]. rewrite Hr. left.
  - by destruct (bind_post_fields _ _ Hr) as [-> _].
Qed.

Lemma stored_video_views_are_zero_witness :
  NoDup (post_id <$> facebook_post_insights (contents Sample.healthy)) /\
  SaveFacebook.save_post_insights
    (FacebookApi.format_posts_for_database [SocialSample.morning_news]) Sample.healthy
    = (Ok tt, (SaveFacebook.save_post_insights
                 (FacebookApi.format_posts_for_database [SocialSample.morning_news])
                 Sample.healthy).2) /\
  forall x,
    x ∈ facebook_post_insights
          (contents (SaveFacebook.save_post_insights
                       (FacebookApi.format_posts_for_database [SocialSample.morning_news])
                       Sample.healthy).2) ->
    post_id x = "1001_77" -> video_views x = 0.
Proof.
  assert (Hnd : NoDup (post_id <$> facebook_post_insights (contents Sample.healthy))).
  { vm_compute. apply NoDup_singleton. }
  assert (Hsave : SaveFacebook.save_post_insights
            (FacebookApi.format_posts_for_database [SocialSample.morning_news]) Sample.healthy
          = (Ok tt, (SaveFacebook.save_post_insights
                       (FacebookApi.format_posts_for_database [SocialSample.morning_news])
                       Sample.healthy).2)).
  { vm_compute. reflexivity. }
  split; [exact Hnd|]. split; [exact Hsave|].
  apply (proj2 (stored_video_views_are_zero [SocialSample.morning_news] Sample.healthy _)
           Hnd Hsave SocialSample.morning_news).
  left.
Defined.

(** The stored count of 345 video views of the sample post is gone after
    one social cycle. *)
Example video_views_are_reset :
  video_views <$>
    facebook_post_insights
      (contents (SaveFacebook.save_post_insights
                   (FacebookApi.format_posts_for_database [SocialSample.morning_news])
                   Sample.healthy).2) = [0].
Proof. vm_compute. reflexivity. Qed.

(** ** The read routes on a failing store *)

Section ReadRoutes.

Import App.

Lemma run_query_fails {A} (select : database -> A) c msg :
  execute_error (conn_faults c) (executed c) = Some msg ->
  run (query select) c = (Raise (DatabaseError msg), step c (pending c)).
Proof. intros H. unfold query. cbn [run]. by rewrite H. Qed.

Lemma view_first_query_fails {A} srv (select : database -> A) (k : A -> M connection json) msg :
  connect_error (failing srv) = None ->
  execute_error (failing srv) 0 = Some msg ->
  view srv (let! data := query select in k data) = ErrorPage (DatabaseError msg).
Proof.
  intros Hc He. unfold view, get_db_connection. rewrite Hc, run_bind.
  erewrite run_query_fails; [reflexivity|exact He].
Qed.

End ReadRoutes.

(** C8.  When the first query of a request fails with message [msg], the
    four realtime routes let the exception leave the view function, so the
    client receives the error page of the framework and no JSON object;
    only [/api/facebook/daily_insights] answers with the object
    [{"error": msg}] (status 500). *)
Theorem read_routes_on_query_failure (srv : server) (msg : string) :
  connect_error (failing srv) = None ->
  execute_error (failing srv) 0 = Some msg ->
  App.get_map_data srv = App.ErrorPage (DatabaseError msg) /\
  App.get_active_users srv = App.ErrorPage (DatabaseError msg) /\
  App.get_users_by_source srv = App.ErrorPage (DatabaseError msg) /\
  App.get_views_by_page srv = App.ErrorPage (DatabaseError msg) /\
  App.get_facebook_insights srv
    = App.Jsonify (App.JObj [("error", App.JStr msg)]) 500.
Proof.
  intros Hc He. repeat split.
  - by apply view_first_query_fails.
  - by apply view_first_query_fails.
  - by apply view_first_query_fails.
  - by apply view_first_query_fails.
  - unfold App.get_facebook_insights, get_db_connection. rewrite Hc.
    unfold App.daily_value at 1. rewrite !run_bind. cbn [run get]. rewrite run_bind.
    erewrite run_query_fails; [reflexivity|exact He].
Qed.

Lemma read_routes_on_query_failure_witness :
  App.get_active_users Sample.unreadable = App.ErrorPage (DatabaseError "connection lost") /\
  App.get_facebook_insights Sample.unreadable
    = App.Jsonify (App.JObj [("error", App.JStr "connection lost")]) 500.
Proof.
  destruct (read_routes_on_query_failure Sample.unreadable "connection lost" eq_refl eq_refl)
    as (_ & H2 & _ & _ & H5).
  split; [exact H2 | exact H5].
Defined.

(** ** The token manager *)

Section TokenRuns.

Import Token FetchFacebook Gate.

Variable w : world.

Lemma run_log ev p : run (log ev) p = (Ok tt, logged ev p).
Proof. reflexivity. Qed.

Lemma run_getenv key p : run (getenv key) p = (Ok (environ p !! key), p).
Proof. reflexivity. Qed.

Lemma run_load_dotenv p : run load_dotenv_override p = (Ok tt, reload p).
Proof. reflexivity. Qed.

Lemma run_init p : run Token.init p = (Ok (manager_of (environ p)), p).
Proof. reflexivity. Qed.

Lemma run_timestamp p : run (timestamp w) p = (Ok (time w (readings p)), ticked p).
Proof. reflexivity. Qed.

Lemma run_verify_token m t p :
  run (verify_token w m t) p =
    (match introspect w m t with
     | Unreachable e => Raise e
     | Answer status_code body => Ok (token_info_of status_code body)
     end, logged (DebugToken t) p).
Proof.
  unfold verify_token. rewrite run_bind, run_log. fold (introspect w m t).
  destruct (introspect w m t) as [e|status_code body]; [reflexivity|].
  unfold token_info_of. by destruct (status_code =? 200).
Qed.

(** *** The calls made so far are kept *)

Lemma grows_ret {A} (a : A) : grows (ret a).
Proof. by intros p ev H. Qed.

Lemma grows_raise {A} e : grows (raise (A := A) e).
Proof. by intros p ev H. Qed.

Lemma grows_log ev : grows (log ev).
Proof. intros p ev' H. rewrite run_log. cbn. by right. Qed.

Lemma grows_load_dotenv : grows load_dotenv_override.
Proof. by intros p ev H. Qed.

Lemma grows_getenv key : grows (getenv key).
Proof. by intros p ev H. Qed.

Lemma grows_timestamp : grows (timestamp w).
Proof. by intros p ev H. Qed.

Lemma grows_modify f : (forall p, calls (f p) = calls p) -> grows (modify f).
Proof. intros Hf p ev H. cbn. by rewrite Hf. Qed.

Lemma grows_bind {A B} (m : M process A) (k : A -> M process B) :
  grows m -> (forall a, grows (k a)) -> grows (bind m k).
Proof.
  intros Hm Hk p ev H. rewrite run_bind. specialize (Hm p ev H).
  destruct (run m p) as [[a|e] p1]; [by apply Hk | exact Hm].
Qed.

Lemma grows_verify_token m t : grows (verify_token w m t).
Proof.
  intros p ev H. rewrite run_verify_token. cbn. by right.
Qed.

Lemma grows_update_env_file key value : grows (update_env_file w key value).
Proof.
  unfold update_env_file. destruct (set_key_fails w key); [apply grows_ret|].
  apply grows_bind; [apply grows_log|intros _].
  apply grows_bind; [by apply grows_modify|intros _]. apply grows_load_dotenv.
Qed.

Lemma grows_get_page_access_token m u : grows (get_page_access_token w m u).
Proof.
  unfold get_page_access_token. apply grows_bind; [apply grows_log|intros _].
  destruct (me_accounts _ _ _) as [e|status_code pages]; [apply grows_raise|].
  destruct (status_code =? 200); apply grows_ret.
Qed.

Lemma grows_exchange m t : grows (exchange_for_long_lived_token w m t).
Proof.
  unfold exchange_for_long_lived_token. apply grows_bind; [apply grows_log|intros _].
  destruct (oauth_access_token _ _ _ _ _) as [e|status_code body]; [apply grows_raise|].
  destruct (status_code =? 200); apply grows_ret.
Qed.

Lemma grows_refresh_page_token m : grows (refresh_page_token w m).
Proof.
  unfold refresh_page_token.
  apply grows_bind; [apply grows_get_page_access_token|intros page_token].
  destruct (truthy page_token); [|apply grows_ret].
  apply grows_bind; [apply grows_update_env_file|intros _].
  apply grows_bind; [apply grows_verify_token|intros ?]. apply grows_ret.
Qed.

(** [refresh_tokens] announces itself, whatever follows. *)
Lemma refresh_tokens_logged m p :
  RefreshTokens ∈ calls (run (refresh_tokens w m) p).2.
Proof.
  unfold refresh_tokens. rewrite run_bind, run_log.
  match goal with |- _ ∈ calls (run ?rest _).2 =>
    assert (Hg : grows rest); [|apply Hg; cbn; left] end.
  destruct (truthy (user_token m)); [|apply grows_refresh_page_token].
  apply grows_bind; [apply grows_verify_token|intros token_info].
  destruct (reports_valid token_info); [|apply grows_ret].
  apply grows_bind; [apply grows_timestamp|intros now].
  destruct (Qltb _ _); [|apply grows_refresh_page_token].
  apply grows_bind; [apply grows_exchange|intros long_lived_token].
  destruct (truthy long_lived_token); [|apply grows_refresh_page_token].
  apply grows_bind; [apply grows_update_env_file|intros _].
  apply grows_refresh_page_token.
Qed.

Lemma find_page_with_user_token m t pages :
  find_page (with_user_token m t) pages = find_page m pages.
Proof. induction pages as [|pg pages IH]; [done|]. cbn. by rewrite IH. Qed.

Lemma page_listed_with_user_token m t :
  page_listed w (with_user_token m t) -> page_listed w m.
Proof.
  intros (u & pages & pt & H1 & H2 & H3). exists u, pages, pt.
  by rewrite find_page_with_user_token in H2.
Qed.

(** Step 2 reports success only if the configured page was listed. *)
Lemma refresh_page_token_true m p p1 :
  run (refresh_page_token w m) p = (Ok true, p1) -> page_listed w m.
Proof.
  unfold refresh_page_token, get_page_access_token.
  rewrite !run_bind, run_log.
  destruct (me_accounts (graph w) (fmt (api_version m)) (user_token m))
    as [e|status_code pages] eqn:Hme; [discriminate|].
  destruct (status_code =? 200) eqn:Hs; cbn [run ret].
  - apply Z.eqb_eq in Hs as ->.
    destruct (find_page m (default [] pages)) as [pt|] eqn:Hf; [|discriminate].
    destruct (truthy (Some pt)) eqn:Ht; [|discriminate].
    intros _. by exists (user_token m), pages, pt.
  - discriminate.
Qed.

(** [refresh_tokens] reports success only if the user token, when there
    is one, passed introspection and the configured page was listed. *)
Lemma refresh_tokens_true m p p1 :
  run (refresh_tokens w m) p = (Ok true, p1) ->
  user_token_ok w m /\ page_listed w m.
Proof.
  unfold refresh_tokens. rewrite run_bind, run_log.
  destruct (truthy (user_token m)) eqn:Hu.
  - rewrite run_bind, run_verify_token.
    destruct (introspect w m (default "" (user_token m)))
      as [e|status_code body] eqn:Hi; [discriminate|].
    destruct (reports_valid (token_info_of status_code body)) eqn:Hv; [|discriminate].
    intros H. split; [intros _; by exists status_code, body|].
    rewrite run_bind, run_timestamp in H.
    destruct (Qltb _ _); [|by eapply refresh_page_token_true].
    rewrite run_bind in H.
    destruct (run (exchange_for_long_lived_token _ _ _) _) as [[long|e] p2];
      [|discriminate].
    destruct (truthy long); [|by eapply refresh_page_token_true].
    rewrite run_bind in H.
    destruct (run (update_env_file _ _ _) _) as [[[]|e] p3]; [|discriminate].
    eapply page_listed_with_user_token, refresh_page_token_true, H.
  - intros H. split; [intros Hu'; congruence | by eapply refresh_page_token_true].
Qed.

(** The lines after the refresh: a token is returned only after a
    successful [refresh_tokens], and only if it then passes
    introspection. *)
Lemma refresh_and_reload_token p t p' :
  run (refresh_and_reload w) p = (Ok (Some t), p') ->
  let m := manager_of (environ p) in
  passes_verify w m t /\ user_token_ok w m /\ page_listed w m.
Proof.
  unfold refresh_and_reload. rewrite run_bind, run_init, run_bind.
  destruct (run (refresh_tokens w (manager_of (environ p))) p) as [[[]|e] p1] eqn:Hr;
    [|discriminate..].
  rewrite run_bind, run_load_dotenv, run_bind, run_getenv.
  destruct (environ (reload p1) !! "FACEBOOK_PAGE_ACCESS_TOKEN") as [new_token|];
    [|discriminate].
  destruct (truthy (Some new_token)); [|discriminate].
  change (default "" (Some new_token)) with new_token.
  rewrite run_bind, run_verify_token.
  destruct (introspect _ _ new_token) as [e|status_code body] eqn:Hi; [discriminate|].
  destruct (reports_valid (token_info_of status_code body)) eqn:Hv; [|discriminate].
  intros [= <- _]. cbn zeta. split; [by exists status_code, body|].
  by eapply refresh_tokens_true.
Qed.

Lemma refresh_and_reload_logged p :
  RefreshTokens ∈ calls (run (refresh_and_reload w) p).2.
Proof.
  unfold refresh_and_reload. rewrite run_bind, run_init, run_bind.
  pose proof (refresh_tokens_logged (manager_of (environ p)) p) as Hl.
  destruct (run (refresh_tokens w (manager_of (environ p))) p) as [[[]|e] p1];
    [|exact Hl..].
  revert Hl. generalize RefreshTokens. revert p1.
  change (grows (load_dotenv_override ;;
                 let! new_token := getenv "FACEBOOK_PAGE_ACCESS_TOKEN" in
                 if truthy new_token
                 then let! token_info :=
                        verify_token w (manager_of (environ p)) (default "" new_token) in
                      if reports_valid token_info then ret new_token else ret None
                 else ret None)).
  apply grows_bind; [apply grows_load_dotenv|intros _].
  apply grows_bind; [apply grows_getenv|intros new_token].
  destruct (truthy new_token); [|apply grows_ret].
  apply grows_bind; [apply grows_verify_token|intros token_info].
  destruct (reports_valid token_info); apply grows_ret.
Qed.

(** *** The two ways through [get_valid_page_token] *)

Lemma get_valid_page_token_still_good p :
  still_good w p = true ->
  exists t p', current_token p = Some t /\
               run (get_valid_page_token w) p = (Ok (Some t), p') /\
               calls p' = DebugToken t :: calls p.
Proof.
  unfold still_good, get_valid_page_token, current_token.
  rewrite run_bind, run_load_dotenv, run_bind, run_getenv.
  change (environ (reload p)) with (env_of p).
  destruct (env_of p !! "FACEBOOK_PAGE_ACCESS_TOKEN") as [t|]; [|discriminate].
  destruct (truthy (Some t)); [|discriminate]. cbn [andb].
  change (default "" (Some t)) with t.
  rewrite run_bind, run_init, run_bind, run_verify_token.
  change (environ (reload p)) with (env_of p).
  destruct (introspect w (manager_of (env_of p)) t) as [e|status_code body];
    [discriminate|].
  destruct (reports_valid (token_info_of status_code body)); [|discriminate].
  cbn [andb]. intros H. exists t.
  destruct (get_expires_at (token_info_of status_code body) =? 0).
  { by exists (logged (DebugToken t) (reload p)). }
  cbn [orb] in H. rewrite run_bind, run_timestamp.
  change (readings (logged (DebugToken t) (reload p))) with (readings p).
  rewrite H. by exists (ticked (logged (DebugToken t) (reload p))).
Qed.

(** Otherwise the introspection request raises, or the lines after the
    refresh run in a process with the same environment and at least the
    same calls. *)
Lemma get_valid_page_token_refreshes p :
  still_good w p = false ->
  (exists t e, current_token p = Some t /\ truthy (Some t) = true /\
               introspect w (manager_of (env_of p)) t = Unreachable e /\
               run (get_valid_page_token w) p
                 = (Raise e, logged (DebugToken t) (reload p))) \/
  (exists p0, run (get_valid_page_token w) p = run (refresh_and_reload w) p0 /\
              environ p0 = env_of p).
Proof.
  unfold still_good, get_valid_page_token, current_token.
  rewrite run_bind, run_load_dotenv, run_bind, run_getenv.
  change (environ (reload p)) with (env_of p).
  destruct (env_of p !! "FACEBOOK_PAGE_ACCESS_TOKEN") as [t|];
    [|intros _; right; by exists (reload p)].
  destruct (truthy (Some t)) eqn:Ht; [|intros _; right; by exists (reload p)].
  cbn [andb]. change (default "" (Some t)) with t.
  rewrite run_bind, run_init, run_bind, run_verify_token.
  change (environ (reload p)) with (env_of p).
  destruct (introspect w (manager_of (env_of p)) t) as [e|status_code body] eqn:Hi.
  { intros _. left. by exists t, e. }
  destruct (reports_valid (token_info_of status_code body));
    [|intros _; right; by exists (logged (DebugToken t) (reload p))].
  cbn [andb]. intros [H0 H1]%orb_false_iff. rewrite H0.
  rewrite run_bind, run_timestamp.
  change (readings (logged (DebugToken t) (reload p))) with (readings p).
  rewrite H1. right. by exists (ticked (logged (DebugToken t) (reload p))).
Qed.

End TokenRuns.

Section TokenGate.

Import Token FetchFacebook Gate.

Lemma Qltb_lt (x y : Q) : Qltb x y = true <-> (x < y)%Q.
Proof.
  unfold Qltb. rewrite negb_true_iff, <- not_true_iff_false, Qle_bool_iff.
  split; [apply Qnot_le_lt | apply Qlt_not_le].
Qed.

(** With a valid current token that does expire, the gate is the
    comparison of the time left with one hour. *)
Lemma still_good_expiring w p t status_code body :
  current_token p = Some t ->
  truthy (Some t) = true ->
  introspect w (manager_of (env_of p)) t = Answer status_code body ->
  reports_valid (token_info_of status_code body) = true ->
  get_expires_at (token_info_of status_code body) <> 0 ->
  still_good w p =
    Qltb 3600 (inject_Z (get_expires_at (token_info_of status_code body))
               - time w (readings p)).
Proof.
  intros Hc Ht Hi Hv He. unfold still_good. rewrite Hc, Ht, Hi, Hv.
  apply Z.eqb_neq in He. by rewrite He.
Qed.

End TokenGate.


(** C6, as the code has it: every step of the refresh chain but the
    exchange is terminal.  When the gate sends [get_valid_page_token] to
    the refresh, a token comes back only if [refresh_tokens] ran, the user
    token (if one is configured) passed introspection, [me/accounts] listed
    the configured page, and the token itself passed introspection
    afterwards.  Otherwise there is no token, and
    [fetch_facebook_insights] stops before it requests or stores anything:
    it returns [False], or the exception of the failed request leaves it. *)
Theorem token_after_refresh_passed_the_checks
    (fromisoformat_date : string -> result Z)
    (insights : DailyInsights.insights_params -> Token.reply DailyInsights.insights_body)
    (w : Token.world) (today : Z) (p : Token.process) (srv : server) :
  Gate.still_good w p = false ->
  match run (FetchFacebook.get_valid_page_token w) p with
  | (Ok (Some t), p') =>
      Token.RefreshTokens ∈ Token.calls p' /\
      Gate.user_token_ok w (Gate.manager_of (Gate.env_of p)) /\
      Gate.page_listed w (Gate.manager_of (Gate.env_of p)) /\
      Gate.passes_verify w (Gate.manager_of (Gate.env_of p)) t
  | (Ok None, p') =>
      DailyInsights.fetch_facebook_insights fromisoformat_date insights w today p srv
        = (Ok false, p', srv)
  | (Raise e, p') =>
      DailyInsights.fetch_facebook_insights fromisoformat_date insights w today p srv
        = (Raise e, p', srv)
  end.
Proof.
  intros [(t & e & _ & _ & _ & Hrun)|(p0 & Hrun & Henv)]%get_valid_page_token_refreshes.
  - rewrite Hrun. unfold DailyInsights.fetch_facebook_insights. by rewrite Hrun.
  - destruct (run (FetchFacebook.refresh_and_reload w) p0) as [[[t|]|e] p'] eqn:Hrr;
      rewrite Hrun.
    + pose proof (refresh_and_reload_logged w p0) as Hl. rewrite Hrr in Hl.
      pose proof (refresh_and_reload_token w p0 t p' Hrr) as (Hv & Hu & Hp).
      rewrite Henv in Hv, Hu, Hp. done.
    + unfold DailyInsights.fetch_facebook_insights. by rewrite Hrun.
    + unfold DailyInsights.fetch_facebook_insights. by rewrite Hrun.
Qed.

Lemma token_after_refresh_passed_the_checks_witness :
  Gate.still_good TokenSample.exchange_refused TokenSample.fresh = false /\
  Gate.passes_verify TokenSample.exchange_refused
    (Gate.manager_of (Gate.env_of TokenSample.fresh)) "NEW".
Proof.
  assert (Hbad : Gate.still_good TokenSample.exchange_refused TokenSample.fresh = false).
  { vm_compute. reflexivity. }
  split; [exact Hbad|].
  pose proof (token_after_refresh_passed_the_checks
                (fun _ => Ok 0) (fun _ => Token.Unreachable (RequestException "offline"))
                TokenSample.exchange_refused 0 TokenSample.fresh Sample.healthy Hbad) as H.
  assert (E : run (FetchFacebook.get_valid_page_token TokenSample.exchange_refused)
                  TokenSample.fresh
              = (Ok (Some "NEW"),
                 (run (FetchFacebook.get_valid_page_token TokenSample.exchange_refused)
                      TokenSample.fresh).2)).
  { vm_compute. reflexivity. }
  rewrite E in H. exact (proj2 (proj2 (proj2 H))).
Defined.

(** The exchange of the user token is refused, and the chain goes on with
    the user token it had: [refresh_tokens] reports success and
    [get_valid_page_token] returns a token. *)
Lemma refused_exchange_is_not_terminal :
  let w := TokenSample.exchange_refused in
  let m := Gate.manager_of (Gate.env_of TokenSample.fresh) in
  (run (Token.exchange_for_long_lived_token w m "USER") TokenSample.fresh).1 = Ok None /\
  (run (Token.refresh_tokens w m) TokenSample.fresh).1 = Ok true /\
  (run (FetchFacebook.get_valid_page_token w) TokenSample.fresh).1 = Ok (Some "NEW") /\
  Token.calls (run (FetchFacebook.get_valid_page_token w) TokenSample.fresh).2
    = [Token.DebugToken "NEW"; Token.DebugToken "NEW";
       Token.SetKey "FACEBOOK_PAGE_ACCESS_TOKEN" "NEW";
       Token.MeAccounts (Some "USER"); Token.OauthAccessToken "USER";
       Token.DebugToken "USER"; Token.RefreshTokens; Token.DebugToken "OLD"].
Proof. repeat split; vm_compute; reflexivity. Qed.

(** C7, as the code has it: a valid current token that expires is returned
    unchanged when more than one hour is left; with one hour or less, be it
    thirty minutes ahead or thirty minutes ago, [refresh_tokens] is called,
    and a token that comes back has passed introspection. *)
Theorem token_within_the_hour_is_refreshed
    (w : Token.world) (p : Token.process) (t : string)
    (status_code : Z) (body : option Token.token_data) :
  Gate.current_token p = Some t ->
  truthy (Some t) = true ->
  Gate.introspect w (Gate.manager_of (Gate.env_of p)) t = Token.Answer status_code body ->
  Token.reports_valid (Gate.token_info_of status_code body) = true ->
  Token.get_expires_at (Gate.token_info_of status_code body) <> 0 ->
  let seconds_until_expiry :=
    (inject_Z (Token.get_expires_at (Gate.token_info_of status_code body))
     - Token.time w (Token.readings p))%Q in
  ((3600 < seconds_until_expiry)%Q ->
   (run (FetchFacebook.get_valid_page_token w) p).1 = Ok (Some t) /\
   Token.calls (run (FetchFacebook.get_valid_page_token w) p).2
     = Token.DebugToken t :: Token.calls p) /\
  ((seconds_until_expiry <= 3600)%Q ->
   Token.RefreshTokens ∈ Token.calls (run (FetchFacebook.get_valid_page_token w) p).2 /\
   forall t', (run (FetchFacebook.get_valid_page_token w) p).1 = Ok (Some t') ->
              Gate.passes_verify w (Gate.manager_of (Gate.env_of p)) t').
Proof.
  intros Hc Ht Hi Hv He left.
  pose proof (still_good_expiring w p t status_code body Hc Ht Hi Hv He) as Hgate.
  fold left in Hgate. split.
  - intros Hlt. apply Qltb_lt in Hlt. rewrite Hlt in Hgate.
    destruct (get_valid_page_token_still_good w p Hgate) as (t0 & p' & Hc' & Hrun & Hcalls).
    rewrite Hrun. cbn [fst snd]. split; congruence.
  - intros Hle.
    assert (Hgate' : Gate.still_good w p = false).
    { rewrite Hgate. apply not_true_iff_false. rewrite Qltb_lt. by apply Qle_not_lt. }
    destruct (get_valid_page_token_refreshes w p Hgate')
      as [(t0 & e & Hc' & _ & Hi' & _)|(p0 & Hrun & Henv)]; [congruence|].
    rewrite Hrun. split; [apply refresh_and_reload_logged|].
    intros t' Hr.
    destruct (run (FetchFacebook.refresh_and_reload w) p0) as [r p'] eqn:Hrr.
    cbn [fst] in Hr. subst r.
    destruct (refresh_and_reload_token w p0 t' p' Hrr) as (Hpv & _).
    by rewrite Henv in Hpv.
Qed.

Lemma token_within_the_hour_is_refreshed_witness :
  Token.RefreshTokens ∈
    Token.calls (run (FetchFacebook.get_valid_page_token TokenSample.thirty_minutes_ago)
                     TokenSample.fresh).2 /\
  Gate.passes_verify TokenSample.thirty_minutes_ago
    (Gate.manager_of (Gate.env_of TokenSample.fresh)) "NEW".
Proof.
  assert (Hc : Gate.current_token TokenSample.fresh = Some "OLD").
  { vm_compute. reflexivity. }
  assert (Hi : Gate.introspect TokenSample.thirty_minutes_ago
                 (Gate.manager_of (Gate.env_of TokenSample.fresh)) "OLD"
               = Token.Answer 200
                   (Some (TokenSample.valid_until (TokenSample.now - 1800)))).
  { vm_compute. reflexivity. }
  destruct (token_within_the_hour_is_refreshed
              TokenSample.thirty_minutes_ago TokenSample.fresh "OLD" 200
              (Some (TokenSample.valid_until (TokenSample.now - 1800)))
              Hc eq_refl Hi eq_refl) as [_ H].
  { vm_compute. discriminate. }
  destruct H as [Hl Hp].
  { vm_compute. discriminate. }
  split; [exact Hl|]. apply Hp. vm_compute. reflexivity.
Defined.

(** A valid page token with thirty minutes left is not returned: the
    refresh chain runs and its token comes back. *)
Lemma thirty_minutes_left_is_refreshed :
  let w := TokenSample.thirty_minutes_left in
  Gate.current_token TokenSample.fresh = Some "OLD" /\
  Gate.introspect w (Gate.manager_of (Gate.env_of TokenSample.fresh)) "OLD"
    = Token.Answer 200 (Some (TokenSample.valid_until (TokenSample.now + 1800))) /\
  Token.time w 0 = inject_Z TokenSample.now /\
  (run (FetchFacebook.get_valid_page_token w) TokenSample.fresh).1 = Ok (Some "NEW") /\
  Token.calls (run (FetchFacebook.get_valid_page_token w) TokenSample.fresh).2
    = [Token.DebugToken "NEW"; Token.DebugToken "NEW";
       Token.SetKey "FACEBOOK_PAGE_ACCESS_TOKEN" "NEW";
       Token.MeAccounts (Some "USER"); Token.DebugToken "USER";
       Token.RefreshTokens; Token.DebugToken "OLD"].
Proof. repeat split; vm_compute; reflexivity. Qed.

(** ** The read routes on a store that answers *)

Section ReadRoutesAnswered.

Import App.

#[local] Instance desc_total {A} (column : A -> Z) : Total (desc column).
Proof. intros x y. unfold desc. lia. Qed.

#[local] Instance desc_transitive {A} (column : A -> Z) : Transitive (desc column).
Proof. intros x y z. unfold desc. lia. Qed.

Lemma order_by_desc_sorted {A} (column : A -> Z) t :
  StronglySorted (desc column) (order_by_desc column t).
Proof. apply StronglySorted_merge_sort; apply _. Qed.

Lemma order_by_desc_Permutation {A} (column : A -> Z) t : order_by_desc column t ≡ₚ t.
Proof. apply merge_sort_Permutation. Qed.

Lemma run_query_answers {A} (select : database -> A) c :
  execute_error (conn_faults c) (executed c) = None ->
  run (query select) c = (Ok (select (pending c)), step c (pending c)).
Proof. intros H. unfold query. cbn [run]. by rewrite H. Qed.

Lemma view_one_query {A} srv (select : database -> A) (k : A -> json) :
  connect_error (failing srv) = None ->
  execute_error (failing srv) 0 = None ->
  view srv (let! data := query select in ret (k data))
    = Jsonify (k (select (contents srv))) 200.
Proof.
  intros Hc He. unfold view, get_db_connection. rewrite Hc, run_bind.
  erewrite run_query_answers; [reflexivity|exact He].
Qed.

(** The first [n] rows in descending order of a column: as many as there
    are, up to [n]; sorted; and no row left out beats a row taken. *)
Lemma top_rows {A} (column : A -> Z) (n : nat) t :
  let data := take n (order_by_desc column t) in
  length data = (n `min` length t)%nat /\
  StronglySorted (desc column) data /\
  exists rest, data ++ rest ≡ₚ t /\
               forall x y, x ∈ data -> y ∈ rest -> column y <= column x.
Proof.
  intros data. pose proof (order_by_desc_sorted column t) as Hs.
  pose proof (order_by_desc_Permutation column t) as Hp.
  rewrite <- (take_drop n (order_by_desc column t)) in Hs.
  repeat split.
  - unfold data. by rewrite length_take, Hp.
  - by apply StronglySorted_app_1_l in Hs.
  - exists (drop n (order_by_desc column t)). split.
    + unfold data. by rewrite take_drop.
    + intros x y Hx Hy. exact (StronglySorted_app_1_elem_of _ _ _ x y Hs Hx Hy).
Qed.

Lemma run_daily_value label c :
  run (daily_value label) c =
    match execute_error (conn_faults c) (executed c) with
    | Some msg => (Raise (DatabaseError msg), step c (pending c))
    | None => (first_column_or_0 (select_daily_value (today c) label (pending c)),
               step c (pending c))
    end.
Proof.
  unfold daily_value. rewrite run_bind. cbn [run get]. rewrite run_bind.
  unfold query. cbn [run]. by destruct (execute_error _ _).
Qed.

End ReadRoutesAnswered.

(** X1.  [/api/map-data] answers with every row of [user_by_location], the
    busiest city of the last thirty minutes first. *)
Theorem map_data_lists_every_location (srv : server) :
  connect_error (failing srv) = None ->
  execute_error (failing srv) 0 = None ->
  exists data,
    App.get_map_data srv = App.Jsonify (App.JArr (App.location_json <$> data)) 200 /\
    data ≡ₚ user_by_location (contents srv) /\
    StronglySorted (App.desc active_users_30min) data.
Proof.
  intros Hc He.
  exists (App.order_by_desc active_users_30min (user_by_location (contents srv))).
  split; [|split].
  - unfold App.get_map_data.
    by rewrite (view_one_query srv _ (fun data => App.JArr (App.location_json <$> data))).
  - apply order_by_desc_Permutation.
  - apply order_by_desc_sorted.
Qed.

Lemma map_data_lists_every_location_witness :
  exists data,
    App.get_map_data Sample.healthy
      = App.Jsonify (App.JArr (App.location_json <$> data)) 200 /\
    data ≡ₚ user_by_location (contents Sample.healthy).
Proof.
  destruct (map_data_lists_every_location Sample.healthy eq_refl eq_refl)
    as (data & H1 & H2 & _).
  by exists data.
Defined.

(** X2.  [/api/users-by-source] and [/api/views-by-page] answer with the top
    ten: ten rows, or all if the table has fewer, in descending order, and
    no row that is left out counts more than a row of the answer. *)
Theorem source_and_page_routes_answer_the_top_ten (srv : server) :
  connect_error (failing srv) = None ->
  execute_error (failing srv) 0 = None ->
  (exists data rest,
     App.get_users_by_source srv
       = App.Jsonify (App.JArr (App.source_json <$> data)) 200 /\
     length data = (10 `min` length (user_by_source (contents srv)))%nat /\
     StronglySorted (App.desc active_users) data /\
     data ++ rest ≡ₚ user_by_source (contents srv) /\
     forall x y, x ∈ data -> y ∈ rest -> active_users y <= active_users x) /\
  (exists data rest,
     App.get_views_by_page srv
       = App.Jsonify (App.JArr (App.page_json <$> data)) 200 /\
     length data = (10 `min` length (views_by_page (contents srv)))%nat /\
     StronglySorted (App.desc views) data /\
     data ++ rest ≡ₚ views_by_page (contents srv) /\
     forall x y, x ∈ data -> y ∈ rest -> views y <= views x).
Proof.
  intros Hc He. split.
  - destruct (top_rows active_users 10 (user_by_source (contents srv)))
      as (Hlen & Hs & rest & Hp & Hmax).
    eexists _, rest. split; [|done].
    unfold App.get_users_by_source.
    by rewrite (view_one_query srv _ (fun data => App.JArr (App.source_json <$> data))).
  - destruct (top_rows views 10 (views_by_page (contents srv)))
      as (Hlen & Hs & rest & Hp & Hmax).
    eexists _, rest. split; [|done].
    unfold App.get_views_by_page.
    by rewrite (view_one_query srv _ (fun data => App.JArr (App.page_json <$> data))).
Qed.

Lemma source_and_page_routes_answer_the_top_ten_witness :
  exists data,
    App.get_users_by_source Sample.healthy
      = App.Jsonify (App.JArr (App.source_json <$> data)) 200 /\
    length data = 1%nat.
Proof.
  destruct (source_and_page_routes_answer_the_top_ten Sample.healthy eq_refl eq_refl)
    as [(data & rest & H1 & H2 & _) _].
  exists data. split; [exact H1 | exact H2].
Defined.

(** X3.  [/api/active-users] answers with the counts of the row of
    [realtime_active_users] recorded last, a [NULL] count read as 0. *)
Theorem active_users_reads_the_latest_row (srv : server) :
  connect_error (failing srv) = None ->
  execute_error (failing srv) 0 = None ->
  execute_error (failing srv) 1 = None ->
  realtime_active_users (contents srv) <> [] ->
  exists r,
    r ∈ realtime_active_users (contents srv) /\
    (forall r', r' ∈ realtime_active_users (contents srv) ->
                recorded_at r' <= recorded_at r) /\
    App.get_active_users srv
      = App.Jsonify
          (App.JObj [("users_5min", App.JInt (default 0 (active_users_5m r)));
                     ("users_30min", App.JInt (default 0 (active_users_30m r)))]) 200.
Proof.
  intros Hc He0 He1 Hne.
  pose proof (order_by_desc_sorted recorded_at (realtime_active_users (contents srv))) as Hs.
  pose proof (order_by_desc_Permutation recorded_at (realtime_active_users (contents srv)))
    as Hp.
  destruct (App.order_by_desc recorded_at (realtime_active_users (contents srv)))
    as [|r l] eqn:Ho.
  { apply Permutation_nil_l in Hp. by destruct Hne. }
  exists r. split; [|split].
  - rewrite <- Hp. left.
  - intros r' Hr'. rewrite <- Hp in Hr'. apply StronglySorted_inv in Hs as [_ Hall].
    apply elem_of_cons in Hr' as [->|Hr']; [done|].
    rewrite Forall_forall in Hall. by apply Hall.
  - unfold App.get_active_users, App.view, get_db_connection. rewrite Hc.
    rewrite run_bind. erewrite run_query_answers; [|exact He0].
    cbn [pending]. unfold App.latest_register. rewrite Ho. cbn [head fmap option_fmap option_map].
    rewrite run_bind. cbn [run lift_result App.first_column_or_0].
    rewrite run_bind. erewrite run_query_answers; [|exact He1].
    cbn [pending step]. unfold App.latest_register. rewrite Ho. reflexivity.
Qed.

(** X4.  On an empty [realtime_active_users], [cursor.fetchone()] is [None]
    and the [TypeError] of the subscript leaves the view function. *)
Theorem active_users_needs_a_row (srv : server) :
  connect_error (failing srv) = None ->
  execute_error (failing srv) 0 = None ->
  realtime_active_users (contents srv) = [] ->
  App.get_active_users srv
    = App.ErrorPage (TypeError "'NoneType' object is not subscriptable").
Proof.
  intros Hc He Hempty.
  unfold App.get_active_users, App.view, get_db_connection. rewrite Hc.
  rewrite run_bind. erewrite run_query_answers; [|exact He].
  cbn [pending]. rewrite Hempty. reflexivity.
Qed.

Lemma active_users_needs_a_row_witness :
  App.get_active_users Sample.healthy
    = App.ErrorPage (TypeError "'NoneType' object is not subscriptable").
Proof. apply active_users_needs_a_row; reflexivity. Defined.

(** X5.  [/api/facebook/daily_insights], once connected, always answers with
    JSON: the four counts (status 200) or the object with the key
    ["error"] (status 500).  The connection is made outside the [try]: if
    it fails, the error leaves the view function. *)
Theorem facebook_insights_answers_all_or_error (srv : server) :
  match connect_error (failing srv) with
  | None =>
      (exists fb_views fb_viewers fb_visits fb_follows,
         App.get_facebook_insights srv
           = App.Jsonify (App.JObj [("fb_views", App.JInt fb_views);
                                    ("fb_viewers", App.JInt fb_viewers);
                                    ("fb_visits", App.JInt fb_visits);
                                    ("fb_follows", App.JInt fb_follows)]) 200) \/
      (exists e,
         App.get_facebook_insights srv
           = App.Jsonify (App.JObj [("error", App.JStr (str_exn e))]) 500)
  | Some msg => App.get_facebook_insights srv = App.ErrorPage (DatabaseError msg)
  end.
Proof.
  unfold App.get_facebook_insights, get_db_connection.
  destruct (connect_error (failing srv)); [reflexivity|].
  rewrite run_bind.
  destruct (run (App.daily_value "Views") _) as [[v1|e] c1]; [|right; by exists e].
  rewrite run_bind.
  destruct (run (App.daily_value "Viewers") c1) as [[v2|e] c2]; [|right; by exists e].
  rewrite run_bind.
  destruct (run (App.daily_value "Visits") c2) as [[v3|e] c3]; [|right; by exists e].
  rewrite run_bind.
  destruct (run (App.daily_value "Follows") c3) as [[v4|e] c4]; [|right; by exists e].
  left. by exists v1, v2, v3, v4.
Qed.

(** X6.  Without a row of yesterday or today for the views, the route answers
    with the message of the [TypeError], not with zeros. *)
Theorem facebook_insights_needs_a_recent_row (srv : server) :
  connect_error (failing srv) = None ->
  execute_error (failing srv) 0 = None ->
  (forall r, r ∈ facebook_page_insights_daily (contents srv) ->
             report_type r = "Views" -> date r < current_date srv - 1) ->
  App.get_facebook_insights srv
    = App.Jsonify
        (App.JObj [("error", App.JStr "'NoneType' object is not subscriptable")]) 500.
Proof.
  intros Hc He Hold. unfold App.get_facebook_insights, get_db_connection. rewrite Hc.
  rewrite run_bind, run_daily_value. cbn [conn_faults executed pending today].
  rewrite He. unfold App.select_daily_value.
  rewrite (filter_none _ (facebook_page_insights_daily (contents srv))); [reflexivity|].
  intros r Hr [Hd Ht]. specialize (Hold r Hr Ht). lia.
Qed.

Lemma facebook_insights_needs_a_recent_row_witness :
  App.get_facebook_insights Sample.healthy
    = App.Jsonify
        (App.JObj [("error", App.JStr "'NoneType' object is not subscriptable")]) 500.
Proof.
  apply facebook_insights_needs_a_recent_row; [reflexivity..|].
  intros r Hr Ht. revert Hr. unfold Sample.healthy, Sample.yesterday.
  cbn [contents facebook_page_insights_daily].
  intros ->%list_elem_of_singleton. discriminate Ht.
Defined.

Lemma active_users_reads_the_latest_row_witness :
  exists r,
    r ∈ realtime_active_users (contents Sample.with_readings) /\
    App.get_active_users Sample.with_readings
      = App.Jsonify
          (App.JObj [("users_5min", App.JInt (default 0 (active_users_5m r)));
                     ("users_30min", App.JInt (default 0 (active_users_30m r)))]) 200.
Proof.
  destruct (active_users_reads_the_latest_row Sample.with_readings
              eq_refl eq_refl eq_refl) as (r & Hr & _ & H); [discriminate|].
  by exists r.
Defined.

(** The reading recorded last has 20 users and a [NULL]. *)
Example active_users_of_two_readings :
  App.get_active_users Sample.with_readings
    = App.Jsonify (App.JObj [("users_5min", App.JInt 20);
                             ("users_30min", App.JInt 0)]) 200.
Proof. vm_compute. reflexivity. Qed.

(** ** More on the realtime cycle *)

Section RealtimeRows.

Import App Snapshot.

Lemma users_dict_rows rs d d' :
  users_dict rs d = Ok d' -> Forall well_formed rs.
Proof.
  revert d. induction rs as [|row rs IH]; intros d; [constructor|].
  cbn [users_dict]. destruct (row_key_count row) as [[c n]|e] eqn:E; [|discriminate].
  intros H. constructor; [by exists c, n | by eapply IH].
Qed.

Lemma for_each_rows {A} (body : A -> M connection unit) (P : A -> Prop) l c c' :
  (forall x c1 c2, run (body x) c1 = (Ok tt, c2) -> P x) ->
  run (for_each l body) c = (Ok tt, c') -> Forall P l.
Proof.
  intros Hbody. revert c. induction l as [|x l IH]; intros c; [constructor|].
  cbn [for_each]. intros ([] & c1 & Hx & Hl)%run_bind_Ok.
  constructor; [by eapply Hbody | by eapply IH].
Qed.

Lemma insert_device_row row c1 c2 :
  run (insert_device row) c1 = (Ok tt, c2) -> well_formed row.
Proof.
  unfold insert_device. intros ([k n] & ? & [Hr _]%run_lift_result_Ok & _)%run_bind_Ok.
  by exists k, n.
Qed.

Lemma insert_page_row row c1 c2 :
  run (insert_page row) c1 = (Ok tt, c2) -> well_formed row.
Proof.
  unfold insert_page. intros ([k n] & ? & [Hr _]%run_lift_result_Ok & _)%run_bind_Ok.
  by exists k, n.
Qed.

(** The body of the [try] block gets to its end only if every row of the
    four reports is well formed. *)
Lemma save_body_rows data c c' :
  run (save_body data) c = (Ok tt, c') ->
  Forall well_formed (rows (users_5min data) ++ rows (users_30min data) ++
                      rows (by_device data) ++ rows (by_page data)).
Proof.
  unfold save_body.
  intros ([] & c1 & _ & H)%run_bind_Ok.
  apply run_bind_Ok in H as (d5 & c2 & [H5 _]%run_lift_result_Ok & H).
  apply run_bind_Ok in H as (d30 & c3 & [H30 _]%run_lift_result_Ok & H).
  apply run_bind_Ok in H as ([] & c4 & _ & H).
  apply run_bind_Ok in H as ([] & c5 & Hd & H).
  apply run_bind_Ok in H as ([] & c6 & Hp & _).
  rewrite !Forall_app. repeat split.
  - by eapply users_dict_rows.
  - by eapply users_dict_rows.
  - eapply for_each_rows; [apply insert_device_row | exact Hd].
  - eapply for_each_rows; [apply insert_page_row | exact Hp].
Qed.

Lemma save_to_database_rows data srv srv' :
  save_to_database data srv = (Ok tt, srv') ->
  Forall well_formed (rows (users_5min data) ++ rows (users_30min data) ++
                      rows (by_device data) ++ rows (by_page data)).
Proof.
  unfold save_to_database, get_db_connection.
  destruct (connect_error (failing srv)); [discriminate|].
  match goal with |- context [run (try_finally (try_except ?m ?h) close) ?c] =>
    pose proof (guarded_all_or_nothing m c (all_or_nothing_save_body data)) as H;
    destruct (run (try_finally (try_except m h) close) c) as [[u|e] c'] eqn:Hrun end;
    [|discriminate].
  intros _. destruct H as (c1 & [] & Hm & _). by eapply save_body_rows.
Qed.

Lemma fmap_omap_filter {A B} (f : A -> option B) (g : B -> A)
    (P : A -> Prop) `{forall x, Decision (P x)} (l : list A) :
  (forall x, P x <-> is_Some (f x)) ->
  (forall x y, f x = Some y -> g y = x) ->
  g <$> omap f l = filter P l.
Proof.
  intros HP Hg. induction l as [|x l IH]; [done|]. csimpl.
  destruct (f x) as [y|] eqn:E.
  - rewrite filter_cons_True by (rewrite HP, E; eauto).
    csimpl. by rewrite (Hg _ _ E), IH.
  - rewrite filter_cons_False; [exact IH|]. rewrite HP, E. by intros [? [=]].
Qed.

Lemma city_of_city_row d5 d30 (cs : list string) :
  city <$> omap (city_row d5 d30) cs
    = filter (fun c => is_Some (VIETNAM_CITIES !! c)) cs.
Proof.
  apply fmap_omap_filter.
  - intros c. unfold city_row. by rewrite fmap_is_Some.
  - intros c r. unfold city_row.
    destruct (VIETNAM_CITIES !! c); [|discriminate]. by intros [= <-].
Qed.

End RealtimeRows.


(** X8.  After a successful write, [user_by_location] has one row per city, for
    cities of the reference table only, and so at most fourteen rows. *)
Theorem location_table_is_bounded (data : App.ga4_data) (srv srv' : server) :
  App.save_to_database data srv = (Ok tt, srv') ->
  NoDup (city <$> user_by_location (contents srv')) /\
  (forall r, r ∈ user_by_location (contents srv') ->
             is_Some (App.VIETNAM_CITIES !! city r)) /\
  (length (user_by_location (contents srv')) <= 14)%nat.
Proof.
  intros H. rewrite (save_to_database_locations _ _ _ H).
  unfold Snapshot.location_rows.
  set (d5 := Snapshot.dict_of (App.users_5min data)).
  set (d30 := Snapshot.dict_of (App.users_30min data)).
  assert (Hnd : NoDup (city <$> omap (Snapshot.city_row d5 d30)
                                     (elements (dom d5 ∪ dom d30)))).
  { rewrite city_of_city_row. apply NoDup_filter, NoDup_elements. }
  assert (Hin : forall c, c ∈ city <$> omap (Snapshot.city_row d5 d30)
                                            (elements (dom d5 ∪ dom d30)) ->
                          is_Some (App.VIETNAM_CITIES !! c)).
  { intros c. rewrite city_of_city_row. by intros [? _]%list_elem_of_filter. }
  split; [exact Hnd|]. split.
  - intros r Hr. apply Hin. by apply list_elem_of_fmap_2.
  - rewrite <- (length_fmap city).
    assert (Hsize : size (dom App.VIETNAM_CITIES) = 14%nat).
    { rewrite size_dom. by vm_compute. }
    rewrite <- Hsize. unfold size, set_size. cbn [length].
    apply submseteq_length, NoDup_submseteq; [exact Hnd|].
    intros c Hc. apply elem_of_elements, elem_of_dom, Hin, Hc.
Qed.

Lemma location_table_is_bounded_witness :
  (length (user_by_location
             (contents (App.save_to_database Sample.hanoi_paris Sample.healthy).2))
   <= 14)%nat.
Proof.
  assert (E : App.save_to_database Sample.hanoi_paris Sample.healthy
              = (Ok tt, (App.save_to_database Sample.hanoi_paris Sample.healthy).2)).
  { vm_compute. reflexivity. }
  exact (proj2 (proj2 (location_table_is_bounded _ _ _ E))).
Defined.

(** X9.  [/api/refresh] answers "success" only when the snapshot was written,
    and answers "error" (status 500) with the store as it was. *)
Theorem refresh_answers_success_or_error
    (client : App.report_client) (pid : string) (srv : server) :
  (exists data,
     App.fetch_ga4_realtime_data client pid = Ok data /\
     App.save_to_database data srv = (Ok tt, (App.refresh_data client pid srv).2) /\
     (App.refresh_data client pid srv).1
       = App.Jsonify
           (App.JObj [("status", App.JStr "success");
                      ("message", App.JStr "Data refreshed successfully")]) 200) \/
  (exists e,
     (App.refresh_data client pid srv).1
       = App.Jsonify (App.JObj [("status", App.JStr "error");
                                ("message", App.JStr (str_exn e))]) 500 /\
     contents (App.refresh_data client pid srv).2 = contents srv).
Proof.
  unfold App.refresh_data.
  destruct (App.fetch_ga4_realtime_data client pid) as [data|e]; [|right; by exists e].
  destruct (App.save_to_database data srv) as [[[]|e] srv'] eqn:E.
  - left. by exists data.
  - right. exists e. split; [done|]. by eapply save_to_database_rollback.
Qed.

(** ** What the token manager keeps *)

#[local] Instance same_entry_reflexive key : Reflexive (Keeps.same_entry key).
Proof. by intros p. Qed.

#[local] Instance same_entry_transitive key : Transitive (Keeps.same_entry key).
Proof. intros p1 p2 p3 [H1 H2] [H3 H4]. split; congruence. Qed.

#[local] Instance calls_only_reflexive P : Reflexive (Keeps.calls_only P).
Proof. intros p ev H. by left. Qed.

#[local] Instance calls_only_transitive P : Transitive (Keeps.calls_only P).
Proof.
  intros p1 p2 p3 H12 H23 ev H. destruct (H23 ev H) as [H2|HP]; [by apply H12 | by right].
Qed.

Section TokenInvariants.

Import Token FetchFacebook Gate Keeps.

Variable w : world.

Lemma preserves_bind {A B} (I : process -> process -> Prop) `{!Transitive I}
    (m : M process A) (k : A -> M process B) :
  preserves I m -> (forall a, preserves I (k a)) -> preserves I (bind m k).
Proof.
  intros Hm Hk p. rewrite run_bind. specialize (Hm p).
  destruct (run m p) as [[a|e] p1]; [|exact Hm].
  etransitivity; [exact Hm | apply Hk].
Qed.

Lemma preserves_ret {A} (I : process -> process -> Prop) `{!Reflexive I} (a : A) :
  preserves I (ret a).
Proof. intros p. cbn. reflexivity. Qed.

Lemma preserves_raise {A} (I : process -> process -> Prop) `{!Reflexive I} e :
  preserves I (raise (A := A) e).
Proof. intros p. cbn. reflexivity. Qed.

(** A step that touches neither the environment nor the file. *)
Lemma same_entry_untouched key p p' :
  dotenv p' = dotenv p -> environ p' = environ p -> same_entry key p p'.
Proof. intros Hd He. unfold same_entry, env_of. by rewrite Hd, He. Qed.

Lemma same_entry_log key ev : preserves (same_entry key) (log ev).
Proof. intros p. by apply same_entry_untouched. Qed.

Lemma same_entry_getenv key k : preserves (same_entry key) (getenv k).
Proof. intros p. by apply same_entry_untouched. Qed.

Lemma same_entry_timestamp key : preserves (same_entry key) (timestamp w).
Proof. intros p. by apply same_entry_untouched. Qed.

Lemma same_entry_init key : preserves (same_entry key) Token.init.
Proof. intros p. by apply same_entry_untouched. Qed.

Lemma same_entry_verify_token key m t : preserves (same_entry key) (verify_token w m t).
Proof. intros p. rewrite run_verify_token. by apply same_entry_untouched. Qed.

Lemma env_of_reload p : env_of (reload p) = env_of p.
Proof.
  unfold env_of, reload. cbn [environ dotenv].
  by rewrite (assoc_L (∪)), (idemp_L (∪)).
Qed.

Lemma same_entry_load_dotenv key : preserves (same_entry key) load_dotenv_override.
Proof.
  intros p. rewrite run_load_dotenv. split; [done|]. cbn [snd]. by rewrite env_of_reload.
Qed.

Lemma same_entry_get_page_access_token key m u :
  preserves (same_entry key) (get_page_access_token w m u).
Proof.
  unfold get_page_access_token. apply preserves_bind; [apply _|apply same_entry_log|].
  intros _. destruct (me_accounts _ _ _) as [e|status_code pages];
    [apply preserves_raise; apply _|].
  destruct (status_code =? 200); apply preserves_ret; apply _.
Qed.

Lemma same_entry_exchange key m t :
  preserves (same_entry key) (exchange_for_long_lived_token w m t).
Proof.
  unfold exchange_for_long_lived_token.
  apply preserves_bind; [apply _|apply same_entry_log|].
  intros _. destruct (oauth_access_token _ _ _ _ _) as [e|status_code body];
    [apply preserves_raise; apply _|].
  destruct (status_code =? 200); apply preserves_ret; apply _.
Qed.

(** [update_env_file] changes the entry of its key only, and nothing when
    [set_key] raises. *)
Lemma same_entry_update_env_file key k value :
  key <> k \/ set_key_fails w k = true ->
  preserves (same_entry key) (update_env_file w k value).
Proof.
  intros Hk p. unfold update_env_file.
  destruct (set_key_fails w k) eqn:Hf; [reflexivity|].
  destruct Hk as [Hne|]; [|discriminate].
  cbn [run bind log modify load_dotenv_override snd environ dotenv].
  unfold same_entry, env_of. cbn [environ dotenv].
  rewrite (assoc_L (∪)), (idemp_L (∪)), !lookup_union.
  by rewrite lookup_insert_ne.
Qed.

Lemma same_entry_refresh_page_token key m :
  key <> page_key \/ set_key_fails w page_key = true ->
  preserves (same_entry key) (refresh_page_token w m).
Proof.
  intros Hk. unfold refresh_page_token.
  apply preserves_bind; [apply _|apply same_entry_get_page_access_token|].
  intros page_token. destruct (truthy page_token); [|apply preserves_ret; apply _].
  apply preserves_bind; [apply _|by apply same_entry_update_env_file|]. intros _.
  apply preserves_bind; [apply _|apply same_entry_verify_token|]. intros _.
  apply preserves_ret; apply _.
Qed.

Lemma same_entry_refresh_tokens key m :
  key <> user_key \/ set_key_fails w user_key = true ->
  key <> page_key \/ set_key_fails w page_key = true ->
  preserves (same_entry key) (refresh_tokens w m).
Proof.
  intros Hu Hp. unfold refresh_tokens.
  apply preserves_bind; [apply _|apply same_entry_log|]. intros _.
  destruct (truthy (user_token m)); [|by apply same_entry_refresh_page_token].
  apply preserves_bind; [apply _|apply same_entry_verify_token|]. intros token_info.
  destruct (reports_valid token_info); [|apply preserves_ret; apply _].
  apply preserves_bind; [apply _|apply same_entry_timestamp|]. intros now.
  destruct (Qltb _ _); [|by apply same_entry_refresh_page_token].
  apply preserves_bind; [apply _|apply same_entry_exchange|]. intros long_lived_token.
  destruct (truthy long_lived_token); [|by apply same_entry_refresh_page_token].
  apply preserves_bind; [apply _|by apply same_entry_update_env_file|]. intros _.
  by apply same_entry_refresh_page_token.
Qed.

Lemma same_entry_refresh_and_reload key :
  key <> user_key \/ set_key_fails w user_key = true ->
  key <> page_key \/ set_key_fails w page_key = true ->
  preserves (same_entry key) (refresh_and_reload w).
Proof.
  intros Hu Hp. unfold refresh_and_reload.
  apply preserves_bind; [apply _|apply same_entry_init|]. intros manager.
  apply preserves_bind; [apply _|by apply same_entry_refresh_tokens|]. intros [];
    [|apply preserves_ret; apply _].
  apply preserves_bind; [apply _|apply same_entry_load_dotenv|]. intros _.
  apply preserves_bind; [apply _|apply same_entry_getenv|]. intros new_token.
  destruct (truthy new_token); [|apply preserves_ret; apply _].
  apply preserves_bind; [apply _|apply same_entry_verify_token|]. intros token_info.
  destruct (reports_valid token_info); apply preserves_ret; apply _.
Qed.

Lemma same_entry_get_valid_page_token key :
  key <> user_key \/ set_key_fails w user_key = true ->
  key <> page_key \/ set_key_fails w page_key = true ->
  preserves (same_entry key) (get_valid_page_token w).
Proof.
  intros Hu Hp. unfold get_valid_page_token.
  apply preserves_bind; [apply _|apply same_entry_load_dotenv|]. intros _.
  apply preserves_bind; [apply _|apply same_entry_getenv|]. intros current.
  destruct (truthy current); [|by apply same_entry_refresh_and_reload].
  apply preserves_bind; [apply _|apply same_entry_init|]. intros manager.
  apply preserves_bind; [apply _|apply same_entry_verify_token|]. intros token_info.
  destruct (reports_valid token_info); [|by apply same_entry_refresh_and_reload].
  destruct (_ =? 0); [apply preserves_ret; apply _|].
  apply preserves_bind; [apply _|apply same_entry_timestamp|]. intros now.
  destruct (Qltb _ _); [apply preserves_ret; apply _|].
  by apply same_entry_refresh_and_reload.
Qed.

(** The token that [get_valid_page_token] returns is the page token of
    the environment it leaves. *)
Lemma get_valid_page_token_environ p t p' :
  run (get_valid_page_token w) p = (Ok (Some t), p') ->
  environ p' !! page_key = Some t /\ env_of p' !! page_key = Some t.
Proof.
  assert (Hrr : forall p0 p1,
            run (refresh_and_reload w) p0 = (Ok (Some t), p1) ->
            environ p1 !! page_key = Some t /\ env_of p1 !! page_key = Some t).
  { intros p0 p1. unfold refresh_and_reload. rewrite run_bind, run_init, run_bind.
    destruct (run (refresh_tokens w (manager_of (environ p0))) p0) as [[[]|e] p2];
      [|discriminate..].
    rewrite run_bind, run_load_dotenv, run_bind, run_getenv.
    fold page_key.
    destruct (environ (reload p2) !! page_key) as [new_token|] eqn:En; [|discriminate].
    destruct (truthy (Some new_token)); [|discriminate].
    rewrite run_bind, run_verify_token.
    destruct (introspect _ _ _) as [e|status_code body]; [discriminate|].
    destruct (reports_valid _); [|discriminate].
    intros [= <- <-]. cbn [environ logged]. split; [exact En|].
    change (env_of (reload p2) !! page_key = Some new_token).
    rewrite env_of_reload. exact En. }
  unfold get_valid_page_token.
  rewrite run_bind, run_load_dotenv, run_bind, run_getenv. fold page_key.
  destruct (environ (reload p) !! page_key) as [current|] eqn:Ec; [|apply Hrr].
  destruct (truthy (Some current)); [|apply Hrr].
  rewrite run_bind, run_init, run_bind, run_verify_token.
  destruct (introspect _ _ _) as [e|status_code body]; [discriminate|].
  assert (Hhere : forall p1, environ p1 = environ (reload p) ->
                             dotenv p1 = dotenv p ->
                             environ p1 !! page_key = Some current /\
                             env_of p1 !! page_key = Some current).
  { intros p1 He Hd. split; [by rewrite He|].
    unfold env_of. rewrite He, Hd. change (env_of (reload p) !! page_key = Some current).
    by rewrite env_of_reload. }
  destruct (reports_valid _); [|apply Hrr].
  destruct (_ =? 0); [intros [= <- <-]; by apply Hhere|].
  rewrite run_bind, run_timestamp.
  destruct (Qltb _ _); [intros [= <- <-]; by apply Hhere | apply Hrr].
Qed.

End TokenInvariants.

(** X10.  [find_page] returns the token of the first listed page with the
    configured id, and [None] exactly when no listed page has it. *)
Theorem find_page_takes_the_first_match
    (self : Token.FacebookTokenManager) (pages : list Token.page) :
  match Token.find_page self pages with
  | Some token =>
      exists before page after,
        pages = before ++ page :: after /\
        Some (Token.id page) = Token.page_id self /\
        Token.page_access_token page = token /\
        forall other, other ∈ before -> Some (Token.id other) <> Token.page_id self
  | None => forall page, page ∈ pages -> Some (Token.id page) <> Token.page_id self
  end.
Proof.
  induction pages as [|pg pages IH]; cbn [Token.find_page].
  - by intros page ?%elem_of_nil.
  - destruct (decide (Some (Token.id pg) = Token.page_id self)) as [E|Hne].
    + exists [], pg, pages. repeat split; [done|]. by intros other ?%elem_of_nil.
    + destruct (Token.find_page self pages) as [token|].
      * destruct IH as (before & page & after & -> & Hid & Htok & Hb).
        exists (pg :: before), page, after. repeat split; [done..|].
        intros other [->|Ho]%elem_of_cons; [done | by apply Hb].
      * intros page [->|Hp]%elem_of_cons; [done | by apply IH].
Qed.

(** X11.  [update_env_file] never raises.  When [set_key] works, the file and the
    environment hold the value under the key afterwards, the other
    entries of the file are as before, and the environment is the one a
    reload of the file gives; when [set_key] raises, nothing changes. *)
Theorem update_env_file_round_trip
    (w : Token.world) (key value : string) (p : Token.process) :
  (run (Token.update_env_file w key value) p).1 = Ok tt /\
  let p' := (run (Token.update_env_file w key value) p).2 in
  if Token.set_key_fails w key then p' = p
  else
    Token.dotenv p' !! key = Some value /\
    Token.environ p' !! key = Some value /\
    (forall k, k <> key -> Token.dotenv p' !! k = Token.dotenv p !! k) /\
    (forall k, k <> key -> Token.environ p' !! k = Gate.env_of p !! k).
Proof.
  unfold Token.update_env_file. destruct (Token.set_key_fails w key); [done|].
  cbn [run bind Token.log modify Token.load_dotenv_override fst snd
       Token.environ Token.dotenv].
  split; [done|]. repeat split.
  - apply lookup_insert_eq.
  - rewrite lookup_union, lookup_insert_eq. by destruct (Token.environ p !! key).
  - intros k Hk. by rewrite lookup_insert_ne.
  - intros k Hk. unfold Gate.env_of. by rewrite !lookup_union, lookup_insert_ne.
Qed.

(** X12.  [get_valid_page_token] rewrites two entries of the [.env] file at
    most, the user token and the page token: every other entry of the file
    is the same afterwards, whatever the Graph API answers. *)
Theorem other_settings_are_kept (w : Token.world) (p : Token.process) (key : string) :
  key <> "FACEBOOK_USER_ACCESS_TOKEN" ->
  key <> "FACEBOOK_PAGE_ACCESS_TOKEN" ->
  Token.dotenv (run (FetchFacebook.get_valid_page_token w) p).2 !! key
    = Token.dotenv p !! key.
Proof.
  intros Hu Hp.
  by destruct (same_entry_get_valid_page_token w key (or_introl Hu) (or_introl Hp) p).
Qed.

Lemma other_settings_are_kept_witness :
  Token.dotenv (run (FetchFacebook.get_valid_page_token TokenSample.exchange_refused)
                    TokenSample.fresh).2 !! "FACEBOOK_APP_SECRET"
    = Some "secret".
Proof.
  rewrite (other_settings_are_kept TokenSample.exchange_refused TokenSample.fresh
             "FACEBOOK_APP_SECRET"); [|discriminate..].
  vm_compute. reflexivity.
Defined.

(** X13.  A token that [get_valid_page_token] returns is the page token of the
    environment it leaves behind; and if the page token cannot be written
    to the [.env] file, the token returned after a refresh is the one that
    was current before, not the one the refresh obtained. *)
Theorem returned_token_is_the_one_of_the_environment
    (w : Token.world) (p p' : Token.process) (t : string) :
  run (FetchFacebook.get_valid_page_token w) p = (Ok (Some t), p') ->
  Token.environ p' !! "FACEBOOK_PAGE_ACCESS_TOKEN" = Some t /\
  (Token.set_key_fails w "FACEBOOK_PAGE_ACCESS_TOKEN" = true ->
   Gate.current_token p = Some t).
Proof.
  intros Hrun. destruct (get_valid_page_token_environ w p t p' Hrun) as [He Henv].
  split; [exact He|]. intros Hfail.
  assert (Hne : Keeps.page_key <> Keeps.user_key) by discriminate.
  destruct (same_entry_get_valid_page_token w Keeps.page_key
              (or_introl Hne) (or_intror Hfail) p) as [_ Hsame].
  rewrite Hrun in Hsame. cbn [snd] in Hsame. unfold Gate.current_token.
  etransitivity; [symmetry; exact Hsame | exact Henv].
Qed.

Lemma returned_token_is_the_one_of_the_environment_witness :
  run (FetchFacebook.get_valid_page_token TokenSample.read_only_file) TokenSample.fresh
    = (Ok (Some "OLD"),
       (run (FetchFacebook.get_valid_page_token TokenSample.read_only_file)
            TokenSample.fresh).2) /\
  Token.MeAccounts (Some "USER")
    ∈ Token.calls (run (FetchFacebook.get_valid_page_token TokenSample.read_only_file)
                       TokenSample.fresh).2 /\
  Gate.current_token TokenSample.fresh = Some "OLD".
Proof.
  assert (E : run (FetchFacebook.get_valid_page_token TokenSample.read_only_file)
                  TokenSample.fresh
              = (Ok (Some "OLD"),
                 (run (FetchFacebook.get_valid_page_token TokenSample.read_only_file)
                      TokenSample.fresh).2)).
  { vm_compute. reflexivity. }
  split; [exact E|]. split.
  - vm_compute. do 2 right. left.
  - exact (proj2 (returned_token_is_the_one_of_the_environment _ _ _ _ E) eq_refl).
Defined.

(** ** The calls of [refresh_tokens] *)

Section TokenCalls.

Import Token FetchFacebook Gate Keeps.

Variable w : world.
Variable P : event -> Prop.

Lemma calls_only_untouched p p' : calls p' = calls p -> calls_only P p p'.
Proof. intros E ev H. left. by rewrite <- E. Qed.

Lemma calls_only_log ev : P ev -> preserves (calls_only P) (log ev).
Proof.
  intros HP p ev' [->|H]%elem_of_cons; [by right | by left].
Qed.

Lemma calls_only_verify_token m t :
  P (DebugToken t) -> preserves (calls_only P) (verify_token w m t).
Proof.
  intros HP p. rewrite run_verify_token.
  intros ev [->|H]%elem_of_cons; [by right | by left].
Qed.

Lemma calls_only_update_env_file key value :
  P (SetKey key value) -> preserves (calls_only P) (update_env_file w key value).
Proof.
  intros HP p. unfold update_env_file. destruct (set_key_fails w key); [reflexivity|].
  intros ev [->|H]%elem_of_cons; [by right | by left].
Qed.

Lemma calls_only_get_page_access_token m u :
  P (MeAccounts u) -> preserves (calls_only P) (get_page_access_token w m u).
Proof.
  intros HP. unfold get_page_access_token.
  apply preserves_bind; [apply _|by apply calls_only_log|]. intros _.
  destruct (me_accounts _ _ _) as [e|status_code pages];
    [apply preserves_raise; apply _|].
  destruct (status_code =? 200); apply preserves_ret; apply _.
Qed.

Lemma calls_only_refresh_page_token m :
  (forall u, P (MeAccounts u)) ->
  (forall key value, P (SetKey key value)) ->
  (forall t, P (DebugToken t)) ->
  preserves (calls_only P) (refresh_page_token w m).
Proof.
  intros Hm Hs Hd. unfold refresh_page_token.
  apply preserves_bind; [apply _|by apply calls_only_get_page_access_token|].
  intros page_token. destruct (truthy page_token); [|apply preserves_ret; apply _].
  apply preserves_bind; [apply _|by apply calls_only_update_env_file|]. intros _.
  apply preserves_bind; [apply _|by apply calls_only_verify_token|]. intros _.
  apply preserves_ret; apply _.
Qed.

End TokenCalls.

(** X14.  A user token that fails introspection stops [refresh_tokens] at once:
    it returns [False] after that one request, without an exchange,
    without asking for the pages and without writing to the [.env]
    file. *)
Theorem invalid_user_token_stops_the_refresh
    (w : Token.world) (self : Token.FacebookTokenManager) (p : Token.process)
    (u : string) (status_code : Z) (body : option Token.token_data) :
  Token.user_token self = Some u ->
  truthy (Some u) = true ->
  Gate.introspect w self u = Token.Answer status_code body ->
  Token.reports_valid (Gate.token_info_of status_code body) = false ->
  (run (Token.refresh_tokens w self) p).1 = Ok false /\
  Token.calls (run (Token.refresh_tokens w self) p).2
    = Token.DebugToken u :: Token.RefreshTokens :: Token.calls p /\
  Token.dotenv (run (Token.refresh_tokens w self) p).2 = Token.dotenv p /\
  Token.environ (run (Token.refresh_tokens w self) p).2 = Token.environ p.
Proof.
  intros Hu Ht Hi Hv. unfold Token.refresh_tokens.
  rewrite run_bind, run_log, Hu, Ht.
  change (default "" (Some u)) with u.
  rewrite run_bind, run_verify_token, Hi, Hv. done.
Qed.

Lemma invalid_user_token_stops_the_refresh_witness :
  (run (Token.refresh_tokens TokenSample.user_token_revoked
          (Gate.manager_of (Gate.env_of TokenSample.fresh))) TokenSample.fresh).1
    = Ok false.
Proof.
  refine (proj1 (invalid_user_token_stops_the_refresh
                   TokenSample.user_token_revoked
                   (Gate.manager_of (Gate.env_of TokenSample.fresh)) TokenSample.fresh
                   "USER" 200 (Some TokenSample.invalid) _ eq_refl _ eq_refl));
    vm_compute; reflexivity.
Defined.

(** X15.  A valid user token with seven days or more ahead is not exchanged:
    [refresh_tokens] sends no request to [oauth/access_token]. *)
Theorem long_lived_user_token_is_not_exchanged
    (w : Token.world) (self : Token.FacebookTokenManager) (p : Token.process)
    (u : string) (status_code : Z) (body : option Token.token_data) :
  Token.user_token self = Some u ->
  truthy (Some u) = true ->
  Gate.introspect w self u = Token.Answer status_code body ->
  Token.reports_valid (Gate.token_info_of status_code body) = true ->
  (7 <= (inject_Z (Token.get_expires_at (Gate.token_info_of status_code body))
         - Token.time w (Token.readings p)) / 86400)%Q ->
  forall t,
    Token.OauthAccessToken t ∈ Token.calls (run (Token.refresh_tokens w self) p).2 ->
    Token.OauthAccessToken t ∈ Token.calls p.
Proof.
  intros Hu Ht Hi Hv Hdays t. unfold Token.refresh_tokens.
  rewrite run_bind, run_log, Hu, Ht.
  change (default "" (Some u)) with u.
  rewrite run_bind, run_verify_token, Hi, Hv, run_bind, run_timestamp.
  change (Token.readings (Gate.logged (Token.DebugToken u)
                            (Gate.logged Token.RefreshTokens p)))
    with (Token.readings p).
  assert (Hq : Token.Qltb
                 ((inject_Z (Token.get_expires_at (Gate.token_info_of status_code body))
                   - Token.time w (Token.readings p)) / 86400) 7 = false).
  { apply not_true_iff_false. rewrite Qltb_lt. by apply Qle_not_lt. }
  rewrite Hq. intros Hin.
  destruct (calls_only_refresh_page_token w
              (fun ev => forall t', ev <> Token.OauthAccessToken t') self
              ltac:(discriminate) ltac:(discriminate) ltac:(discriminate)
              _ _ Hin) as [Hbefore|Hnot].
  - cbn [Token.calls Gate.ticked Gate.logged] in Hbefore.
    apply elem_of_cons in Hbefore as [[=]|Hbefore].
    by apply elem_of_cons in Hbefore as [[=]|Hbefore].
  - by destruct (Hnot t).
Qed.

Lemma long_lived_user_token_is_not_exchanged_witness :
  Gate.introspect TokenSample.thirty_minutes_left
    (Gate.manager_of (Gate.env_of TokenSample.fresh)) "USER"
    = Token.Answer 200 (Some (TokenSample.valid_until (TokenSample.now + 30 * 86400))) /\
  forall t,
    Token.OauthAccessToken t
      ∈ Token.calls (run (Token.refresh_tokens TokenSample.thirty_minutes_left
                            (Gate.manager_of (Gate.env_of TokenSample.fresh)))
                         TokenSample.fresh).2 ->
    Token.OauthAccessToken t ∈ Token.calls TokenSample.fresh.
Proof.
  assert (Hi : Gate.introspect TokenSample.thirty_minutes_left
                 (Gate.manager_of (Gate.env_of TokenSample.fresh)) "USER"
               = Token.Answer 200
                   (Some (TokenSample.valid_until (TokenSample.now + 30 * 86400)))).
  { vm_compute. reflexivity. }
  split; [exact Hi|].
  refine (long_lived_user_token_is_not_exchanged
            TokenSample.thirty_minutes_left
            (Gate.manager_of (Gate.env_of TokenSample.fresh)) TokenSample.fresh
            "USER" 200 (Some (TokenSample.valid_until (TokenSample.now + 30 * 86400)))
            _ eq_refl Hi eq_refl _); vm_compute; first [reflexivity | discriminate].
Defined.

(** ** The page-insights normalizer *)

Section PageInsightsByDate.

Import FacebookApi PageInsights.

Lemma record_keys date f l :
  fst <$> record date f l =
    if decide (date ∈ fst <$> l) then fst <$> l else (fst <$> l) ++ [date].
Proof.
  induction l as [|[k d] l IH]; cbn [record].
  - rewrite decide_False; [done|]. by intros ?%elem_of_nil.
  - destruct (String.eqb k date) eqn:E.
    + apply String.eqb_eq in E as ->. cbn. rewrite decide_True; [done|]. left.
    + apply String.eqb_neq in E. cbn. rewrite IH.
      destruct (decide (date ∈ fst <$> l)) as [Hin|Hin].
      * rewrite decide_True; [done|]. by right.
      * rewrite decide_False; [done|]. intros [?|?]%elem_of_cons; [congruence|done].
Qed.

Lemma set_metric_date name value d :
  insight_date (set_metric name value d) = insight_date d.
Proof. unfold set_metric. by destruct (column_of name). Qed.

Lemma record_by_date date name value l :
  by_date l -> by_date (record date (set_metric name value) l).
Proof.
  intros [Hnd Hd]. split.
  - rewrite record_keys. destruct (decide _) as [Hin|Hin]; [done|].
    apply NoDup_app. split; [done|]. split; [|apply NoDup_singleton].
    intros x Hx ->%list_elem_of_singleton. done.
  - clear Hnd. induction l as [|[k d] l IH]; cbn [record].
    + constructor; [|constructor]. cbn. apply set_metric_date.
    + apply Forall_cons in Hd as [Hkd Hd]. destruct (String.eqb k date).
      * constructor; [|done]. cbn in *. by rewrite set_metric_date.
      * constructor; [done|]. by apply IH.
Qed.

Lemma add_metric_by_date l m : by_date l -> by_date (add_metric l m).
Proof.
  unfold add_metric. generalize (default [] (metric_values m)). intros items.
  revert l. induction items as [|item items IH]; intros l Hl; [done|].
  cbn [foldl]. apply IH. unfold add_value. by apply record_by_date.
Qed.

Lemma add_metric_dates l m date :
  date ∈ fst <$> add_metric l m <->
  date ∈ fst <$> l \/
  date ∈ (fun item => before_T (default "" (end_time item)))
           <$> default [] (metric_values m).
Proof.
  unfold add_metric. generalize (default [] (metric_values m)). intros items.
  revert l. induction items as [|item items IH]; intros l; cbn [foldl].
  - split; [auto|]. by intros [?|?%elem_of_nil].
  - rewrite IH. unfold add_value. rewrite record_keys, fmap_cons, elem_of_cons.
    destruct (decide _) as [Hin|Hin].
    + split; [tauto|]. intros [?|[->|?]]; auto.
    + rewrite elem_of_app, list_elem_of_singleton. tauto.
Qed.

Lemma foldl_add_metric_by_date data l : by_date l -> by_date (foldl add_metric l data).
Proof.
  revert l. induction data as [|m data IH]; intros l Hl; [done|].
  cbn [foldl]. by apply IH, add_metric_by_date.
Qed.

Lemma foldl_add_metric_dates data l date :
  date ∈ fst <$> foldl add_metric l data <->
  date ∈ fst <$> l \/ date ∈ dates_of data.
Proof.
  revert l. induction data as [|m data IH]; intros l; cbn [foldl].
  - split; [auto|]. by intros [?|?%elem_of_nil].
  - rewrite IH, add_metric_dates. unfold dates_of. rewrite bind_cons, elem_of_app. tauto.
Qed.

Lemma by_date_dates l : by_date l -> insight_date <$> (snd <$> l) = fst <$> l.
Proof.
  intros [_ Hd]. induction Hd as [|[k d] l Hkd _ IH]; [done|]. cbn in *. by rewrite Hkd, IH.
Qed.

End PageInsightsByDate.

(** X16.  [format_insights_for_database] returns one dict per date: the dates of
    the result are pairwise distinct and are exactly the dates (the part of
    [end_time] before the "T") of the values of the answer, whether the
    metric they belong to is one of the seven that are mapped or not; and
    an answer that is missing or has no ["data"] gives the empty list. *)
Theorem insights_are_grouped_by_date (insights_data : option (list PageInsights.metric)) :
  NoDup (PageInsights.insight_date
           <$> PageInsights.format_insights_for_database insights_data) /\
  forall date,
    date ∈ PageInsights.insight_date
             <$> PageInsights.format_insights_for_database insights_data <->
    date ∈ PageInsights.dates_of (default [] insights_data).
Proof.
  destruct insights_data as [data|]; cbn [PageInsights.format_insights_for_database default].
  - assert (Hb : PageInsights.by_date (foldl PageInsights.add_metric [] data)).
    { apply foldl_add_metric_by_date. split; [constructor|constructor]. }
    rewrite (by_date_dates _ Hb). split; [apply Hb|].
    intros date. rewrite foldl_add_metric_dates. split; [|auto].
    by intros [?%elem_of_nil|?].
  - split; [constructor|]. intros date. split; by intros ?%elem_of_nil.
Qed.

(** X17.  Every column of a formatted day is one of the seven columns of
    [facebook_page_insights]. *)
Theorem formatted_days_have_known_columns
    (insights_data : option (list PageInsights.metric)) (d : PageInsights.day)
    (column : string) :
  d ∈ PageInsights.format_insights_for_database insights_data ->
  is_Some (PageInsights.columns d !! column) ->
  column ∈ ["page_views"; "page_impressions"; "page_impressions_unique";
            "page_post_engagements"; "page_posts_impressions"; "page_reactions";
            "page_video_views"].
Proof.
  set (known := ["page_views"; "page_impressions"; "page_impressions_unique";
                 "page_post_engagements"; "page_posts_impressions"; "page_reactions";
                 "page_video_views"]).
  set (ok := fun kd : string * PageInsights.day =>
               forall c, is_Some (PageInsights.columns kd.2 !! c) -> c ∈ known).
  assert (Hcol : forall name c, PageInsights.column_of name = Some c -> c ∈ known).
  { intros name c. unfold PageInsights.column_of.
    repeat (destruct (String.eqb name _); [intros [= <-]; unfold known;
             rewrite !elem_of_cons; tauto|]).
    discriminate. }
  assert (Hset : forall name value d0,
            (forall c, is_Some (PageInsights.columns d0 !! c) -> c ∈ known) ->
            forall c, is_Some (PageInsights.columns (PageInsights.set_metric name value d0) !! c)
                      -> c ∈ known).
  { intros name value d0 H0 c. unfold PageInsights.set_metric.
    destruct (PageInsights.column_of name) as [col|] eqn:E; [|apply H0].
    cbn [PageInsights.columns]. destruct (decide (c = col)) as [->|Hne].
    - intros _. by eapply Hcol.
    - rewrite lookup_insert_ne by done. apply H0. }
  assert (Hrec : forall date name value l,
            Forall ok l -> Forall ok (PageInsights.record date
                                        (PageInsights.set_metric name value) l)).
  { intros date name value l. induction 1 as [|[k d0] l Hk Hl IH];
      cbn [PageInsights.record].
    - constructor; [|constructor]. unfold ok. cbn [snd]. apply Hset.
      cbn [PageInsights.columns]. intros c [? H]. by rewrite lookup_empty in H.
    - destruct (String.eqb k date); constructor; [|exact Hl|exact Hk|exact IH].
      unfold ok in *. cbn [snd] in *. by apply Hset. }
  assert (Hmetric : forall m l, Forall ok l -> Forall ok (PageInsights.add_metric l m)).
  { intros m. unfold PageInsights.add_metric.
    generalize (default [] (PageInsights.metric_values m)). intros items.
    induction items as [|item items IH]; intros l Hl; [done|].
    cbn [foldl]. apply IH. by apply Hrec. }
  assert (Hall : forall data l, Forall ok l -> Forall ok (foldl PageInsights.add_metric l data)).
  { induction data as [|m data IH]; intros l Hl; [done|]. cbn [foldl]. by apply IH, Hmetric. }
  destruct insights_data as [data|]; cbn [PageInsights.format_insights_for_database];
    [|by intros ?%elem_of_nil].
  intros ([k d0] & -> & Hin)%list_elem_of_fmap.
  specialize (Hall data [] ltac:(constructor)). rewrite Forall_forall in Hall.
  exact (Hall _ Hin column).
Qed.

Lemma formatted_days_have_known_columns_witness :
  "page_views" ∈ ["page_views"; "page_impressions"; "page_impressions_unique";
                  "page_post_engagements"; "page_posts_impressions"; "page_reactions";
                  "page_video_views"].
Proof.
  apply (formatted_days_have_known_columns
           (Some [{| PageInsights.metric_name := "page_views_total";
                     PageInsights.metric_values :=
                       Some [{| PageInsights.end_time := Some "2025-01-01T08:00:00+0000";
                                PageInsights.item_value := Some (FacebookApi.Number 10) |}] |}])
           {| PageInsights.insight_date := "2025-01-01";
              PageInsights.columns := {["page_views" := FacebookApi.Number 10]} |}).
  - vm_compute. left.
  - vm_compute. eauto.
Defined.

(** ** The social writers *)

Section SocialWriters.

Import FacebookApi SaveFacebook DailyInsights Upserts.

Lemma succeeds_save_post p r : bind_post p = Ok r -> succeeds (save_post p).
Proof.
  intros Hr. unfold save_post. eapply succeeds_lift; [exact Hr|]. apply succeeds_execute.
Qed.

Lemma save_post_insights_succeeds posts_data srv :
  fault_free (failing srv) ->
  Forall (fun p => exists r, bind_post p = Ok r) posts_data ->
  (save_post_insights posts_data srv).1 = Ok tt.
Proof.
  intros Hf Hall. unfold save_post_insights, get_db_connection.
  destruct posts_data as [|p0 ps]; [done|]. set (posts_data := p0 :: ps) in *.
  destruct Hf as (Hconn & Hrest). rewrite Hconn.
  match goal with |- context [run _ ?c] => set (conn := c) end.
  assert (Hs : succeeds (for_each posts_data save_post ;; commit)).
  { apply succeeds_bind; [|intros; apply succeeds_commit].
    apply succeeds_for_each. eapply Forall_impl; [exact Hall|].
    intros p [r Hr]. by eapply succeeds_save_post. }
  destruct (Hs conn) as ([] & c' & Hrun & _).
  { subst conn. cbn. by split. }
  unfold try_finally, try_except. cbn [run]. by rewrite Hrun.
Qed.

Lemma run_statements_upserts_frame now sts db :
  Forall (fun st => (exists r, st = UpsertDaily r) \/ (exists r, st = UpsertPost r)) sts ->
  snapshot_tables (run_statements now sts db) = snapshot_tables db /\
  realtime_active_users (run_statements now sts db) = realtime_active_users db /\
  (Forall (fun st => exists r, st = UpsertDaily r) sts ->
   facebook_post_insights (run_statements now sts db) = facebook_post_insights db) /\
  (Forall (fun st => exists r, st = UpsertPost r) sts ->
   facebook_page_insights_daily (run_statements now sts db)
     = facebook_page_insights_daily db).
Proof.
  intros H. revert db. induction H as [|st sts Hst _ IH]; intros db; [done|].
  rewrite run_statements_cons.
  destruct (IH (run_statement now st db)) as (IH1 & IH2 & IH3 & IH4).
  rewrite IH1, IH2.
  destruct Hst as [[r ->]|[r ->]]; (split; [done|]); (split; [done|]); split.
  - intros [_ Hd]%Forall_cons. by rewrite IH3.
  - intros [[r' [=]] _]%Forall_cons.
  - intros [[r' [=]] _]%Forall_cons.
  - intros [_ Hp]%Forall_cons. by rewrite IH4.
Qed.

Lemma store_answer_outcome fromisoformat_date body srv :
  match store_answer fromisoformat_date body srv with
  | (true, srv') =>
      contents srv' =
        run_statements (current_timestamp srv)
          (daily_statements fromisoformat_date (default [] (data body))) (contents srv)
  | (false, srv') => contents srv' = contents srv
  end.
Proof.
  unfold store_answer. destruct (default [] (data body)) as [|b bs] eqn:E; [done|].
  pose proof (save_insights_outcome fromisoformat_date (b :: bs) srv) as H.
  by destruct (save_insights fromisoformat_date (b :: bs) srv) as [[[]|e] srv'].
Qed.



End SocialWriters.


(** X19.  On a store without faults, [save_post_insights] succeeds exactly when
    every post of the batch can be bound to the statement; one post with a
    dict where a number is expected makes the call raise, and then no post
    of the batch is stored. *)
Theorem post_batch_is_saved_iff_every_post_binds
    (posts_data : list FacebookApi.formatted_post) (srv : server) :
  fault_free (failing srv) ->
  ((SaveFacebook.save_post_insights posts_data srv).1 = Ok tt <->
   Forall (fun p => exists r, SaveFacebook.bind_post p = Ok r) posts_data) /\
  ((SaveFacebook.save_post_insights posts_data srv).1 <> Ok tt ->
   contents (SaveFacebook.save_post_insights posts_data srv).2 = contents srv).
Proof.
  intros Hf. split; [split|].
  - intros H. destruct (SaveFacebook.save_post_insights posts_data srv) as [r srv'] eqn:E.
    cbn in H. subst r. by eapply save_post_insights_bound.
  - by apply save_post_insights_succeeds.
  - intros H. pose proof (save_post_insights_outcome posts_data srv) as Ho.
    destruct (SaveFacebook.save_post_insights posts_data srv) as [[[]|e] srv']; [|done].
    by destruct H.
Qed.

Lemma post_batch_is_saved_iff_every_post_binds_witness :
  (SaveFacebook.save_post_insights
     (FacebookApi.format_posts_for_database [SocialSample.morning_news])
     Sample.healthy).1 = Ok tt <->
  Forall (fun p => exists r, SaveFacebook.bind_post p = Ok r)
         (FacebookApi.format_posts_for_database [SocialSample.morning_news]).
Proof.
  apply post_batch_is_saved_iff_every_post_binds. by repeat split.
Defined.



(** X21.  The upsert of a post that the table holds keeps its message, its type
    and its creation time, takes the counters of the new row and stamps
    the row with the time of the statement; the table still has one row
    for the post. *)
Theorem post_upsert_keeps_the_description
    (now : Z) (r x : post_row) (t : list post_row) :
  NoDup (post_id <$> t) ->
  x ∈ t ->
  post_id x = post_id r ->
  filter (fun y => post_id y = post_id r) (upsert_post now r t)
    = [{| post_id := post_id x;
          post_message := post_message x;
          post_type := post_type x;
          created_time := created_time x;
          post_impressions := post_impressions r;
          post_impressions_unique := post_impressions_unique r;
          post_engaged_users := post_engaged_users r;
          post_reactions := post_reactions r;
          post_comments := post_comments r;
          post_shares := post_shares r;
          post_clicks := post_clicks r;
          video_views := video_views r;
          updated_at := Some now |}].
Proof.
  intros Hnd Hx Hk. unfold upsert_post.
  rewrite (upsert_filter_key post_id post_conflict (post_update now)
             post_conflict_key (post_update_key now) r t Hnd).
  assert (Hf : filter (fun y => post_id y = post_id r) t = [x]).
  { clear -Hnd Hx Hk. induction t as [|y t IH]; [by apply elem_of_nil in Hx|].
    rewrite fmap_cons in Hnd. apply NoDup_cons in Hnd as [Hy Hnd].
    apply elem_of_cons in Hx as [->|Hx].
    - rewrite filter_cons_True by done. f_equal. apply filter_none.
      intros z Hz Ez. apply Hy. rewrite Hk, <- Ez. by apply list_elem_of_fmap_2.
    - rewrite filter_cons_False; [by apply IH|].
      intros Ey. apply Hy. rewrite Ey, <- Hk. by apply list_elem_of_fmap_2. }
  by rewrite Hf.
Qed.

Lemma post_upsert_keeps_the_description_witness :
  post_message <$>
    filter (fun y => post_id y = post_id SocialSample.edited_news_row)
      (upsert_post 1735689600 SocialSample.edited_news_row
         (facebook_post_insights Sample.yesterday))
    = ["Ban tin sang"].
Proof.
  rewrite (post_upsert_keeps_the_description 1735689600 SocialSample.edited_news_row
             SocialSample.stored_news_row (facebook_post_insights Sample.yesterday)).
  - reflexivity.
  - vm_compute. apply NoDup_singleton.
  - vm_compute. left.
  - reflexivity.
Defined.

(** X22.  Each writer keeps to its tables, whatever its outcome: the realtime
    write leaves the register of active users and the two Facebook tables
    alone; the daily-insights write and the post write leave the three
    snapshot tables, the register and each other's table alone. *)
Theorem writers_keep_to_their_tables
    (fromisoformat_date : string -> result Z) (srv : server) :
  (forall data,
     other_tables (contents (App.save_to_database data srv).2)
       = other_tables (contents srv)) /\
  (forall insights_data,
     let db' := contents (DailyInsights.save_insights fromisoformat_date insights_data srv).2 in
     snapshot_tables db' = snapshot_tables (contents srv) /\
     realtime_active_users db' = realtime_active_users (contents srv) /\
     facebook_post_insights db' = facebook_post_insights (contents srv)) /\
  (forall posts_data,
     let db' := contents (SaveFacebook.save_post_insights posts_data srv).2 in
     snapshot_tables db' = snapshot_tables (contents srv) /\
     realtime_active_users db' = realtime_active_users (contents srv) /\
     facebook_page_insights_daily db' = facebook_page_insights_daily (contents srv)).
Proof.
  split; [|split].
  - intros data.
    destruct (App.save_to_database data srv) as [[[]|e] srv'] eqn:E; cbn [snd].
    + by destruct (save_to_database_tables _ _ _ E) as (_ & H & _).
    + by rewrite (save_to_database_rollback _ _ _ _ E).
  - intros insights_data.
    pose proof (save_insights_outcome fromisoformat_date insights_data srv) as Ho.
    destruct (DailyInsights.save_insights fromisoformat_date insights_data srv)
      as [[[]|e] srv']; cbn [snd]; [|by rewrite Ho].
    rewrite Ho.
    assert (Hd : Forall (fun st => exists r, st = UpsertDaily r)
                   (Upserts.daily_statements fromisoformat_date insights_data)).
    { apply Forall_forall. intros st (b & e & d & _ & _ & _ & ->)%daily_statements_keys.
      eauto. }
    destruct (run_statements_upserts_frame (current_timestamp srv)
                (Upserts.daily_statements fromisoformat_date insights_data) (contents srv))
      as (H1 & H2 & H3 & _).
    { eapply Forall_impl; [exact Hd|]. intros st ?. by left. }
    auto.
  - intros posts_data.
    pose proof (save_post_insights_outcome posts_data srv) as Ho.
    destruct (SaveFacebook.save_post_insights posts_data srv)
      as [[[]|e] srv']; cbn [snd]; [|by rewrite Ho].
    rewrite Ho.
    assert (Hp : Forall (fun st => exists r, st = UpsertPost r)
                   (Upserts.post_statements posts_data)).
    { apply Forall_forall. intros st (p & r & _ & _ & ->)%post_statements_rows. eauto. }
    destruct (run_statements_upserts_frame (current_timestamp srv)
                (Upserts.post_statements posts_data) (contents srv))
      as (H1 & H2 & _ & H4).
    { eapply Forall_impl; [exact Hp|]. intros st ?. by right. }
    auto.
Qed.

(** ** The page stats *)

Section PageStatsTable.

Import PageStats.

Lemma stat_conflict_key r x : stat_conflict r x = true <-> stat_date x = stat_date r.
Proof. unfold stat_conflict. apply Z.eqb_eq. Qed.

Lemma stat_update_key now r x : stat_date (stat_update now r x) = stat_date x.
Proof. reflexivity. Qed.

(** The two outcomes of [save_page_stats] for a dict that is not empty. *)
Lemma save_page_stats_outcome today stats_data srv :
  stats_truthy stats_data = true ->
  match save_page_stats today stats_data srv with
  | (Ok _, srv') =>
      table srv' = upsert_stat (stat_of today stats_data) (server_timestamp srv) (table srv)
  | (Raise _, srv') => table srv' = table srv
  end.
Proof.
  intros Ht. unfold save_page_stats, get_db_connection. rewrite Ht. cbn [negb].
  destruct (connect_error (stats_failing srv)); [done|].
  unfold try_finally, try_except, execute, commit, rollback. cbn.
  destruct (execute_error (stats_failing srv) 0); [done|]. cbn.
  by destruct (commit_error (stats_failing srv)).
Qed.

#[local] Instance by_date_total : Total by_date.
Proof. intros x y. unfold by_date. lia. Qed.

#[local] Instance by_date_transitive : Transitive by_date.
Proof. intros x y z. unfold by_date. lia. Qed.

Lemma last_week_sorted today t : StronglySorted by_date (last_week today t).
Proof. apply StronglySorted_merge_sort; apply _. Qed.

Lemma last_week_elem_of today t r :
  r ∈ last_week today t <-> r ∈ t /\ today - 7 <= stat_date r.
Proof.
  unfold last_week. rewrite merge_sort_Permutation, list_elem_of_filter. tauto.
Qed.

End PageStatsTable.

(** X23.  [save_page_stats] keeps one row per day.  For a dict that is not
    empty and a table with distinct dates: after a successful call the
    table has exactly one row for today, with the counts of the dict (0
    for a missing key), the rows of the other days are as before and the
    dates are still distinct; after a failed call the table is as before.
    For [None] or an empty dict nothing happens, not even a connection. *)
Theorem page_stats_keep_one_row_per_day
    (today : Z) (stats_data : option PageStats.page_stats) (srv : PageStats.stats_server) :
  NoDup (PageStats.stat_date <$> PageStats.table srv) ->
  let out := PageStats.save_page_stats today stats_data srv in
  (PageStats.stats_truthy stats_data = false -> out = (Ok tt, srv)) /\
  (PageStats.stats_truthy stats_data = true -> out.1 = Ok tt ->
   NoDup (PageStats.stat_date <$> PageStats.table out.2) /\
   (exists row,
      filter (fun r => PageStats.stat_date r = today) (PageStats.table out.2) = [row] /\
      PageStats.fan_count row
        = default 0 (stats_data ≫= PageStats.stats_fan_count) /\
      PageStats.followers_count row
        = default 0 (stats_data ≫= PageStats.stats_followers_count)) /\
   forall day, day <> today ->
     filter (fun r => PageStats.stat_date r = day) (PageStats.table out.2)
       = filter (fun r => PageStats.stat_date r = day) (PageStats.table srv)) /\
  (out.1 <> Ok tt -> PageStats.table out.2 = PageStats.table srv).
Proof.
  intros Hnd out. subst out. split; [|split].
  - intros Hf. unfold PageStats.save_page_stats. by rewrite Hf.
  - intros Ht Hok. pose proof (save_page_stats_outcome today stats_data srv Ht) as Ho.
    destruct (PageStats.save_page_stats today stats_data srv) as [[[]|e] srv'];
      [|discriminate]. cbn [snd]. rewrite Ho. unfold PageStats.upsert_stat.
    split; [|split].
    + apply upsert_NoDup;
        [apply stat_conflict_key | apply (stat_update_key (PageStats.server_timestamp srv))
        | exact Hnd].
    + pose proof (upsert_filter_key PageStats.stat_date PageStats.stat_conflict
                    (PageStats.stat_update (PageStats.server_timestamp srv))
                    stat_conflict_key
                    (stat_update_key (PageStats.server_timestamp srv))
                    (PageStats.stat_of today stats_data) (PageStats.table srv) Hnd) as Hf.
      cbn [PageStats.stat_date PageStats.stat_of] in Hf. rewrite Hf.
      destruct (filter _ (PageStats.table srv));
        (eexists; split; [reflexivity|split; reflexivity]).
    + intros day Hday.
      apply (upsert_filter_other PageStats.stat_date PageStats.stat_conflict
               (PageStats.stat_update (PageStats.server_timestamp srv))
               stat_conflict_key (stat_update_key (PageStats.server_timestamp srv))).
      exact Hday.
  - intros Hne. destruct (PageStats.stats_truthy stats_data) eqn:Ht.
    + pose proof (save_page_stats_outcome today stats_data srv Ht) as Ho.
      destruct (PageStats.save_page_stats today stats_data srv) as [[[]|e] srv'];
        [by destruct Hne | exact Ho].
    + unfold PageStats.save_page_stats in *. rewrite Ht in *. by destruct Hne.
Qed.

Lemma page_stats_keep_one_row_per_day_witness :
  exists row,
    filter (fun r => PageStats.stat_date r = ymd 2025 1 1)
      (PageStats.table
         (PageStats.save_page_stats (ymd 2025 1 1)
            (Some {| PageStats.stats_fan_count := Some 1050;
                     PageStats.stats_followers_count := None;
                     PageStats.other_keys := true |})
            PageStats.three_days).2) = [row] /\
    PageStats.fan_count row = 1050.
Proof.
  destruct (page_stats_keep_one_row_per_day (ymd 2025 1 1)
              (Some {| PageStats.stats_fan_count := Some 1050;
                       PageStats.stats_followers_count := None;
                       PageStats.other_keys := true |})
              PageStats.three_days) as (_ & H & _).
  { apply (bool_decide_unpack _). vm_compute. exact I. }
  destruct (H eq_refl) as (_ & (row & Hrow & Hfans & _) & _).
  { vm_compute. reflexivity. }
  by exists row.
Defined.

(** X24.  [calculate_fan_growth] answers with a growth only from two rows of
    the last seven days: the latest row and the row before it, with no row
    between them; the growth is the difference of their fan counts; and a
    count of 0 fans in the row before counts as no data. *)
Theorem fan_growth_compares_the_two_latest_days
    (srv : PageStats.stats_server) (g : PageStats.growth) :
  PageStats.calculate_fan_growth srv = Ok (Some g) ->
  PageStats.fan_growth g = PageStats.today_fans g - PageStats.yesterday_fans g /\
  PageStats.yesterday_fans g <> 0 /\
  exists latest previous,
    latest ∈ PageStats.table srv /\ previous ∈ PageStats.table srv /\
    PageStats.fan_count latest = PageStats.today_fans g /\
    PageStats.fan_count previous = PageStats.yesterday_fans g /\
    PageStats.server_date srv - 7 <= PageStats.stat_date previous /\
    PageStats.stat_date previous <= PageStats.stat_date latest /\
    forall r, r ∈ PageStats.table srv ->
              PageStats.server_date srv - 7 <= PageStats.stat_date r ->
              PageStats.stat_date r <= PageStats.stat_date latest /\
              (PageStats.stat_date r <= PageStats.stat_date previous \/
               PageStats.stat_date latest <= PageStats.stat_date r).
Proof.
  unfold PageStats.calculate_fan_growth, PageStats.get_db_connection.
  destruct (connect_error (PageStats.stats_failing srv)); [discriminate|].
  unfold PageStats.query. cbn [run PageStats.stats_faults PageStats.stats_executed
                               PageStats.stats_today PageStats.stats_pending].
  destruct (execute_error (PageStats.stats_failing srv) 0); [discriminate|].
  unfold PageStats.latest_with_lag.
  pose proof (last_week_sorted (PageStats.server_date srv) (PageStats.table srv)) as Hs.
  pose proof (last_week_elem_of (PageStats.server_date srv) (PageStats.table srv)) as Hin.
  rewrite <- (reverse_involutive (PageStats.last_week _ _)) in Hs, Hin.
  destruct (reverse (PageStats.last_week _ _)) as [|latest [|previous earlier]];
    cbn [PageStats.growth_of head fmap option_fmap option_map]; [discriminate..|].
  destruct (PageStats.fan_count previous =? 0) eqn:Hz; [discriminate|].
  intros [= <-]. cbn [PageStats.fan_growth PageStats.today_fans PageStats.yesterday_fans].
  apply Z.eqb_neq in Hz. split; [done|]. split; [done|].
  rewrite !reverse_cons, <- (assoc_L (++)) in Hs, Hin. cbn [app] in Hs, Hin.
  assert (Hl : latest ∈ reverse earlier ++ [previous; latest]).
  { rewrite elem_of_app, !elem_of_cons. tauto. }
  assert (Hp : previous ∈ reverse earlier ++ [previous; latest]).
  { rewrite elem_of_app, !elem_of_cons. tauto. }
  exists latest, previous.
  split; [by apply Hin|]. split; [by apply Hin|]. split; [done|]. split; [done|].
  split; [by apply Hin|].
  apply StronglySorted_app in Hs as (Hcross & _ & Htail).
  apply StronglySorted_inv in Htail as [_ Hpl].
  apply Forall_cons in Hpl as [Hpl _]. split; [exact Hpl|].
  intros r Hr Hw. assert (Hr' : r ∈ reverse earlier ++ [previous; latest]).
  { apply Hin. by split. }
  apply elem_of_app in Hr' as [He|Ht].
  - pose proof (Hcross r previous He) as H1. pose proof (Hcross r latest He) as H2.
    unfold PageStats.by_date in *.
    specialize (H1 ltac:(left)). specialize (H2 ltac:(right; left)). lia.
  - apply elem_of_cons in Ht as [->|Ht]; [unfold PageStats.by_date in *; lia|].
    apply list_elem_of_singleton in Ht as ->. lia.
Qed.

Lemma fan_growth_compares_the_two_latest_days_witness :
  PageStats.calculate_fan_growth PageStats.three_days
    = Ok (Some {| PageStats.today_fans := 1040; PageStats.yesterday_fans := 1010;
                  PageStats.fan_growth := 30 |}) /\
  PageStats.fan_growth {| PageStats.today_fans := 1040; PageStats.yesterday_fans := 1010;
                          PageStats.fan_growth := 30 |} = 1040 - 1010.
Proof.
  assert (E : PageStats.calculate_fan_growth PageStats.three_days
              = Ok (Some {| PageStats.today_fans := 1040; PageStats.yesterday_fans := 1010;
                            PageStats.fan_growth := 30 |})).
  { vm_compute. reflexivity. }
  split; [exact E|].
  exact (proj1 (fan_growth_compares_the_two_latest_days _ _ E)).
Defined.

(** X25.  Without two rows in the last seven days [calculate_fan_growth]
    returns [None]; so it does when the query fails, while a failure to
    connect is raised. *)
Theorem fan_growth_needs_two_days (srv : PageStats.stats_server) :
  match connect_error (PageStats.stats_failing srv) with
  | Some msg => PageStats.calculate_fan_growth srv = Raise (DatabaseError msg)
  | None =>
      (is_Some (execute_error (PageStats.stats_failing srv) 0) ->
       PageStats.calculate_fan_growth srv = Ok None) /\
      ((length (filter (fun r => (PageStats.server_date srv - 7 <= PageStats.stat_date r)%Z)
                       (PageStats.table srv)) < 2)%nat ->
       PageStats.calculate_fan_growth srv = Ok None)
  end.
Proof.
  unfold PageStats.calculate_fan_growth, PageStats.get_db_connection.
  destruct (connect_error (PageStats.stats_failing srv)); [done|].
  unfold PageStats.query. cbn [run PageStats.stats_faults PageStats.stats_executed
                               PageStats.stats_today PageStats.stats_pending].
  split.
  - by intros [msg ->].
  - intros Hlen. destruct (execute_error (PageStats.stats_failing srv) 0); [done|].
    unfold PageStats.latest_with_lag.
    assert (Hl : (length (reverse (PageStats.last_week (PageStats.server_date srv)
                                     (PageStats.table srv))) < 2)%nat).
    { rewrite length_reverse. unfold PageStats.last_week.
      by rewrite merge_sort_Permutation. }
    destruct (reverse _) as [|latest [|previous earlier]]; [done..|].
    cbn in Hl. lia.
Qed.

(** ** The snapshot and the response *)

Section SnapshotOfResponse.

Import App Snapshot.

Lemma users_dict_lookup rs d d' c :
  users_dict rs d = Ok d' ->
  d' !! c = match last_count rs c with Some n => Some n | None => d !! c end.
Proof.
  revert d. induction rs as [|row rs IH]; intros d; cbn [users_dict].
  - by intros [= <-].
  - unfold last_count. cbn [omap list_omap].
    destruct (row_key_count row) as [[k n]|e] eqn:E; [|discriminate].
    intros H. rewrite (IH _ H). fold (last_count rs c).
    destruct (decide (k = c)) as [->|Hne].
    + rewrite last_cons. fold (last_count rs c).
      destruct (last_count rs c); [done|]. by rewrite lookup_insert_eq.
    + fold (last_count rs c).
      destruct (last_count rs c); [done|]. by rewrite lookup_insert_ne.
Qed.

Lemma users_dict_last_count rs d c :
  users_dict rs ∅ = Ok d -> d !! c = last_count rs c.
Proof.
  intros H. rewrite (users_dict_lookup _ _ _ c H).
  destruct (last_count rs c); [done|]. apply lookup_empty.
Qed.

Lemma source_rows_of_report rs :
  Forall well_formed rs ->
  Forall2 (fun row r => row_key_count row = Ok (source r, active_users r))
          rs (source_of <$> rs).
Proof.
  induction 1 as [|row rs (k & n & E) _ IH]; [constructor|].
  rewrite fmap_cons. constructor; [|exact IH].
  unfold source_of, key_count. by rewrite E.
Qed.

Lemma page_rows_of_report rs :
  Forall well_formed rs ->
  Forall2 (fun row r => row_key_count row = Ok (page_title r, views r) /\
                        screen_name r = page_title r)
          rs (page_of <$> rs).
Proof.
  induction 1 as [|row rs (k & n & E) _ IH]; [constructor|].
  rewrite fmap_cons. constructor; [|exact IH].
  unfold page_of, key_count. by rewrite E.
Qed.

(** What a successful write leaves in the three tables. *)
Lemma save_to_database_exactly data srv srv' :
  save_to_database data srv = (Ok tt, srv') ->
  exactly_the_rows_of data (contents srv').
Proof.
  intros H.
  destruct (save_to_database_tables _ _ _ H) as (T & _ & d5 & d30 & E5 & E30).
  pose proof (save_to_database_rows _ _ _ H) as Hwf.
  rewrite !Forall_app in Hwf. destruct Hwf as (_ & _ & Hdev & Hpage).
  unfold snapshot_tables in T. injection T as T1 T2 T3.
  unfold exactly_the_rows_of. rewrite T1, T2, T3.
  split; [|split; [|split]].
  - unfold location_rows. apply NoDup_omap; [apply city_row_inj | apply NoDup_elements].
  - intros r. unfold location_rows, dict_of. rewrite E5, E30.
    rewrite list_elem_of_omap. unfold city_row. split.
    + intros (c & Hc%elem_of_elements & E).
      destruct (VIETNAM_CITIES !! c) as [info|] eqn:Ei; [|done].
      injection E as <-. exists c, info. split; [|split; [done|]].
      * rewrite elem_of_union, (users_dict_dom _ _ _ E5), (users_dict_dom _ _ _ E30) in Hc.
        rewrite dom_empty_L in Hc.
        destruct Hc as [[[]%elem_of_empty|(row & Hr & E)]|[[]%elem_of_empty|(row & Hr & E)]];
          exists row; (split; [apply elem_of_app; auto | done]).
      * by rewrite (users_dict_last_count _ _ c E5), (users_dict_last_count _ _ c E30).
    + intros (c & info & (row & Hr & Ec) & Ei & ->). exists c. split.
      * apply elem_of_elements.
        rewrite elem_of_union, (users_dict_dom _ _ _ E5), (users_dict_dom _ _ _ E30).
        apply elem_of_app in Hr as [Hr|Hr]; [left|right]; right; eauto.
      * rewrite Ei. cbn.
        by rewrite (users_dict_last_count _ _ c E5), (users_dict_last_count _ _ c E30).
  - by apply source_rows_of_report.
  - by apply page_rows_of_report.
Qed.

End SnapshotOfResponse.

(** C9.  After a successful realtime write the three snapshot tables hold
    exactly the rows of the response, whatever the store held before: a
    location row for each city of the two location reports that is in the
    reference table, with its counts, and the rows of the device and page
    reports in their order.  Writing the same response once more leaves
    the three tables equal to what they were, also when the second write
    fails; so after the second run, too, they hold exactly the rows of the
    response. *)
Theorem realtime_write_is_idempotent
    (data : App.ga4_data) (srv srv1 srv2 : server) (r2 : result unit) :
  App.save_to_database data srv = (Ok tt, srv1) ->
  App.save_to_database data srv1 = (r2, srv2) ->
  Snapshot.exactly_the_rows_of data (contents srv1) /\
  Snapshot.exactly_the_rows_of data (contents srv2) /\
  user_by_location (contents srv2) = user_by_location (contents srv1) /\
  user_by_source (contents srv2) = user_by_source (contents srv1) /\
  views_by_page (contents srv2) = views_by_page (contents srv1).
Proof.
  intros H1 H2.
  pose proof (save_to_database_exactly _ _ _ H1) as Hex.
  assert (Hsame : contents srv2 = contents srv1 \/
                  snapshot_tables (contents srv2) = snapshot_tables (contents srv1)).
  { destruct r2 as [[]|e].
    - right. destruct (save_to_database_tables _ _ _ H1) as (T1 & _).
      destruct (save_to_database_tables _ _ _ H2) as (T2 & _). congruence.
    - left. by eapply save_to_database_rollback. }
  assert (Htab : user_by_location (contents srv2) = user_by_location (contents srv1) /\
                 user_by_source (contents srv2) = user_by_source (contents srv1) /\
                 views_by_page (contents srv2) = views_by_page (contents srv1)).
  { destruct Hsame as [->|E]; [done|]. unfold snapshot_tables in E.
    injection E as E1 E2 E3. by rewrite E1, E2, E3. }
  split; [exact Hex|]. split; [|exact Htab].
  destruct Htab as (E1 & E2 & E3). unfold Snapshot.exactly_the_rows_of in *.
  by rewrite E1, E2, E3.
Qed.

Lemma realtime_write_is_idempotent_witness :
  App.save_to_database Sample.hanoi_paris Sample.healthy
    = (Ok tt, (App.save_to_database Sample.hanoi_paris Sample.healthy).2) /\
  Snapshot.exactly_the_rows_of Sample.hanoi_paris
    (contents (App.save_to_database Sample.hanoi_paris
                 (App.save_to_database Sample.hanoi_paris Sample.healthy).2).2).
Proof.
  assert (H : App.save_to_database Sample.hanoi_paris Sample.healthy
              = (Ok tt, (App.save_to_database Sample.hanoi_paris Sample.healthy).2))
    by (vm_compute; reflexivity).
  split; [exact H|].
  exact (proj1 (proj2 (realtime_write_is_idempotent Sample.hanoi_paris Sample.healthy
                         _ _ _ H (surjective_pairing _)))).
Defined.

(** The tables after two writes of the sample response onto the tables
    of an earlier cycle. *)
Example two_writes_of_hanoi_paris :
  snapshot_tables
    (contents (App.save_to_database Sample.hanoi_paris
                 (App.save_to_database Sample.hanoi_paris Sample.healthy).2).2)
    = ([Sample.hanoi_row],
       [{| source := "mobile"; active_users := 40 |};
        {| source := "desktop"; active_users := 9 |}],
       [{| page_title := "Trang chu"; screen_name := "Trang chu"; views := 120 |}]).
Proof. vm_compute. reflexivity. Qed.

(** ** The three ways through the token gate *)

#[local] Instance appends_reflexive : Reflexive Keeps.appends.
Proof. intros p. by exists []. Qed.

#[local] Instance appends_transitive : Transitive Keeps.appends.
Proof.
  intros p1 p2 p3 [n1 E1] [n2 E2]. exists (n2 ++ n1). by rewrite E2, E1, (assoc_L (++)).
Qed.

Section TokenGateWays.

Import Token FetchFacebook Gate Keeps.

Variable w : world.

Lemma appends_untouched p p' : calls p' = calls p -> appends p p'.
Proof. intros E. exists []. by rewrite E. Qed.

Lemma appends_log ev : preserves appends (log ev).
Proof. intros p. by exists [ev]. Qed.

Lemma appends_getenv key : preserves appends (getenv key).
Proof. intros p. by apply appends_untouched. Qed.

Lemma appends_load_dotenv : preserves appends load_dotenv_override.
Proof. intros p. by apply appends_untouched. Qed.

Lemma appends_timestamp : preserves appends (timestamp w).
Proof. intros p. by apply appends_untouched. Qed.

Lemma appends_verify_token m t : preserves appends (verify_token w m t).
Proof. intros p. rewrite run_verify_token. by exists [DebugToken t]. Qed.

Lemma appends_update_env_file key value : preserves appends (update_env_file w key value).
Proof.
  intros p. unfold update_env_file. destruct (set_key_fails w key); [reflexivity|].
  by exists [SetKey key value].
Qed.

Lemma appends_get_page_access_token m u :
  preserves appends (get_page_access_token w m u).
Proof.
  unfold get_page_access_token. apply preserves_bind; [apply _|apply appends_log|].
  intros _. destruct (me_accounts _ _ _) as [e|status_code pages];
    [apply preserves_raise; apply _|].
  destruct (status_code =? 200); apply preserves_ret; apply _.
Qed.

Lemma appends_exchange m t : preserves appends (exchange_for_long_lived_token w m t).
Proof.
  unfold exchange_for_long_lived_token. apply preserves_bind; [apply _|apply appends_log|].
  intros _. destruct (oauth_access_token _ _ _ _ _) as [e|status_code body];
    [apply preserves_raise; apply _|].
  destruct (status_code =? 200); apply preserves_ret; apply _.
Qed.

Lemma appends_refresh_page_token m : preserves appends (refresh_page_token w m).
Proof.
  unfold refresh_page_token.
  apply preserves_bind; [apply _|apply appends_get_page_access_token|].
  intros page_token. destruct (truthy page_token); [|apply preserves_ret; apply _].
  apply preserves_bind; [apply _|apply appends_update_env_file|]. intros _.
  apply preserves_bind; [apply _|apply appends_verify_token|]. intros _.
  apply preserves_ret; apply _.
Qed.

(** [refresh_tokens] puts its own mark among the new calls. *)
Lemma refresh_tokens_appends m p :
  exists new, calls (run (refresh_tokens w m) p).2 = new ++ calls p /\
              RefreshTokens ∈ new.
Proof.
  unfold refresh_tokens. rewrite run_bind, run_log.
  match goal with |- context [run ?rest (logged RefreshTokens p)] =>
    assert (Hrest : preserves appends rest) end.
  { destruct (truthy (user_token m)); [|apply appends_refresh_page_token].
    apply preserves_bind; [apply _|apply appends_verify_token|]. intros token_info.
    destruct (reports_valid token_info); [|apply preserves_ret; apply _].
    apply preserves_bind; [apply _|apply appends_timestamp|]. intros now.
    destruct (Qltb _ _); [|apply appends_refresh_page_token].
    apply preserves_bind; [apply _|apply appends_exchange|]. intros long_lived_token.
    destruct (truthy long_lived_token); [|apply appends_refresh_page_token].
    apply preserves_bind; [apply _|apply appends_update_env_file|]. intros _.
    apply appends_refresh_page_token. }
  destruct (Hrest (logged RefreshTokens p)) as [new E].
  exists (new ++ [RefreshTokens]). split.
  - rewrite E. cbn [calls logged]. by rewrite <- (assoc_L (++)).
  - apply elem_of_app. right. left.
Qed.

Lemma refresh_and_reload_appends p :
  exists new, calls (run (refresh_and_reload w) p).2 = new ++ calls p /\
              RefreshTokens ∈ new.
Proof.
  unfold refresh_and_reload. rewrite run_bind, run_init, run_bind.
  destruct (refresh_tokens_appends (manager_of (environ p)) p) as (new1 & E1 & Hin).
  destruct (run (refresh_tokens w (manager_of (environ p))) p) as [[[]|e] p1];
    cbn [snd] in E1; [|exists new1; by split..].
  assert (Hk : preserves appends
                 (load_dotenv_override ;;
                  let! new_token := getenv "FACEBOOK_PAGE_ACCESS_TOKEN" in
                  if truthy new_token
                  then let! token_info :=
                         verify_token w (manager_of (environ p)) (default "" new_token) in
                       if reports_valid token_info then ret new_token else ret None
                  else ret None)).
  { apply preserves_bind; [apply _|apply appends_load_dotenv|]. intros _.
    apply preserves_bind; [apply _|apply appends_getenv|]. intros new_token.
    destruct (truthy new_token); [|apply preserves_ret; apply _].
    apply preserves_bind; [apply _|apply appends_verify_token|]. intros token_info.
    destruct (reports_valid token_info); apply preserves_ret; apply _. }
  destruct (Hk p1) as [new2 E2]. exists (new2 ++ new1). split.
  - rewrite E2, E1. by rewrite (assoc_L (++)).
  - apply elem_of_app. by right.
Qed.

(** Without a token that is still good, the introspection request raises
    and its exception leaves the function, or the request (if one is made)
    is answered and the lines after the refresh run. *)
Lemma get_valid_page_token_ways p :
  still_good w p = false ->
  (exists t e p1,
     current_token p = Some t /\ truthy (Some t) = true /\
     introspect w (manager_of (env_of p)) t = Unreachable e /\
     run (get_valid_page_token w) p = (Raise e, p1) /\
     calls p1 = [DebugToken t] ++ calls p) \/
  (answers w p /\
   exists p0 before,
     run (get_valid_page_token w) p = run (refresh_and_reload w) p0 /\
     calls p0 = before ++ calls p).
Proof.
  unfold still_good, get_valid_page_token, answers, current_token.
  rewrite run_bind, run_load_dotenv, run_bind, run_getenv.
  change (environ (reload p)) with (env_of p).
  destruct (env_of p !! "FACEBOOK_PAGE_ACCESS_TOKEN") as [t|];
    [|intros _; right; split; [by intros ? [=]|by exists (reload p), []]].
  destruct (truthy (Some t)) eqn:Ht;
    [|intros _; right; split; [intros ? [= <-]; congruence|by exists (reload p), []]].
  cbn [andb]. change (default "" (Some t)) with t.
  rewrite run_bind, run_init, run_bind, run_verify_token.
  change (environ (reload p)) with (env_of p).
  destruct (introspect w (manager_of (env_of p)) t) as [e|status_code body] eqn:Hi.
  { intros _. left. by exists t, e, (logged (DebugToken t) (reload p)). }
  assert (Hans : forall t0, Some t = Some t0 -> truthy (Some t0) = true ->
                   exists s b, introspect w (manager_of (env_of p)) t0 = Answer s b).
  { intros t0 [= <-] _. eauto. }
  destruct (reports_valid (token_info_of status_code body));
    [|intros _; right; split; [exact Hans|];
      by exists (logged (DebugToken t) (reload p)), [DebugToken t]].
  cbn [andb]. intros [H0 H1]%orb_false_iff. rewrite H0.
  rewrite run_bind, run_timestamp.
  change (readings (logged (DebugToken t) (reload p))) with (readings p).
  rewrite H1. right. split; [exact Hans|].
  by exists (ticked (logged (DebugToken t) (reload p))), [DebugToken t].
Qed.

End TokenGateWays.

(** C5, as the code has it.  [get_valid_page_token] goes one of three
    ways.  It returns the current page token after the introspection
    request and nothing else, exactly when the token is reported valid and
    either never expires or has more than one hour left.  If the
    introspection request itself raises, the exception leaves the function
    after that one request, and there is no refresh.  In every other case
    [refresh_tokens] is called. *)
Theorem current_token_gate_goes_three_ways (w : Token.world) (p : Token.process) :
  exists new,
    Token.calls (run (FetchFacebook.get_valid_page_token w) p).2 = new ++ Token.calls p /\
    (Gate.still_good w p = true <->
     exists t,
       Gate.current_token p = Some t /\
       (run (FetchFacebook.get_valid_page_token w) p).1 = Ok (Some t) /\
       new = [Token.DebugToken t]) /\
    (forall t e,
       Gate.current_token p = Some t ->
       truthy (Some t) = true ->
       Gate.introspect w (Gate.manager_of (Gate.env_of p)) t = Token.Unreachable e ->
       (run (FetchFacebook.get_valid_page_token w) p).1 = Raise e /\
       new = [Token.DebugToken t]) /\
    (Gate.still_good w p = false ->
     Gate.answers w p ->
     Token.RefreshTokens ∈ new).
Proof.
  destruct (Gate.still_good w p) eqn:Hgood.
  - destruct (get_valid_page_token_still_good w p Hgood) as (t & p' & Hc & Hrun & Hcalls).
    exists [Token.DebugToken t]. rewrite Hrun. cbn [fst snd].
    split; [exact Hcalls|]. split; [|split].
    + split; [intros _; by exists t | done].
    + intros t0 e Hc0 Ht0 Hi. exfalso. revert Hgood. unfold Gate.still_good.
      rewrite Hc0, Ht0, Hi. discriminate.
    + discriminate.
  - destruct (get_valid_page_token_ways w p Hgood)
      as [(t & e & p1 & Hc & Ht & Hi & Hrun & Hcalls)|(Hans & p0 & before & Hrun & Hcalls)].
    + exists [Token.DebugToken t]. rewrite Hrun. cbn [fst snd].
      split; [exact Hcalls|]. split; [|split].
      * split; [discriminate|]. by intros (t0 & _ & [=] & _).
      * intros t0 e0 Hc0 _ Hi0. assert (t0 = t) as -> by congruence.
        split; congruence.
      * intros _ Ha. destruct (Ha t Hc Ht) as (s & b & Hi'). congruence.
    + destruct (refresh_and_reload_appends w p0) as (new & Enew & Hin).
      exists (new ++ before). rewrite Hrun. split; [|split; [|split]].
      * by rewrite Enew, Hcalls, (assoc_L (++)).
      * split; [discriminate|]. intros (t0 & _ & _ & E).
        assert (Hr : Token.RefreshTokens ∈ new ++ before) by (apply elem_of_app; by left).
        rewrite E in Hr. by apply list_elem_of_singleton in Hr.
      * intros t0 e0 Hc0 Ht0 Hi0. destruct (Hans t0 Hc0 Ht0) as (s & b & Hi'). congruence.
      * intros _ _. apply elem_of_app. by left.
Qed.

Lemma current_token_gate_goes_three_ways_witness :
  (run (FetchFacebook.get_valid_page_token TokenSample.two_hours_left)
       TokenSample.fresh).1 = Ok (Some "OLD") /\
  (run (FetchFacebook.get_valid_page_token TokenSample.introspection_down)
       TokenSample.fresh).1 = Raise (RequestException "connection refused").
Proof.
  split.
  - destruct (current_token_gate_goes_three_ways TokenSample.two_hours_left
                TokenSample.fresh) as (new & _ & Hgood & _).
    destruct (proj1 Hgood) as (t & Hc & Hr & _); [vm_compute; reflexivity|].
    rewrite Hr. f_equal. revert Hc. vm_compute. congruence.
  - destruct (current_token_gate_goes_three_ways TokenSample.introspection_down
                TokenSample.fresh) as (new & _ & _ & Hraise & _).
    refine (proj1 (Hraise "OLD" (RequestException "connection refused") _ eq_refl _));
      vm_compute; reflexivity.
Defined.

(** Two runs that are neither of the two ways of the specification: with the
    Graph API out of reach the token is not good, and yet there is no
    refresh, and no token; and with thirty minutes left the refresh runs
    and returns the token that was current. *)
Lemma gate_raises_or_returns_the_same_token :
  (Gate.still_good TokenSample.introspection_down TokenSample.fresh = false /\
   run (FetchFacebook.get_valid_page_token TokenSample.introspection_down)
       TokenSample.fresh
     = (Raise (RequestException "connection refused"),
        Gate.logged (Token.DebugToken "OLD") (Gate.reload TokenSample.fresh)) /\
   Token.calls (Gate.logged (Token.DebugToken "OLD") (Gate.reload TokenSample.fresh))
     = [Token.DebugToken "OLD"]) /\
  (Gate.still_good TokenSample.same_token_again TokenSample.fresh = false /\
   Gate.current_token TokenSample.fresh = Some "OLD" /\
   (run (FetchFacebook.get_valid_page_token TokenSample.same_token_again)
        TokenSample.fresh).1 = Ok (Some "OLD") /\
   Token.calls (run (FetchFacebook.get_valid_page_token TokenSample.same_token_again)
                    TokenSample.fresh).2
     = [Token.DebugToken "OLD"; Token.DebugToken "OLD";
        Token.SetKey "FACEBOOK_PAGE_ACCESS_TOKEN" "OLD";
        Token.MeAccounts (Some "USER"); Token.DebugToken "USER";
        Token.RefreshTokens; Token.DebugToken "OLD"]).
Proof. repeat split; vm_compute; reflexivity. Qed.



(** ** What [fetch_facebook_insights] stores *)

Section StoredInsights.

Import DailyInsights Upserts.

Variable fromisoformat_date : string -> result Z.

Lemma save_insights_dated insights_data srv srv' :
  save_insights fromisoformat_date insights_data srv = (Ok tt, srv') ->
  Forall (dated fromisoformat_date) insights_data.
Proof.
  unfold save_insights, get_db_connection.
  destruct (connect_error (failing srv)); [discriminate|].
  match goal with |- context [run (try_finally ?m close) ?c] =>
    assert (Ha : all_or_nothing m);
    [|pose proof (closing_all_or_nothing m c Ha) as H;
      destruct (run (try_finally m close) c) as [[u|e] c'] eqn:Hrun] end.
  { apply all_or_nothing_bind; [|intros; apply all_or_nothing_commit].
    apply in_transaction_for_each, in_transaction_save_block. }
  - intros _. destruct H as (c1 & a & Hm & _).
    apply run_bind_Ok in Hm as ([] & c2 & Hm & _).
    eapply for_each_rows; [|exact Hm].
    intros b c3 c4 Hb. unfold save_block in Hb. eapply for_each_rows; [|exact Hb].
    intros e c5 c6 He. unfold save_entry in He.
    apply run_bind_Ok in He as (d & ? & [Hd _]%run_lift_result_Ok & _). eauto.
  - discriminate.
Qed.

Lemma store_answer_stores body srv srv' :
  store_answer fromisoformat_date body srv = (true, srv') ->
  default [] (data body) <> [] /\
  Forall (dated fromisoformat_date) (default [] (data body)) /\
  contents srv' =
    run_statements (current_timestamp srv)
      (daily_statements fromisoformat_date (default [] (data body))) (contents srv).
Proof.
  unfold store_answer. destruct (default [] (data body)) as [|b bs] eqn:E; [discriminate|].
  pose proof (save_insights_outcome fromisoformat_date (b :: bs) srv) as Ho.
  pose proof (save_insights_dated (b :: bs) srv) as Hd.
  destruct (save_insights fromisoformat_date (b :: bs) srv) as [[[]|e] srv1];
    [|discriminate].
  intros [= <-]. split; [done|]. split; [by eapply Hd|exact Ho].
Qed.

Lemma store_answer_keeps body srv srv' :
  store_answer fromisoformat_date body srv = (false, srv') ->
  contents srv' = contents srv.
Proof.
  intros H. pose proof (store_answer_outcome fromisoformat_date body srv) as Ho.
  by rewrite H in Ho.
Qed.

End StoredInsights.

(** X18.  [fetch_facebook_insights] changes the store only when it returns
    [True].  Then the token came from [get_valid_page_token] (from the
    first call, or from the call after a token error), the insights
    endpoint answered the request made with this token, the answer has
    data, every value of it has an end time that parses, and the store is
    the one before with the upserts of all values of this answer, committed
    together.  When it returns [False] or raises, the store is as
    before. *)
Theorem insights_are_stored_only_on_true
    (fromisoformat_date : string -> result Z)
    (insights : DailyInsights.insights_params -> Token.reply DailyInsights.insights_body)
    (w : Token.world) (today : Z) (p : Token.process) (srv : server) :
  let out := DailyInsights.fetch_facebook_insights fromisoformat_date insights w today p srv in
  (out.1.1 = Ok true ->
   exists p0 token status_code body,
     (p0 = p \/ p0 = (run (FetchFacebook.get_valid_page_token w) p).2) /\
     run (FetchFacebook.get_valid_page_token w) p0 = (Ok (Some token), out.1.2) /\
     insights (DailyInsights.params today token) = Token.Answer status_code body /\
     default [] (DailyInsights.data body) <> [] /\
     Forall (dated fromisoformat_date) (default [] (DailyInsights.data body)) /\
     contents out.2 =
       run_statements (current_timestamp srv)
         (Upserts.daily_statements fromisoformat_date
            (default [] (DailyInsights.data body)))
         (contents srv)) /\
  (out.1.1 <> Ok true -> contents out.2 = contents srv).
Proof.
  set (Q := fun out : result bool * Token.process * server =>
    (out.1.1 = Ok true ->
     exists p0 token status_code body,
       (p0 = p \/ p0 = (run (FetchFacebook.get_valid_page_token w) p).2) /\
       run (FetchFacebook.get_valid_page_token w) p0 = (Ok (Some token), out.1.2) /\
       insights (DailyInsights.params today token) = Token.Answer status_code body /\
       default [] (DailyInsights.data body) <> [] /\
       Forall (dated fromisoformat_date) (default [] (DailyInsights.data body)) /\
       contents out.2 =
         run_statements (current_timestamp srv)
           (Upserts.daily_statements fromisoformat_date
              (default [] (DailyInsights.data body)))
           (contents srv)) /\
    (out.1.1 <> Ok true -> contents out.2 = contents srv)).
  change (Q (DailyInsights.fetch_facebook_insights fromisoformat_date insights w today p srv)).
  assert (Hstore : forall p0 token p1 status_code body,
            (p0 = p \/ p0 = (run (FetchFacebook.get_valid_page_token w) p).2) ->
            run (FetchFacebook.get_valid_page_token w) p0 = (Ok (Some token), p1) ->
            insights (DailyInsights.params today token) = Token.Answer status_code body ->
            Q (let '(saved, srv') :=
                 DailyInsights.store_answer fromisoformat_date body srv in
               (Ok saved, p1, srv'))).
  { intros p0 token p1 status_code body Hp0 Hrun Hans.
    destruct (DailyInsights.store_answer fromisoformat_date body srv) as [[] srv'] eqn:E;
      split; cbn [fst snd]; try done.
    - intros _. destruct (store_answer_stores _ _ _ _ E) as (Hne & Hd & Hc).
      by exists p0, token, status_code, body.
    - intros _. by eapply store_answer_keeps. }
  assert (Hfalse : forall (r : result bool) p1, r <> Ok true -> Q (r, p1, srv)).
  { intros r p1 Hr. split; cbn; done. }
  unfold DailyInsights.fetch_facebook_insights.
  destruct (run (FetchFacebook.get_valid_page_token w) p) as [[[token|]|e] p1] eqn:E1;
    [|by apply Hfalse..].
  destruct (negb (truthy (Some token))); [by apply Hfalse|].
  change (default "" (Some token)) with token.
  destruct (insights (DailyInsights.params today token)) as [e|status_code body] eqn:Ea;
    [by apply Hfalse|].
  destruct (_ && _); [by apply Hfalse|].
  assert (Hfirst : Q (let '(saved, srv') :=
                        DailyInsights.store_answer fromisoformat_date body srv in
                      (Ok saved, p1, srv'))).
  { eapply (Hstore p token p1); [by left|exact E1|exact Ea]. }
  destruct (DailyInsights.error body) as [code|]; [|exact Hfirst].
  destruct (DailyInsights.token_error code); [|exact Hfirst].
  destruct (run (FetchFacebook.get_valid_page_token w) p1) as [[[token'|]|e] p2] eqn:E2;
    [|by apply Hfalse..].
  destruct (truthy (Some token')); [|by apply Hfalse].
  change (default "" (Some token')) with token'.
  destruct (insights (DailyInsights.params today token')) as [e|status_code' body'] eqn:Eb;
    [by apply Hfalse|].
  destruct (_ && _); [by apply Hfalse|].
  eapply (Hstore p1 token' p2); [right; reflexivity|exact E2|exact Eb].
Qed.

Lemma insights_are_stored_only_on_true_witness :
  (DailyInsights.fetch_facebook_insights SocialSample.iso_date
     SocialSample.one_day_of_views TokenSample.two_hours_left (ymd 2025 1 2)
     TokenSample.fresh Sample.healthy).1.1 = Ok true /\
  exists token status_code body,
    SocialSample.one_day_of_views (DailyInsights.params (ymd 2025 1 2) token)
      = Token.Answer status_code body /\
    contents (DailyInsights.fetch_facebook_insights SocialSample.iso_date
                SocialSample.one_day_of_views TokenSample.two_hours_left (ymd 2025 1 2)
                TokenSample.fresh Sample.healthy).2 =
      run_statements (current_timestamp Sample.healthy)
        (Upserts.daily_statements SocialSample.iso_date
           (default [] (DailyInsights.data body)))
        (contents Sample.healthy).
Proof.
  assert (H : (DailyInsights.fetch_facebook_insights SocialSample.iso_date
                 SocialSample.one_day_of_views TokenSample.two_hours_left (ymd 2025 1 2)
                 TokenSample.fresh Sample.healthy).1.1 = Ok true).
  { vm_compute. reflexivity. }
  split; [exact H|].
  destruct (proj1 (insights_are_stored_only_on_true SocialSample.iso_date
                     SocialSample.one_day_of_views TokenSample.two_hours_left (ymd 2025 1 2)
                     TokenSample.fresh Sample.healthy) H)
    as (p0 & token & status_code & body & _ & _ & Hans & _ & _ & Hc).
  by exists token, status_code, body.
Defined.
